(** * LLMSimulator: the analytic cost-modelling engine

    A shallow embedding of [core/data/specs.py], [core/ops/metrics.py],
    [core/ops/fused_ops.py], the four estimator modules of [core/module],
    the dispatcher of [core/estimation/analytic.py] and the aggregation of
    [entrypoints/simulator.py], followed by the properties of the
    specification that are about them.

    Numbers.  Python [int] is [Z].  Python [float] is [pyfloat]: a rational,
    or one of the three special values [+inf], [-inf], [nan].  The special
    values follow the IEEE rules Python uses, [/] raises
    [ZeroDivisionError] on a zero divisor, and comparisons with [nan] are
    false.  [fadd], [fmul], [fquot] and [of_Z] stand for the program's [+],
    [*], [/] and [float(int)] and give the exact value these approximate; the
    sign of zero is not modelled.  The rounding of the binary64 format is
    modelled, by [round_double], at the two places where the program lets it
    be seen: [int(tokens * avg)] of the MoE estimator, which truncates a
    product, and [float(layer_id)] of the dispatcher.  The properties are
    stated so that they hold of the program's own arithmetic: a closed form
    is claimed only for integers a double holds exactly ([exact_int]), and
    that a value is returned only for integers far inside the range of
    [float(int)] ([modest]).

    Exceptions.  A computation that may raise returns [res A], and the
    statements of a function are sequenced with the monad's bind in the
    order Python evaluates them.

    Classes.  A dataclass is a record in a module of its name, with its
    methods beside it; [__init__] is [init].  Two functions of the source are
    cut in two, so that the properties can name each half:
    [AnalyticEstimator.estimate_layer] into its [isinstance] chain
    ([module_estimate]) and the statements that follow ([back_fill]), and
    [run_simulation] into the call of the estimator and the folds over the
    executions ([aggregate], with [peak_memory_of] and
    [bottleneck_layer_of]). *)

From Stdlib Require Import ZArith QArith Qcanon Qround Lia.
From stdpp Require Import base numbers option list gmap strings pretty.

Local Open Scope Z_scope.

(** ** Exceptions and the result monad *)

Inductive pyexn : Type :=
  | ZeroDivisionError
  | ValueError
  | OverflowError
  | TypeError.

Inductive res (A : Type) : Type :=
  | Ok (a : A)
  | Raise (e : pyexn).
Arguments Ok {A} a.
Arguments Raise {A} e.

Global Instance res_ret : MRet res := λ A a, Ok a.

Global Instance res_bind : MBind res := λ A B k m,
  match m with
  | Ok a => k a
  | Raise e => Raise e
  end.

(** ** Floats *)

Inductive pyfloat : Type :=
  | Fin (q : Qc)
  | PInf
  | NInf
  | NaN.

Definition of_Z (z : Z) : pyfloat := Fin (Qc_of_Z z).

(** The float literals of the source. *)
Definition f0 : pyfloat := of_Z 0.
Definition f1 : pyfloat := of_Z 1.
Definition f3 : pyfloat := of_Z 3.
Definition f8 : pyfloat := of_Z 8.
Definition f1e3 : pyfloat := of_Z 1000.
Definition f1e6 : pyfloat := of_Z 1000000.
Definition f1e9 : pyfloat := of_Z 1000000000.
Definition f1e12 : pyfloat := of_Z 1000000000000.
Definition f1e_3 : pyfloat := Fin (Q2Qc (1 # 1000)).
Definition inf : pyfloat := PInf.

Definition Qc_ltb (a b : Qc) : bool := bool_decide (a < b)%Qc.
Definition Qc_leb (a b : Qc) : bool := bool_decide (a ≤ b)%Qc.
Definition Qc_is0 (a : Qc) : bool := bool_decide (a = 0%Qc).

(** [a < b] *)
Definition fltb (a b : pyfloat) : bool :=
  match a, b with
  | NaN, _ | _, NaN => false
  | Fin x, Fin y => Qc_ltb x y
  | NInf, NInf => false
  | NInf, _ => true
  | _, NInf => false
  | PInf, _ => false
  | Fin _, PInf => true
  end.

(** [a <= b] *)
Definition fleb (a b : pyfloat) : bool :=
  match a, b with
  | NaN, _ | _, NaN => false
  | Fin x, Fin y => Qc_leb x y
  | NInf, _ => true
  | _, PInf => true
  | PInf, _ => false
  | Fin _, NInf => false
  end.

(** [a > b] and [a >= b] *)
Definition fgtb (a b : pyfloat) : bool := fltb b a.
Definition fgeb (a b : pyfloat) : bool := fleb b a.

Definition is_nan (a : pyfloat) : bool :=
  match a with NaN => true | _ => false end.

Definition is_finite (a : pyfloat) : bool :=
  match a with Fin _ => true | _ => false end.

Definition fadd (a b : pyfloat) : pyfloat :=
  match a, b with
  | NaN, _ | _, NaN => NaN
  | Fin x, Fin y => Fin (x + y)
  | PInf, NInf | NInf, PInf => NaN
  | PInf, _ | _, PInf => PInf
  | NInf, _ | _, NInf => NInf
  end.

(** The infinity whose sign is that of [q] times [pos]; [nan] for [q = 0]. *)
Definition inf_signed (pos : bool) (q : Qc) : pyfloat :=
  if Qc_is0 q then NaN
  else if Qc_ltb 0 q then (if pos then PInf else NInf)
  else (if pos then NInf else PInf).

Definition fmul (a b : pyfloat) : pyfloat :=
  match a, b with
  | NaN, _ | _, NaN => NaN
  | Fin x, Fin y => Fin (x * y)
  | PInf, Fin y => inf_signed true y
  | NInf, Fin y => inf_signed false y
  | Fin x, PInf => inf_signed true x
  | Fin x, NInf => inf_signed false x
  | PInf, PInf | NInf, NInf => PInf
  | PInf, NInf | NInf, PInf => NInf
  end.

(** The quotient [a / b] for a divisor that is not zero. *)
Definition fquot (a b : pyfloat) : pyfloat :=
  match a, b with
  | NaN, _ | _, NaN => NaN
  | Fin x, Fin y => Fin (x / y)
  | Fin _, _ => f0
  | PInf, Fin y => inf_signed true y
  | NInf, Fin y => inf_signed false y
  | _, _ => NaN
  end.

Definition is_zero (a : pyfloat) : bool :=
  match a with Fin q => Qc_is0 q | _ => false end.

(** Python's [a / b]: a zero divisor raises, whatever the dividend. *)
Definition fdiv (a b : pyfloat) : res pyfloat :=
  if is_zero b then Raise ZeroDivisionError else Ok (fquot a b).

(** Python's two-argument [max(a, b)]: the first argument is kept unless the
    second is strictly greater. *)
Definition fmax (a b : pyfloat) : pyfloat := if fgtb b a then b else a.

(** [int(x)] of a float: truncation toward zero. *)
Definition Qc_trunc (q : Qc) : Z := Z.quot (Qnum q) (Z.pos (Qden q)).

Definition int_of_float (a : pyfloat) : res Z :=
  match a with
  | Fin q => Ok (Qc_trunc q)
  | PInf | NInf => Raise OverflowError
  | NaN => Raise ValueError
  end.

(** Python's [sum(xs)]: a left fold of [+] from the integer [0]. *)
Definition py_sum (xs : list pyfloat) : pyfloat := fold_left fadd xs f0.

(** Python's [max(xs, key=key)] over an iterable: the first item is the
    candidate, a later item replaces it when its key is strictly greater;
    an empty iterable raises [ValueError]. *)
Definition py_max_by {A : Type} (key : A → pyfloat) (xs : list A) : res A :=
  match xs with
  | [] => Raise ValueError
  | x :: xs' => Ok (fold_left (λ m y, if fgtb (key y) (key m) then y else m) xs' x)
  end.

Definition py_max (xs : list pyfloat) : res pyfloat := py_max_by id xs.

(** ** Doubles *)

(** [n / d] rounded to the nearest integer, a tie to the even one
    ([0 <= n], [0 < d]). *)
Definition round_half_even (n d : Z) : Z :=
  let f := n `div` d in
  match 2 * (n `mod` d) ?= d with
  | Lt => f
  | Gt => f + 1
  | Eq => if Z.even f then f else f + 1
  end.

(** The exponent of [n / d]: the [e] with [2^e <= n / d < 2^(e+1)]
    ([0 < n], [0 < d]). *)
Definition floor_log2 (n d : Z) : Z :=
  let k := Z.log2 n - Z.log2 d in
  if 0 <=? k
  then (if n <? d * 2 ^ k then k - 1 else k)
  else (if n * 2 ^ (- k) <? d then k - 1 else k).

(** [m * 2^ex] *)
Definition Qc_scale (m ex : Z) : Qc :=
  if 0 <=? ex then Qc_of_Z (m * 2 ^ ex)
  else (Qc_of_Z m / Qc_of_Z (2 ^ (- ex)))%Qc.

(** The double nearest to [n / d] ([0 < n], [0 < d]): a significand of 53
    bits, or of fewer below [2^-1022], ties to the even significand; [+inf]
    when the rounded value reaches [2^1024]. *)
Definition round_double_pos (n d : Z) : pyfloat :=
  let e := floor_log2 n d in
  let ex := Z.max (e - 52) (-1074) in
  let m := if 0 <=? ex then round_half_even n (d * 2 ^ ex)
           else round_half_even (n * 2 ^ (- ex)) d in
  if (971 <=? ex) && (2 ^ 1024 <=? m * 2 ^ ex) then PInf else Fin (Qc_scale m ex).

(** The double nearest to the rational [q]. *)
Definition round_double (q : Qc) : pyfloat :=
  match Qnum q with
  | 0 => Fin 0%Qc
  | Z.pos n => round_double_pos (Z.pos n) (Z.pos (Qden q))
  | Z.neg n =>
      match round_double_pos (Z.pos n) (Z.pos (Qden q)) with
      | Fin p => Fin (- p)%Qc
      | _ => NInf
      end
  end.

(** [float(z)] of an integer, also where an integer meets a float in [*]:
    the nearest double, and [OverflowError] beyond the range. *)
Definition float_of_int (z : Z) : res pyfloat :=
  match round_double (Qc_of_Z z) with
  | Fin q => Ok (Fin q)
  | _ => Raise OverflowError
  end.

(** The product of two doubles as the program computes it: the exact product
    rounded to the nearest double, [+inf] or [-inf] on overflow. *)
Definition fmul_double (a b : pyfloat) : pyfloat :=
  match fmul a b with
  | Fin q => round_double q
  | special => special
  end.

(** ** Loosely typed mappings

    The values a configuration mapping holds are the scalars a YAML document
    gives.  [int(s)], [float(s)] of a string and [str(x)] of a float are the
    interpreter's own conversions and are taken as parameters. *)

Inductive pyvalue : Type :=
  | VNone
  | VBool (b : bool)
  | VInt (z : Z)
  | VFloat (f : pyfloat)
  | VStr (s : string).

Abbreviation dict := (gmap string pyvalue).

Class PyBuiltins : Type := {
  int_of_str : string → res Z;
  float_of_str : string → res pyfloat;
  str_of_float : pyfloat → string;
}.

(** [int(v)] *)
Definition py_int `{PyBuiltins} (v : pyvalue) : res Z :=
  match v with
  | VNone => Raise TypeError
  | VBool b => Ok (if b then 1 else 0)
  | VInt z => Ok z
  | VFloat f => int_of_float f
  | VStr s => int_of_str s
  end.

(** [float(v)] *)
Definition py_float `{PyBuiltins} (v : pyvalue) : res pyfloat :=
  match v with
  | VNone => Raise TypeError
  | VBool b => Ok (if b then f1 else f0)
  | VInt z => Ok (of_Z z)
  | VFloat f => Ok f
  | VStr s => float_of_str s
  end.

(** [str(v)] *)
Definition py_str `{PyBuiltins} (v : pyvalue) : string :=
  match v with
  | VNone => "None"
  | VBool b => if b then "True" else "False"
  | VInt z => pretty z
  | VFloat f => str_of_float f
  | VStr s => s
  end.

(** [data.get(key, default)] *)
Definition dict_get (data : dict) (key : string) (dflt : pyvalue) : pyvalue :=
  match data !! key with
  | Some v => v
  | None => dflt
  end.

(** A dict display [{k1: v1, ..., kn: vn}]: a later entry wins. *)
Definition py_dict {V : Type} (kvs : list (string * V)) : gmap string V :=
  fold_left (λ m kv, <[kv.1 := kv.2]> m) kvs ∅.

(** [d.setdefault(key, v)]: the mapping after the call. *)
Definition setdefault {V : Type} (d : gmap string V) (key : string) (v : V) : gmap string V :=
  match d !! key with
  | Some _ => d
  | None => <[key := v]> d
  end.

(** ** core/data/specs.py *)

Module HardwareSpec.
Record t : Type := {
  name : string;
  peak_tflops : pyfloat;
  memory_bandwidth_gbps : pyfloat;
  hbm_gb : pyfloat;
  interconnect_gbps : pyfloat;
  max_concurrency : Z;
  overlap_efficiency : pyfloat;
}.

Definition compute_throughput_tflops (self : t) : pyfloat :=
  fmax (peak_tflops self) f0.

Definition memory_bandwidth_bytes (self : t) : pyfloat :=
  fmul (fmax (memory_bandwidth_gbps self) f0) f1e9.

Definition interconnect_bandwidth_bytes (self : t) : pyfloat :=
  fmul (fmax (interconnect_gbps self) f0) f1e9.

Definition effective_overlap (self : t) : pyfloat :=
  fmax (overlap_efficiency self) f1e_3.
End HardwareSpec.

Module RuntimeSpec.
Record t : Type := {
  batch_size : Z;
  seq_len : Z;
  micro_batch : option Z;
  tokens_per_expert : option pyfloat;
}.
End RuntimeSpec.

(** The four layer configurations: [BaseLayerConfig] and its three
    subclasses, which [isinstance] tells apart. *)
Module LayerConfig.
Record header : Type := {
  layer_type : string;
  name : string;
  layer_id : Z;
  attn_config : dict;
  fused_ops : list string;
}.

Inductive t : Type :=
  | BaseLayerConfig (h : header)
  | FFNLayerConfig (h : header) (ffn_config : dict)
  | MoELayerConfig (h : header) (moe_config : dict)
  | CommunicationLayerConfig (h : header) (comm_config : dict).

Definition base (c : t) : header :=
  match c with
  | BaseLayerConfig h | FFNLayerConfig h _
  | MoELayerConfig h _ | CommunicationLayerConfig h _ => h
  end.
End LayerConfig.

Module LayerExecution.
Record t : Type := {
  layer_name : string;
  layer_type : string;
  flops : pyfloat;
  bytes_read : pyfloat;
  bytes_written : pyfloat;
  compute_time_ms : pyfloat;
  memory_time_ms : pyfloat;
  dominant_latency_ms : pyfloat;
  estimated_execution_time_ms : pyfloat;
  features : gmap string pyfloat;
  breakdown : gmap string (gmap string pyfloat);
}.

(** Attribute assignments [e.layer_name = v], [e.layer_type = v] and the
    in-place change of [e.features]. *)
Definition set_layer_name (e : t) (v : string) : t :=
  {| layer_name := v; layer_type := layer_type e; flops := flops e;
     bytes_read := bytes_read e; bytes_written := bytes_written e;
     compute_time_ms := compute_time_ms e; memory_time_ms := memory_time_ms e;
     dominant_latency_ms := dominant_latency_ms e;
     estimated_execution_time_ms := estimated_execution_time_ms e;
     features := features e; breakdown := breakdown e |}.

Definition set_layer_type (e : t) (v : string) : t :=
  {| layer_name := layer_name e; layer_type := v; flops := flops e;
     bytes_read := bytes_read e; bytes_written := bytes_written e;
     compute_time_ms := compute_time_ms e; memory_time_ms := memory_time_ms e;
     dominant_latency_ms := dominant_latency_ms e;
     estimated_execution_time_ms := estimated_execution_time_ms e;
     features := features e; breakdown := breakdown e |}.

Definition set_features (e : t) (v : gmap string pyfloat) : t :=
  {| layer_name := layer_name e; layer_type := layer_type e; flops := flops e;
     bytes_read := bytes_read e; bytes_written := bytes_written e;
     compute_time_ms := compute_time_ms e; memory_time_ms := memory_time_ms e;
     dominant_latency_ms := dominant_latency_ms e;
     estimated_execution_time_ms := estimated_execution_time_ms e;
     features := v; breakdown := breakdown e |}.
End LayerExecution.

Module SimulationResult.
Record t : Type := {
  layers : list LayerExecution.t;
  total_flops : pyfloat;
  total_latency_ms : pyfloat;
  peak_memory_bytes : pyfloat;
  bottleneck_layer : option string;
}.
End SimulationResult.

(** ** core/ops/metrics.py *)

Definition matmul_flops (m n k : Z) : pyfloat := of_Z (2 * m * n * k).

Definition tensor_elements (shape : list Z) : Z :=
  fold_left (λ total dim, total * Z.max dim 0) shape 1.

(** [/ 8.0] has a non-zero literal divisor, so it cannot raise. *)
Definition tensor_bytes (shape : list Z) (dtype_bits : Z) : pyfloat :=
  fquot (of_Z (tensor_elements shape * dtype_bits)) f8.

Definition compute_time_ms (flops : pyfloat) (hardware : HardwareSpec.t) : res pyfloat :=
  let throughput := HardwareSpec.compute_throughput_tflops hardware in
  if fleb throughput f0 then Ok inf
  else
    seconds ← fdiv flops (fmul throughput f1e12) ;
    Ok (fmul seconds f1e3).

Definition memory_time_ms (bytes_moved : pyfloat) (hardware : HardwareSpec.t) : res pyfloat :=
  let bandwidth := HardwareSpec.memory_bandwidth_bytes hardware in
  if fleb bandwidth f0 then Ok inf
  else
    seconds ← fdiv bytes_moved bandwidth ;
    Ok (fmul seconds f1e3).

Definition interconnect_time_ms (bytes_moved : pyfloat) (hardware : HardwareSpec.t) : res pyfloat :=
  let bandwidth := HardwareSpec.interconnect_bandwidth_bytes hardware in
  if fleb bandwidth f0 then Ok f0
  else
    seconds ← fdiv bytes_moved bandwidth ;
    Ok (fmul seconds f1e3).

Definition dominant_latency_ms (compute_ms memory_ms : pyfloat) (hardware : HardwareSpec.t)
  : res pyfloat :=
  let overlap := HardwareSpec.effective_overlap hardware in
  adjusted_memory ← fdiv memory_ms overlap ;
  Ok (fmax compute_ms adjusted_memory).

(** ** core/ops/fused_ops.py *)

Definition DEFAULT_DTYPE_BITS : Z := 16.

Module FusionMetrics.
Record t : Type := {
  name : string;
  flops : pyfloat;
  bytes_accessed : pyfloat;
}.
End FusionMetrics.

Definition attention_qkv_projections (batch seq d_model qkv_dim dtype_bits : Z)
  : FusionMetrics.t :=
  let tokens := batch * seq in
  let flops_per := matmul_flops tokens qkv_dim d_model in
  let flops := fmul f3 flops_per in
  let input_bytes := tensor_bytes [batch; seq; d_model] dtype_bits in
  let weight_bytes := fmul (tensor_bytes [d_model; qkv_dim] dtype_bits) (of_Z 3) in
  let output_bytes := fmul (tensor_bytes [batch; seq; qkv_dim] dtype_bits) (of_Z 3) in
  let total_bytes := fadd (fadd input_bytes weight_bytes) output_bytes in
  FusionMetrics.Build_t "attention_qkv_proj" flops total_bytes.

Definition attention_scores (batch seq num_heads head_dim dtype_bits : Z)
  : FusionMetrics.t :=
  let flops_per_head := matmul_flops seq seq head_dim in
  let flops := fmul (fmul flops_per_head (of_Z batch)) (of_Z num_heads) in
  let softmax_flops := batch * num_heads * seq * seq in
  let total_flops := fadd flops (of_Z softmax_flops) in
  let q_bytes := tensor_bytes [batch; num_heads; seq; head_dim] dtype_bits in
  let k_bytes := tensor_bytes [batch; num_heads; seq; head_dim] dtype_bits in
  let attn_bytes := tensor_bytes [batch; num_heads; seq; seq] dtype_bits in
  let total_bytes := fadd (fadd q_bytes k_bytes) attn_bytes in
  FusionMetrics.Build_t "attention_scores" total_flops total_bytes.

Definition attention_weighted_sum (batch seq num_heads head_dim dtype_bits : Z)
  : FusionMetrics.t :=
  let flops_per_head := matmul_flops seq head_dim seq in
  let flops := fmul (fmul flops_per_head (of_Z batch)) (of_Z num_heads) in
  let attn_bytes := tensor_bytes [batch; num_heads; seq; seq] dtype_bits in
  let v_bytes := tensor_bytes [batch; num_heads; seq; head_dim] dtype_bits in
  let output_bytes := tensor_bytes [batch; seq; num_heads * head_dim] dtype_bits in
  let total_bytes := fadd (fadd attn_bytes v_bytes) output_bytes in
  FusionMetrics.Build_t "attention_weighted_sum" flops total_bytes.

Definition attention_output_projection (batch seq d_model qkv_dim dtype_bits : Z)
  : FusionMetrics.t :=
  let tokens := batch * seq in
  let flops := matmul_flops tokens d_model qkv_dim in
  let input_bytes := tensor_bytes [batch; seq; qkv_dim] dtype_bits in
  let weight_bytes := tensor_bytes [qkv_dim; d_model] dtype_bits in
  let output_bytes := tensor_bytes [batch; seq; d_model] dtype_bits in
  let total_bytes := fadd (fadd input_bytes weight_bytes) output_bytes in
  FusionMetrics.Build_t "attention_output_proj" flops total_bytes.

Definition ffn_activation (batch seq d_model hidden_dim dtype_bits : Z)
  : FusionMetrics.t :=
  let tokens := batch * seq in
  let flops_first := matmul_flops tokens hidden_dim d_model in
  let flops_second := matmul_flops tokens d_model hidden_dim in
  let activation_flops := tokens * hidden_dim in
  let total_flops := fadd (fadd flops_first flops_second) (of_Z activation_flops) in
  let input_bytes := tensor_bytes [batch; seq; d_model] dtype_bits in
  let hidden_bytes := fmul (tensor_bytes [batch; seq; hidden_dim] dtype_bits) (of_Z 2) in
  let weight_bytes :=
    fadd (tensor_bytes [d_model; hidden_dim] dtype_bits)
         (tensor_bytes [hidden_dim; d_model] dtype_bits) in
  let total_bytes := fadd (fadd input_bytes hidden_bytes) weight_bytes in
  FusionMetrics.Build_t "ffn" total_flops total_bytes.

Definition moe_expert_forward (active_tokens d_model expert_hidden dtype_bits : Z)
  : FusionMetrics.t :=
  let flops_first := matmul_flops active_tokens expert_hidden d_model in
  let flops_second := matmul_flops active_tokens d_model expert_hidden in
  let activation_flops := active_tokens * expert_hidden in
  let total_flops := fadd (fadd flops_first flops_second) (of_Z activation_flops) in
  let act_bytes := tensor_bytes [active_tokens; d_model] dtype_bits in
  let hidden_bytes := tensor_bytes [active_tokens; expert_hidden] dtype_bits in
  let weight_bytes :=
    fadd (tensor_bytes [d_model; expert_hidden] dtype_bits)
         (tensor_bytes [expert_hidden; d_model] dtype_bits) in
  let total_bytes := fadd (fadd act_bytes hidden_bytes) weight_bytes in
  FusionMetrics.Build_t "moe_expert" total_flops total_bytes.

Definition moe_routing (batch seq num_experts top_k dtype_bits : Z)
  : FusionMetrics.t :=
  let tokens := batch * seq in
  let flops := tokens * num_experts in
  let select_flops := tokens * top_k in
  let total_flops := flops + select_flops in
  let gate_bytes := tensor_bytes [tokens; num_experts] dtype_bits in
  FusionMetrics.Build_t "moe_routing" (of_Z total_flops) gate_bytes.

Definition communication_all_to_all (bytes_per_device : pyfloat) : FusionMetrics.t :=
  FusionMetrics.Build_t "all_to_all" f0 bytes_per_device.

Definition communication_all_reduce (bytes_per_device : pyfloat) : FusionMetrics.t :=
  FusionMetrics.Build_t "all_reduce" f0 bytes_per_device.

(** The comprehension [{m.name: {"flops": m.flops, "bytes": m.bytes_accessed}
    for m in metrics}] of the estimators. *)
Definition breakdown_of (metrics : list FusionMetrics.t) : gmap string (gmap string pyfloat) :=
  py_dict ((λ m, (FusionMetrics.name m,
                  py_dict [("flops", FusionMetrics.flops m);
                           ("bytes", FusionMetrics.bytes_accessed m)])) <$> metrics).

(** ** core/module/attention.py *)

Module AttentionConfig.
Record t : Type := {
  d_model : Z;
  num_heads : Z;
  head_dim : pyvalue;
  dtype_bits : Z;
}.

Definition from_dict `{PyBuiltins} (data : dict) : res t :=
  d_model ← py_int (dict_get data "d_model" (VInt 768));
  num_heads ← py_int (dict_get data "num_attention_heads"
                        (dict_get data "num_heads" (VInt 8)));
  let head_dim := dict_get data "head_dim" VNone in
  dtype_bits ← py_int (dict_get data "dtype_bits" (VInt DEFAULT_DTYPE_BITS));
  Ok (Build_t d_model num_heads head_dim dtype_bits).

Definition resolved_head_dim `{PyBuiltins} (self : t) : res Z :=
  match head_dim self with
  | VNone => Ok (d_model self `div` Z.max (num_heads self) 1)
  | v => py_int v
  end.

Definition qkv_dim `{PyBuiltins} (self : t) : res Z :=
  hd ← resolved_head_dim self;
  Ok (num_heads self * hd).
End AttentionConfig.

Module Attention.
Record t : Type := {
  config : AttentionConfig.t;
  hardware_cfg : dict;
}.

Definition init `{PyBuiltins} (attn_config hardware_config : dict) : res t :=
  config ← AttentionConfig.from_dict attn_config;
  Ok (Build_t config hardware_config).

Definition _metrics `{PyBuiltins} (self : t) (batch seq : Z) : res (list FusionMetrics.t) :=
  let cfg := config self in
  qkv_dim ← AttentionConfig.qkv_dim cfg;
  let qkv := attention_qkv_projections batch seq (AttentionConfig.d_model cfg) qkv_dim
               (AttentionConfig.dtype_bits cfg) in
  head_dim ← AttentionConfig.resolved_head_dim cfg;
  let scores := attention_scores batch seq (AttentionConfig.num_heads cfg) head_dim
                  (AttentionConfig.dtype_bits cfg) in
  head_dim ← AttentionConfig.resolved_head_dim cfg;
  let weighted := attention_weighted_sum batch seq (AttentionConfig.num_heads cfg) head_dim
                    (AttentionConfig.dtype_bits cfg) in
  qkv_dim ← AttentionConfig.qkv_dim cfg;
  let out_proj := attention_output_projection batch seq (AttentionConfig.d_model cfg) qkv_dim
                    (AttentionConfig.dtype_bits cfg) in
  Ok [qkv; scores; weighted; out_proj].

Definition analytic_flops `{PyBuiltins} (self : t) (batch seq : Z) : res pyfloat :=
  metrics ← _metrics self batch seq;
  Ok (py_sum (FusionMetrics.flops <$> metrics)).

Definition estimate_execution_time `{PyBuiltins} (self : t) (batch seq : Z)
    (hardware : HardwareSpec.t) : res LayerExecution.t :=
  metrics ← _metrics self batch seq;
  let total_flops := py_sum (FusionMetrics.flops <$> metrics) in
  let total_bytes := py_sum (FusionMetrics.bytes_accessed <$> metrics) in
  let output_bytes :=
    tensor_bytes [batch; seq; AttentionConfig.d_model (config self)]
                 (AttentionConfig.dtype_bits (config self)) in
  compute_ms ← compute_time_ms total_flops hardware;
  memory_ms ← memory_time_ms (fadd total_bytes output_bytes) hardware;
  latency_ms ← dominant_latency_ms compute_ms memory_ms hardware;
  let breakdown := breakdown_of metrics in
  let features := py_dict [
    ("d_model", of_Z (AttentionConfig.d_model (config self)));
    ("num_heads", of_Z (AttentionConfig.num_heads (config self)));
    ("batch", of_Z batch);
    ("seq", of_Z seq);
    ("dtype_bits", of_Z (AttentionConfig.dtype_bits (config self)))] in
  Ok {| LayerExecution.layer_name := "attention";
        LayerExecution.layer_type := "attention";
        LayerExecution.flops := total_flops;
        LayerExecution.bytes_read := total_bytes;
        LayerExecution.bytes_written := output_bytes;
        LayerExecution.compute_time_ms := compute_ms;
        LayerExecution.memory_time_ms := memory_ms;
        LayerExecution.dominant_latency_ms := latency_ms;
        LayerExecution.estimated_execution_time_ms := latency_ms;
        LayerExecution.features := features;
        LayerExecution.breakdown := breakdown |}.
End Attention.

(** ** core/module/ffn.py *)

Module FFNConfig.
Record t : Type := {
  d_model : Z;
  d_ff : Z;
  dtype_bits : Z;
}.

Definition from_dict `{PyBuiltins} (data : dict) : res t :=
  d_model ← py_int (dict_get data "d_model" (VInt 768));
  d_ff ← py_int (dict_get data "d_ff" (dict_get data "intermediate_size" (VInt 3072)));
  dtype_bits ← py_int (dict_get data "dtype_bits" (VInt DEFAULT_DTYPE_BITS));
  Ok (Build_t d_model d_ff dtype_bits).
End FFNConfig.

Module FFN.
Record t : Type := {
  config : FFNConfig.t;
  hardware_cfg : dict;
}.

Definition init `{PyBuiltins} (ffn_config hardware_config : dict) : res t :=
  config ← FFNConfig.from_dict ffn_config;
  Ok (Build_t config hardware_config).

Definition _metrics (self : t) (batch seq : Z) : FusionMetrics.t :=
  let cfg := config self in
  ffn_activation batch seq (FFNConfig.d_model cfg) (FFNConfig.d_ff cfg)
    (FFNConfig.dtype_bits cfg).

Definition analytic_flops (self : t) (batch seq : Z) : pyfloat :=
  FusionMetrics.flops (_metrics self batch seq).

Definition estimate_execution_time (self : t) (batch seq : Z)
    (hardware : HardwareSpec.t) : res LayerExecution.t :=
  let metric := _metrics self batch seq in
  let total_flops := FusionMetrics.flops metric in
  let bytes_accessed := FusionMetrics.bytes_accessed metric in
  let output_bytes :=
    tensor_bytes [batch; seq; FFNConfig.d_model (config self)]
                 (FFNConfig.dtype_bits (config self)) in
  compute_ms ← compute_time_ms total_flops hardware;
  memory_ms ← memory_time_ms (fadd bytes_accessed output_bytes) hardware;
  latency_ms ← dominant_latency_ms compute_ms memory_ms hardware;
  let features := py_dict [
    ("d_model", of_Z (FFNConfig.d_model (config self)));
    ("d_ff", of_Z (FFNConfig.d_ff (config self)));
    ("batch", of_Z batch);
    ("seq", of_Z seq);
    ("dtype_bits", of_Z (FFNConfig.dtype_bits (config self)))] in
  let breakdown := breakdown_of [metric] in
  Ok {| LayerExecution.layer_name := "ffn";
        LayerExecution.layer_type := "ffn";
        LayerExecution.flops := total_flops;
        LayerExecution.bytes_read := bytes_accessed;
        LayerExecution.bytes_written := output_bytes;
        LayerExecution.compute_time_ms := compute_ms;
        LayerExecution.memory_time_ms := memory_ms;
        LayerExecution.dominant_latency_ms := latency_ms;
        LayerExecution.estimated_execution_time_ms := latency_ms;
        LayerExecution.features := features;
        LayerExecution.breakdown := breakdown |}.
End FFN.

(** ** core/module/moe.py *)

Module MoEConfig.
Record t : Type := {
  d_model : Z;
  expert_hidden : Z;
  num_experts : Z;
  top_k : Z;
  avg_experts_per_token : pyfloat;
  num_groups : Z;
  dtype_bits : Z;
}.

Definition from_dict `{PyBuiltins} (data : dict) : res t :=
  d_model ← py_int (dict_get data "d_model" (dict_get data "model_dim" (VInt 768)));
  hidden ← py_int (dict_get data "moe_intermediate_size" (dict_get data "d_ff" (VInt 3072)));
  num_experts ← py_int (dict_get data "n_routed_experts" (dict_get data "num_experts" (VInt 1)));
  top_k ← py_int (dict_get data "topk_group"
                    (dict_get data "top_k" (dict_get data "num_experts_per_tok" (VInt 1))));
  avg_experts ← py_float (dict_get data "num_experts_per_tok" (VInt top_k));
  num_groups ← py_int (dict_get data "n_group" (dict_get data "num_groups" (VInt 1)));
  dtype_bits ← py_int (dict_get data "dtype_bits" (VInt DEFAULT_DTYPE_BITS));
  Ok {| d_model := d_model;
        expert_hidden := hidden;
        num_experts := Z.max num_experts 1;
        top_k := Z.max top_k 1;
        avg_experts_per_token := fmax avg_experts f1;
        num_groups := Z.max num_groups 1;
        dtype_bits := dtype_bits |}.
End MoEConfig.

Module MoE.
Record t : Type := {
  config : MoEConfig.t;
  hardware_cfg : dict;
}.

Definition init `{PyBuiltins} (moe_config hardware_config : dict) : res t :=
  config ← MoEConfig.from_dict moe_config;
  Ok (Build_t config hardware_config).

Definition _metrics (self : t) (batch seq : Z) : res (list FusionMetrics.t) :=
  let cfg := config self in
  let tokens := batch * seq in
  let routing := moe_routing batch seq (MoEConfig.num_experts cfg) (MoEConfig.top_k cfg)
                   (MoEConfig.dtype_bits cfg) in
  tokens_float ← float_of_int tokens;
  active_tokens ←
    int_of_float (fmul_double tokens_float (MoEConfig.avg_experts_per_token cfg));
  let expert := moe_expert_forward active_tokens (MoEConfig.d_model cfg)
                  (MoEConfig.expert_hidden cfg) (MoEConfig.dtype_bits cfg) in
  bytes_per_device ←
    fdiv (tensor_bytes [active_tokens; MoEConfig.d_model cfg] (MoEConfig.dtype_bits cfg))
         (of_Z (MoEConfig.num_groups cfg));
  let comm := communication_all_to_all bytes_per_device in
  Ok [routing; expert; comm].

Definition analytic_flops (self : t) (batch seq : Z) : res pyfloat :=
  metrics ← _metrics self batch seq;
  Ok (py_sum (FusionMetrics.flops <$> metrics)).

Definition estimate_execution_time (self : t) (batch seq : Z)
    (hardware : HardwareSpec.t) : res LayerExecution.t :=
  metrics ← _metrics self batch seq;
  let total_flops := py_sum (FusionMetrics.flops <$> metrics) in
  let bytes_accessed := py_sum (FusionMetrics.bytes_accessed <$> metrics) in
  let output_bytes :=
    tensor_bytes [batch; seq; MoEConfig.d_model (config self)]
                 (MoEConfig.dtype_bits (config self)) in
  compute_ms ← compute_time_ms total_flops hardware;
  memory_ms ← memory_time_ms (fadd bytes_accessed output_bytes) hardware;
  latency_ms ← dominant_latency_ms compute_ms memory_ms hardware;
  let breakdown := breakdown_of metrics in
  let features := py_dict [
    ("d_model", of_Z (MoEConfig.d_model (config self)));
    ("expert_hidden", of_Z (MoEConfig.expert_hidden (config self)));
    ("num_experts", of_Z (MoEConfig.num_experts (config self)));
    ("top_k", of_Z (MoEConfig.top_k (config self)));
    ("avg_experts_per_token", MoEConfig.avg_experts_per_token (config self));
    ("batch", of_Z batch);
    ("seq", of_Z seq)] in
  Ok {| LayerExecution.layer_name := "moe";
        LayerExecution.layer_type := "moe";
        LayerExecution.flops := total_flops;
        LayerExecution.bytes_read := bytes_accessed;
        LayerExecution.bytes_written := output_bytes;
        LayerExecution.compute_time_ms := compute_ms;
        LayerExecution.memory_time_ms := memory_ms;
        LayerExecution.dominant_latency_ms := latency_ms;
        LayerExecution.estimated_execution_time_ms := latency_ms;
        LayerExecution.features := features;
        LayerExecution.breakdown := breakdown |}.
End MoE.

(** ** core/module/communication.py *)

Definition DEFAULT_PAYLOAD_MB : pyfloat := f1.

Module CommunicationConfig.
Record t : Type := {
  pattern : string;
  payload_mb : pyfloat;
}.

Definition from_dict `{PyBuiltins} (data : dict) : res t :=
  let pattern := py_str (dict_get data "pattern" (VStr "all_to_all")) in
  payload_mb ← py_float (dict_get data "payload_mb" (VFloat DEFAULT_PAYLOAD_MB));
  Ok (Build_t pattern payload_mb).
End CommunicationConfig.

Module Communication.
Record t : Type := {
  config : CommunicationConfig.t;
  hardware_cfg : dict;
}.

Definition init `{PyBuiltins} (communication_config hardware_config : dict) : res t :=
  config ← CommunicationConfig.from_dict communication_config;
  Ok (Build_t config hardware_config).

Definition analytic_flops (self : t) (batch seq : Z) : Z := 0.

Definition estimate_execution_time (self : t) (batch seq : Z)
    (hardware : HardwareSpec.t) : res LayerExecution.t :=
  let payload_bytes := fmul (CommunicationConfig.payload_mb (config self)) f1e6 in
  let metric :=
    if String.eqb (CommunicationConfig.pattern (config self)) "all_reduce"
    then communication_all_reduce payload_bytes
    else communication_all_to_all payload_bytes in
  interconnect_ms ← interconnect_time_ms (FusionMetrics.bytes_accessed metric) hardware;
  memory_ms ← memory_time_ms (FusionMetrics.bytes_accessed metric) hardware;
  latency_ms ← dominant_latency_ms interconnect_ms memory_ms hardware;
  let breakdown := breakdown_of [metric] in
  let features := py_dict [
    ("pattern",
      if String.eqb (CommunicationConfig.pattern (config self)) "all_reduce"
      then f1 else f0);
    ("payload_mb", CommunicationConfig.payload_mb (config self));
    ("batch", of_Z batch);
    ("seq", of_Z seq)] in
  Ok {| LayerExecution.layer_name := "communication";
        LayerExecution.layer_type := "communication";
        LayerExecution.flops := f0;
        LayerExecution.bytes_read := FusionMetrics.bytes_accessed metric;
        LayerExecution.bytes_written := FusionMetrics.bytes_accessed metric;
        LayerExecution.compute_time_ms := interconnect_ms;
        LayerExecution.memory_time_ms := memory_ms;
        LayerExecution.dominant_latency_ms := latency_ms;
        LayerExecution.estimated_execution_time_ms := latency_ms;
        LayerExecution.features := features;
        LayerExecution.breakdown := breakdown |}.
End Communication.

(** ** core/estimation/analytic.py *)

Module AnalyticEstimator.
Record t : Type := {
  hardware : HardwareSpec.t;
  runtime : RuntimeSpec.t;
}.

(** The [isinstance] chain of [estimate_layer]: the module is built from the configuration's own
    mapping and asked for its estimate. *)
Definition module_estimate `{PyBuiltins} (self : t) (layer_config : LayerConfig.t)
  : res LayerExecution.t :=
  let batch := RuntimeSpec.batch_size (runtime self) in
  let seq := RuntimeSpec.seq_len (runtime self) in
  match layer_config with
  | LayerConfig.FFNLayerConfig _ ffn_config =>
      module ← FFN.init ffn_config ∅;
      FFN.estimate_execution_time module batch seq (hardware self)
  | LayerConfig.MoELayerConfig _ moe_config =>
      module ← MoE.init moe_config ∅;
      MoE.estimate_execution_time module batch seq (hardware self)
  | LayerConfig.CommunicationLayerConfig _ comm_config =>
      module ← Communication.init comm_config ∅;
      Communication.estimate_execution_time module batch seq (hardware self)
  | LayerConfig.BaseLayerConfig h =>
      module ← Attention.init (LayerConfig.attn_config h) ∅;
      Attention.estimate_execution_time module batch seq (hardware self)
  end.

(** The four statements of [estimate_layer] that follow the chain, on the
    execution the module returned.  [float(layer_config.layer_id)] is
    evaluated before [setdefault] looks for the key. *)
Definition back_fill (layer_config : LayerConfig.t) (execution : LayerExecution.t)
  : res LayerExecution.t :=
  let h := LayerConfig.base layer_config in
  let execution := LayerExecution.set_layer_name execution (LayerConfig.name h) in
  let execution := LayerExecution.set_layer_type execution (LayerConfig.layer_type h) in
  layer_id ← float_of_int (LayerConfig.layer_id h);
  let execution :=
    LayerExecution.set_features execution
      (setdefault (LayerExecution.features execution) "layer_id" layer_id) in
  let execution :=
    LayerExecution.set_features execution
      (setdefault (LayerExecution.features execution) "layer_type" f0) in
  Ok execution.

Definition estimate_layer `{PyBuiltins} (self : t) (layer_config : LayerConfig.t)
  : res LayerExecution.t :=
  execution ← module_estimate self layer_config;
  back_fill layer_config execution.

Definition estimate_layers `{PyBuiltins} (self : t) (layer_configs : list LayerConfig.t)
  : res (list LayerExecution.t) :=
  mapM (estimate_layer self) layer_configs.
End AnalyticEstimator.

(** ** entrypoints/simulator.py *)

Module Scenario.
Record t : Type := {
  name : string;
  hardware : HardwareSpec.t;
  layers : list LayerConfig.t;
}.
End Scenario.

(** The three folds of [run_simulation] over the list of executions. *)
Definition peak_memory_of (executions : list LayerExecution.t) : res pyfloat :=
  py_max ((λ exec, fadd (LayerExecution.bytes_read exec) (LayerExecution.bytes_written exec))
            <$> executions).

Definition bottleneck_layer_of (executions : list LayerExecution.t) : res (option string) :=
  match executions with
  | [] => Ok None
  | _ :: _ =>
      e ← py_max_by LayerExecution.dominant_latency_ms executions;
      Ok (Some (LayerExecution.layer_name e))
  end.

(** The body of [run_simulation] from the list of executions on. *)
Definition aggregate (executions : list LayerExecution.t) : res SimulationResult.t :=
  let total_flops := py_sum (LayerExecution.flops <$> executions) in
  let total_latency := py_sum (LayerExecution.dominant_latency_ms <$> executions) in
  peak_memory ← peak_memory_of executions;
  bottleneck_layer ← bottleneck_layer_of executions;
  Ok {| SimulationResult.layers := executions;
        SimulationResult.total_flops := total_flops;
        SimulationResult.total_latency_ms := total_latency;
        SimulationResult.peak_memory_bytes := peak_memory;
        SimulationResult.bottleneck_layer := bottleneck_layer |}.

Definition run_simulation `{PyBuiltins} (scenario : Scenario.t) (runtime : RuntimeSpec.t)
    (estimator : option AnalyticEstimator.t) : res SimulationResult.t :=
  let active_estimator :=
    match estimator with
    | Some e => e
    | None => AnalyticEstimator.Build_t (Scenario.hardware scenario) runtime
    end in
  executions ← AnalyticEstimator.estimate_layers active_estimator (Scenario.layers scenario);
  aggregate executions.

(** A concrete choice of the string conversions, for running the model on
    mappings without numeric strings: every string is rejected by [int] and
    [float], and floats print as [<float>]. *)
Definition plain_builtins : PyBuiltins :=
  {| int_of_str := λ _, Raise ValueError;
     float_of_str := λ _, Raise ValueError;
     str_of_float := λ _, "<float>" |}.

(** ** Specification predicates *)

(** [m], at index [i] of [l], is the item [max(l, key=key)] selects.  When
    the key of the first item is [nan], no later key compares greater and the
    first item is selected.  Otherwise the items whose key is [nan] are
    passed over, and [m] is the first of the others with the largest key:
    none of them has a greater key, and each of them before [m] has a
    smaller one. *)
Definition is_py_max {A : Type} (key : A → pyfloat) (l : list A) (i : nat) (m : A) : Prop :=
  l !! i = Some m ∧
  match l with
  | [] => False
  | first :: _ =>
      if is_nan (key first) then i = 0%nat
      else
        is_nan (key m) = false ∧
        (∀ y, y ∈ l → is_nan (key y) = false → fleb (key y) (key m) = true) ∧
        (∀ j y, (j < i)%nat → l !! j = Some y → is_nan (key y) = false →
                fltb (key y) (key m) = true)
  end.

(** What [MoEConfig.from_dict] leaves in a configuration: three counts of
    at least one, and an average that is not below [1.0]. *)
Definition moe_normalised (cfg : MoEConfig.t) : Prop :=
  1 ≤ MoEConfig.num_experts cfg ∧
  1 ≤ MoEConfig.top_k cfg ∧
  1 ≤ MoEConfig.num_groups cfg ∧
  fltb (MoEConfig.avg_experts_per_token cfg) f1 = false.

(** An integer a double holds exactly, as does every integer of smaller
    magnitude: [float(z)] is [z] itself. *)
Definition exact_int (z : Z) : Prop := Z.abs z ≤ 2 ^ 53.

(** An integer far inside the range of [float(int)]: the product of any ten
    of them still converts without [OverflowError]. *)
Definition modest (z : Z) : Prop := Z.abs z ≤ 2 ^ 64.

(** The bytes a layer moves: [bytes_read + bytes_written]. *)
Definition layer_bytes (exec : LayerExecution.t) : pyfloat :=
  fadd (LayerExecution.bytes_read exec) (LayerExecution.bytes_written exec).

(** ** Fixtures of the test suite *)

(** The hardware of [tests/test_metrics.py]. *)
Definition hw_test : HardwareSpec.t :=
  {| HardwareSpec.name := "TestGPU";
     HardwareSpec.peak_tflops := of_Z 100;
     HardwareSpec.memory_bandwidth_gbps := of_Z 1000;
     HardwareSpec.hbm_gb := of_Z 80;
     HardwareSpec.interconnect_gbps := of_Z 600;
     HardwareSpec.max_concurrency := 1;
     HardwareSpec.overlap_efficiency := f1 |}.

(** The same hardware with no compute, no memory bandwidth and no
    interconnect. *)
Definition hw_dead : HardwareSpec.t :=
  {| HardwareSpec.name := "DeadGPU";
     HardwareSpec.peak_tflops := f0;
     HardwareSpec.memory_bandwidth_gbps := f0;
     HardwareSpec.hbm_gb := of_Z 80;
     HardwareSpec.interconnect_gbps := f0;
     HardwareSpec.max_concurrency := 1;
     HardwareSpec.overlap_efficiency := f1 |}.

(** The mapping of [tests/test_moe_estimator.py]. *)
Definition moe_test_config : dict :=
  py_dict [("d_model", VInt 256);
           ("moe_intermediate_size", VInt 512);
           ("n_routed_experts", VInt 16);
           ("topk_group", VInt 2);
           ("num_experts_per_tok", VInt 2)].

(** A MoE mapping whose average number of experts per token is [+inf]. *)
Definition moe_inf_config : dict :=
  py_dict [("top_k", VInt 2); ("num_experts_per_tok", VFloat PInf)].

(** The mapping of [tests/test_attention_estimator.py]. *)
Definition attention_test_config : dict :=
  py_dict [("d_model", VInt 128);
           ("num_attention_heads", VInt 8);
           ("head_dim", VInt 16)].

(** The FFN mapping of [tests/test_config_and_simulation.py]. *)
Definition ffn_test_config : dict :=
  py_dict [("d_model", VInt 256); ("d_ff", VInt 1024)].

Definition runtime_test : RuntimeSpec.t :=
  {| RuntimeSpec.batch_size := 2;
     RuntimeSpec.seq_len := 32;
     RuntimeSpec.micro_batch := None;
     RuntimeSpec.tokens_per_expert := None |}.

Definition estimator_test : AnalyticEstimator.t :=
  {| AnalyticEstimator.hardware := hw_test; AnalyticEstimator.runtime := runtime_test |}.

Definition header_test (layer_type name : string) (layer_id : Z) : LayerConfig.header :=
  {| LayerConfig.layer_type := layer_type;
     LayerConfig.name := name;
     LayerConfig.layer_id := layer_id;
     LayerConfig.attn_config := attention_test_config;
     LayerConfig.fused_ops := [] |}.

(** The module [MoE(moe_test_config)]. *)
Definition moe_test : MoE.t :=
  {| MoE.config :=
       {| MoEConfig.d_model := 256;
          MoEConfig.expert_hidden := 512;
          MoEConfig.num_experts := 16;
          MoEConfig.top_k := 2;
          MoEConfig.avg_experts_per_token := of_Z 2;
          MoEConfig.num_groups := 1;
          MoEConfig.dtype_bits := 16 |};
     MoE.hardware_cfg := ∅ |}.

(** The double nearest to [1.7], and the module of a mapping that asks for
    that many experts per token. *)
Definition double_1_7 : pyfloat := Fin (Q2Qc (7656119366529843 # 4503599627370496)).

Definition moe_frac_config : dict :=
  py_dict [("d_model", VInt 4);
           ("moe_intermediate_size", VInt 8);
           ("num_experts_per_tok", VFloat double_1_7)].

Definition moe_frac : MoE.t :=
  {| MoE.config :=
       {| MoEConfig.d_model := 4;
          MoEConfig.expert_hidden := 8;
          MoEConfig.num_experts := 1;
          MoEConfig.top_k := 1;
          MoEConfig.avg_experts_per_token := double_1_7;
          MoEConfig.num_groups := 1;
          MoEConfig.dtype_bits := 16 |};
     MoE.hardware_cfg := ∅ |}.

(** Three layers, the last two tied for the largest latency. *)
Definition exec_test (name : string) (latency bytes : Z) : LayerExecution.t :=
  {| LayerExecution.layer_name := name;
     LayerExecution.layer_type := "ffn";
     LayerExecution.flops := of_Z 10;
     LayerExecution.bytes_read := of_Z bytes;
     LayerExecution.bytes_written := of_Z 1;
     LayerExecution.compute_time_ms := of_Z latency;
     LayerExecution.memory_time_ms := of_Z 1;
     LayerExecution.dominant_latency_ms := of_Z latency;
     LayerExecution.estimated_execution_time_ms := of_Z latency;
     LayerExecution.features := ∅;
     LayerExecution.breakdown := ∅ |}.

Definition executions_test : list LayerExecution.t :=
  [exec_test "a" 3 7; exec_test "b" 5 2; exec_test "c" 5 4].

(** Three layers, the first with a latency that is not a number. *)
Definition exec_nan (name : string) : LayerExecution.t :=
  {| LayerExecution.layer_name := name;
     LayerExecution.layer_type := "communication";
     LayerExecution.flops := f0;
     LayerExecution.bytes_read := of_Z 1;
     LayerExecution.bytes_written := of_Z 1;
     LayerExecution.compute_time_ms := NaN;
     LayerExecution.memory_time_ms := NaN;
     LayerExecution.dominant_latency_ms := NaN;
     LayerExecution.estimated_execution_time_ms := NaN;
     LayerExecution.features := ∅;
     LayerExecution.breakdown := ∅ |}.

Definition executions_nan : list LayerExecution.t :=
  [exec_nan "a"; exec_test "b" 5 2; exec_test "c" 9 4].

(** A scenario without layers. *)
Definition scenario_empty : Scenario.t :=
  {| Scenario.name := "empty"; Scenario.hardware := hw_test; Scenario.layers := [] |}.

(** An attention configuration with no heads and no explicit head size. *)
Definition attention_no_heads : AttentionConfig.t :=
  {| AttentionConfig.d_model := 768;
     AttentionConfig.num_heads := 0;
     AttentionConfig.head_dim := VNone;
     AttentionConfig.dtype_bits := 16 |}.

(** The module [FFN(ffn_test_config)]. *)
Definition ffn_test : FFN.t :=
  {| FFN.config :=
       {| FFNConfig.d_model := 256; FFNConfig.d_ff := 1024; FFNConfig.dtype_bits := 16 |};
     FFN.hardware_cfg := ∅ |}.

(** ** The rest of the engine's surface *)

(** [sum_tensor_bytes] of [core/ops/metrics.py]. *)
Definition sum_tensor_bytes (shapes : list (list Z)) (dtype_bits : Z) : pyfloat :=
  py_sum ((λ shape, tensor_bytes shape dtype_bits) <$> shapes).

(** The plain data [to_dict] returns: strings, floats, [None], lists and
    string-keyed mappings of them. *)
Local Set Warnings "-register-all".
Inductive pyobj : Type :=
  | ONone
  | OStr (s : string)
  | OFloat (f : pyfloat)
  | OList (l : list pyobj)
  | ODict (d : gmap string pyobj).

(** [LayerExecution.to_dict] of [core/data/specs.py]; [dict(self.features)]
    and [dict(self.breakdown)] copy the two mappings. *)
Definition LayerExecution_to_dict (self : LayerExecution.t) : gmap string pyobj :=
  py_dict [
    ("layer_name", OStr (LayerExecution.layer_name self));
    ("layer_type", OStr (LayerExecution.layer_type self));
    ("flops", OFloat (LayerExecution.flops self));
    ("bytes_read", OFloat (LayerExecution.bytes_read self));
    ("bytes_written", OFloat (LayerExecution.bytes_written self));
    ("compute_time_ms", OFloat (LayerExecution.compute_time_ms self));
    ("memory_time_ms", OFloat (LayerExecution.memory_time_ms self));
    ("dominant_latency_ms", OFloat (LayerExecution.dominant_latency_ms self));
    ("estimated_execution_time_ms", OFloat (LayerExecution.estimated_execution_time_ms self));
    ("features", ODict (OFloat <$> LayerExecution.features self));
    ("breakdown",
      ODict ((λ m : gmap string pyfloat, ODict (OFloat <$> m))
               <$> LayerExecution.breakdown self))].

(** [SimulationResult.to_dict] of [core/data/specs.py]. *)
Definition SimulationResult_to_dict (self : SimulationResult.t) : gmap string pyobj :=
  py_dict [
    ("layers",
      OList ((λ layer, ODict (LayerExecution_to_dict layer))
               <$> SimulationResult.layers self));
    ("total_flops", OFloat (SimulationResult.total_flops self));
    ("total_latency_ms", OFloat (SimulationResult.total_latency_ms self));
    ("peak_memory_bytes", OFloat (SimulationResult.peak_memory_bytes self));
    ("bottleneck_layer",
      match SimulationResult.bottleneck_layer self with
      | Some name => OStr name
      | None => ONone
      end)].

(** [layer_table] of [entrypoints/simulator.py]: one row per layer; the
    divisions are by the non-zero literal [1e9]. *)
Definition layer_table (result : SimulationResult.t) : list dict :=
  (λ layer,
     py_dict [
       ("layer", VStr (LayerExecution.layer_name layer));
       ("type", VStr (LayerExecution.layer_type layer));
       ("gflops", VFloat (fquot (LayerExecution.flops layer) f1e9));
       ("compute_ms", VFloat (LayerExecution.compute_time_ms layer));
       ("memory_ms", VFloat (LayerExecution.memory_time_ms layer));
       ("latency_ms", VFloat (LayerExecution.dominant_latency_ms layer));
       ("bytes_gb",
         VFloat (fquot (fadd (LayerExecution.bytes_read layer)
                             (LayerExecution.bytes_written layer)) f1e9))])
  <$> SimulationResult.layers result.

(** [summary_row] of [entrypoints/simulator.py]. *)
Definition summary_row (result : SimulationResult.t) : dict :=
  py_dict [
    ("total_latency_ms", VFloat (SimulationResult.total_latency_ms result));
    ("total_flops_g", VFloat (fquot (SimulationResult.total_flops result) f1e9));
    ("peak_memory_gb", VFloat (fquot (SimulationResult.peak_memory_bytes result) f1e9));
    ("bottleneck_layer",
      match SimulationResult.bottleneck_layer result with
      | Some name => VStr name
      | None => VNone
      end)].

(** [hardware_from_dict] of [entrypoints/utils.py].  The five subscripts
    [data[key]] follow the check that no required key is missing, so the
    check and the subscripts are one match: a missing required key raises
    [ValueError], the optional keys fall back to [1] and [1.0]. *)
Definition hardware_required : list string :=
  ["name"; "peak_tflops"; "memory_bandwidth_gbps"; "hbm_gb"; "interconnect_gbps"].

Definition hardware_from_dict `{PyBuiltins} (data : dict) : res HardwareSpec.t :=
  match data !! "name", data !! "peak_tflops", data !! "memory_bandwidth_gbps",
        data !! "hbm_gb", data !! "interconnect_gbps" with
  | Some name, Some peak, Some memory, Some hbm, Some interconnect =>
      let name := py_str name in
      peak_tflops ← py_float peak;
      memory_bandwidth_gbps ← py_float memory;
      hbm_gb ← py_float hbm;
      interconnect_gbps ← py_float interconnect;
      max_concurrency ← py_int (dict_get data "max_concurrency" (VInt 1));
      overlap_efficiency ← py_float (dict_get data "overlap_efficiency" (VFloat f1));
      Ok {| HardwareSpec.name := name;
            HardwareSpec.peak_tflops := peak_tflops;
            HardwareSpec.memory_bandwidth_gbps := memory_bandwidth_gbps;
            HardwareSpec.hbm_gb := hbm_gb;
            HardwareSpec.interconnect_gbps := interconnect_gbps;
            HardwareSpec.max_concurrency := max_concurrency;
            HardwareSpec.overlap_efficiency := overlap_efficiency |}
  | _, _, _, _, _ => Raise ValueError
  end.

(** The hardware mapping of [tests/test_cli.py]. *)
Definition hardware_test_config : dict :=
  py_dict [("name", VStr "TestGPU");
           ("peak_tflops", VInt 120);
           ("memory_bandwidth_gbps", VInt 1500);
           ("hbm_gb", VInt 80);
           ("interconnect_gbps", VInt 600)].

(** ** Further specification predicates *)

(** The FLOPs and bytes an execution reports determine its three times. *)
Definition timed_by (hw : HardwareSpec.t) (e : LayerExecution.t) : Prop :=
  compute_time_ms (LayerExecution.flops e) hw = Ok (LayerExecution.compute_time_ms e) ∧
  memory_time_ms (fadd (LayerExecution.bytes_read e) (LayerExecution.bytes_written e)) hw
    = Ok (LayerExecution.memory_time_ms e) ∧
  dominant_latency_ms (LayerExecution.compute_time_ms e) (LayerExecution.memory_time_ms e) hw
    = Ok (LayerExecution.dominant_latency_ms e).

(** The sum, over the entries of a breakdown, of the value each entry holds
    under [key]. *)
Definition breakdown_total (key : string) (breakdown : gmap string (gmap string pyfloat))
  : pyfloat :=
  map_fold (λ _ entry total, fadd total (default f0 (entry !! key))) f0 breakdown.

(** The scenario of [tests/test_config_and_simulation.py]: one FFN layer. *)
Definition hw_scenario_test : HardwareSpec.t :=
  {| HardwareSpec.name := "TestGPU";
     HardwareSpec.peak_tflops := of_Z 120;
     HardwareSpec.memory_bandwidth_gbps := of_Z 1500;
     HardwareSpec.hbm_gb := of_Z 80;
     HardwareSpec.interconnect_gbps := of_Z 600;
     HardwareSpec.max_concurrency := 2;
     HardwareSpec.overlap_efficiency := f1 |}.

Definition scenario_test : Scenario.t :=
  {| Scenario.name := "test_scenario";
     Scenario.hardware := hw_scenario_test;
     Scenario.layers :=
       [LayerConfig.FFNLayerConfig (header_test "ffn" "ffn_0" 0) ffn_test_config] |}.

(** The values a table holds under one key, row by row. *)
Definition table_column (key : string) (rows : list dict) : list pyvalue :=
  (λ row, default VNone (row !! key)) <$> rows.

(** * Properties *)

(** ** The result monad *)

Lemma bind_Ok {A B : Type} (m : res A) (k : A → res B) (b : B) :
  m ≫= k = Ok b → ∃ a, m = Ok a ∧ k a = Ok b.
Proof. destruct m as [a|e]; simpl; [eauto | discriminate]. Qed.

Ltac inv_bind H :=
  let a := fresh "a" in
  let Ha := fresh "Ha" in
  apply bind_Ok in H as (a & Ha & H).

(** ** Order and arithmetic on floats *)

Lemma Qc_ltb_true (a b : Qc) : Qc_ltb a b = true ↔ (a < b)%Qc.
Proof. unfold Qc_ltb. apply bool_decide_eq_true. Qed.

Lemma Qc_ltb_false (a b : Qc) : Qc_ltb a b = false ↔ (b ≤ a)%Qc.
Proof. unfold Qc_ltb. rewrite bool_decide_eq_false. symmetry. apply Qcle_ngt. Qed.

Lemma Qc_leb_true (a b : Qc) : Qc_leb a b = true ↔ (a ≤ b)%Qc.
Proof. unfold Qc_leb. apply bool_decide_eq_true. Qed.

Lemma Qc_leb_false (a b : Qc) : Qc_leb a b = false ↔ (b < a)%Qc.
Proof. unfold Qc_leb. rewrite bool_decide_eq_false. symmetry. apply Qclt_nge. Qed.

Lemma Qc_is0_true (a : Qc) : Qc_is0 a = true ↔ a = 0%Qc.
Proof. unfold Qc_is0. apply bool_decide_eq_true. Qed.

Lemma Qc_giga_pos : (0 < Qc_of_Z 1000000000)%Qc.
Proof. reflexivity. Qed.

(** A float that is not [<= 0] is not zero: the guarded divisions of the
    timing conversions cannot raise. *)
Lemma fleb_false_not_zero (b : pyfloat) : fleb b f0 = false → is_zero b = false.
Proof.
  destruct b as [q| | |]; simpl; try done.
  rewrite Qc_leb_false, Z2Qc_inj_0. intros Hlt.
  apply not_true_is_false. rewrite Qc_is0_true. intros ->.
  by apply Qclt_not_eq in Hlt.
Qed.

Lemma fdiv_not_zero (a b : pyfloat) : is_zero b = false → fdiv a b = Ok (fquot a b).
Proof. unfold fdiv. by intros ->. Qed.

Lemma fmax_cases (a b : pyfloat) :
  (fgtb b a = true ∧ fmax a b = b) ∨ (fgtb b a = false ∧ fmax a b = a).
Proof. unfold fmax. destruct (fgtb b a); auto. Qed.

Lemma fltb_not_nan_r (a b : pyfloat) : fltb a b = true → is_nan b = false.
Proof. by destruct a, b. Qed.

Lemma fleb_not_nan_r (a b : pyfloat) : fleb a b = true → is_nan b = false.
Proof. by destruct a, b. Qed.

Lemma fleb_refl (a : pyfloat) : is_nan a = false → fleb a a = true.
Proof. destruct a; simpl; try done. intros _. by apply Qc_leb_true. Qed.

(** Without [nan], [<] and [>=] are complementary. *)
Lemma fltb_false_fleb (a b : pyfloat) :
  is_nan a = false → is_nan b = false → fltb a b = false → fleb b a = true.
Proof.
  destruct a, b; simpl; try done.
  intros _ _. by rewrite Qc_ltb_false, Qc_leb_true.
Qed.

Lemma fltb_irrefl (a : pyfloat) : fltb a a = false.
Proof. destruct a; simpl; try done. apply Qc_ltb_false. reflexivity. Qed.

Lemma fltb_trans (a b c : pyfloat) : fltb a b = true → fltb b c = true → fltb a c = true.
Proof.
  destruct a, b, c; simpl; try done.
  rewrite !Qc_ltb_true. apply Qclt_trans.
Qed.

Lemma fleb_fltb_trans (a b c : pyfloat) : fleb a b = true → fltb b c = true → fltb a c = true.
Proof.
  destruct a, b, c; simpl; try done.
  rewrite !Qc_ltb_true, Qc_leb_true. apply Qcle_lt_trans.
Qed.

(** ** Doubles *)

Lemma Qc_of_Z_nonneg (z : Z) : 0 ≤ z → (0 ≤ Qc_of_Z z)%Qc.
Proof. intros Hz. rewrite <- Z2Qc_inj_0. by apply (proj1 (Z2Qc_inj_le 0 z)). Qed.

Lemma Qc_of_Z_pos (k : Z) : 0 < k → (0 < Qc_of_Z k)%Qc.
Proof. intros Hk. rewrite <- Z2Qc_inj_0. by apply (proj1 (Z2Qc_inj_lt 0 k)). Qed.

Lemma round_half_even_nonneg (n d : Z) : 0 ≤ n → 0 < d → 0 ≤ round_half_even n d.
Proof.
  intros Hn Hd. unfold round_half_even.
  assert (0 ≤ n `div` d) by (by apply Z.div_pos).
  repeat case_match; lia.
Qed.

Lemma round_half_even_1 (n : Z) : round_half_even n 1 = n.
Proof. unfold round_half_even. by rewrite Z.mod_1_r, Z.div_1_r. Qed.

Lemma Qc_scale_nonneg (m ex : Z) : 0 ≤ m → (0 ≤ Qc_scale m ex)%Qc.
Proof.
  intros Hm. unfold Qc_scale. destruct (0 <=? ex) eqn:Hex.
  - apply Qc_of_Z_nonneg, Z.mul_nonneg_nonneg; [done|]. apply Z.pow_nonneg. lia.
  - unfold Qcdiv. apply Qcmult_nonneg_nonneg; [by apply Qc_of_Z_nonneg|].
    apply Qclt_le_weak, Qcinv_pos, Qc_of_Z_pos, Z.pow_pos_nonneg; lia.
Qed.

(** Scaling up and down again. *)
Lemma Qc_scale_shift (z k : Z) : 0 ≤ k → Qc_scale (z * 2 ^ k) (- k) = Qc_of_Z z.
Proof.
  intros Hk. unfold Qc_scale. destruct (0 <=? - k) eqn:Hneg.
  - apply Z.leb_le in Hneg. assert (k = 0) as -> by lia. simpl. f_equal. lia.
  - rewrite Z.opp_involutive, Z2Qc_inj_mul. unfold Qcdiv.
    rewrite <- Qcmult_assoc, Qcmult_inv_r, Qcmult_1_r; [done|].
    intros Heq. rewrite <- Z2Qc_inj_0 in Heq. apply Z2Qc_inj in Heq.
    assert (0 < 2 ^ k) by (apply Z.pow_pos_nonneg; lia). lia.
Qed.

(** A rounded non-negative rational is not negative. *)
Lemma round_double_pos_nonneg (n d : Z) (p : Qc) :
  0 < n → 0 < d → round_double_pos n d = Fin p → (0 ≤ p)%Qc.
Proof.
  intros Hn Hd. unfold round_double_pos.
  set (ex := Z.max (floor_log2 n d - 52) (-1074)).
  destruct (_ && _); [done|]. intros [= <-].
  apply Qc_scale_nonneg. destruct (0 <=? ex) eqn:Hex.
  - apply round_half_even_nonneg; [lia|].
    apply Z.mul_pos_pos; [done|]. apply Z.pow_pos_nonneg; [lia|]. by apply Z.leb_le.
  - apply round_half_even_nonneg; [|done].
    apply Z.mul_nonneg_nonneg; [lia|]. apply Z.pow_nonneg. lia.
Qed.

Lemma round_double_nonneg (q p : Qc) : (0 ≤ q)%Qc → round_double q = Fin p → (0 ≤ p)%Qc.
Proof.
  destruct q as [[n d] Hcanon]. unfold Qcle, Qle, round_double. simpl.
  rewrite Z.mul_1_r. intros Hq. destruct n as [|n|n]; [|  |lia].
  - by intros [= <-].
  - by apply round_double_pos_nonneg.
Qed.

(** A positive integer of at most 53 bits is its own double. *)
Lemma round_double_pos_exact (z : Z) :
  0 < z → z ≤ 2 ^ 53 → round_double_pos z 1 = Fin (Qc_of_Z z).
Proof.
  intros Hpos Hle.
  assert (0 ≤ Z.log2 z) as Hlog0 by apply Z.log2_nonneg.
  assert (2 ^ Z.log2 z ≤ z) as Hlow by (by apply Z.log2_spec).
  assert (Z.log2 z ≤ 53) as Hlog.
  { change 53 with (Z.log2 (2 ^ 53)). by apply Z.log2_le_mono. }
  assert (floor_log2 z 1 = Z.log2 z) as He.
  { unfold floor_log2. change (Z.log2 1) with 0. rewrite Z.sub_0_r.
    rewrite (proj2 (Z.leb_le 0 _)) by done.
    by rewrite Z.mul_1_l, (proj2 (Z.ltb_ge z _)). }
  unfold round_double_pos. rewrite He, Z.max_l by lia.
  destruct (decide (Z.log2 z = 53)) as [H53|H53].
  - assert (z = 2 ^ 53) as ->.
    { rewrite H53 in Hlow. lia. }
    vm_compute. f_equal; by apply Qc_is_canon.
  - destruct (0 <=? Z.log2 z - 52) eqn:Hex.
    + apply Z.leb_le in Hex. assert (Z.log2 z - 52 = 0) as -> by lia.
      change (2 ^ 0) with 1. rewrite Z.mul_1_r, round_half_even_1.
      cbn [Z.leb Z.compare andb]. unfold Qc_scale. simpl. by rewrite Z.mul_1_r.
    + rewrite round_half_even_1.
      replace (971 <=? Z.log2 z - 52) with false
        by (symmetry; apply Z.leb_gt; lia).
      cbn [andb]. f_equal.
      replace (Z.log2 z - 52) with (- (52 - Z.log2 z)) at 2 by lia.
      replace (- (Z.log2 z - 52)) with (52 - Z.log2 z) by lia.
      apply Qc_scale_shift. apply Z.leb_gt in Hex. lia.
Qed.

(** [float(z)] of an integer a double holds exactly is [z], and does not
    raise. *)
Lemma round_double_exact (z : Z) : exact_int z → round_double (Qc_of_Z z) = of_Z z.
Proof.
  unfold exact_int, round_double, of_Z. intros Hz.
  change (Qnum (Qc_of_Z z)) with z. change (Qden (Qc_of_Z z)) with 1%positive.
  destruct z as [|n|n].
  - by rewrite Z2Qc_inj_0.
  - apply round_double_pos_exact; lia.
  - rewrite round_double_pos_exact by lia.
    by rewrite <- Z2Qc_inj_opp.
Qed.

Lemma float_of_int_exact (z : Z) : exact_int z → float_of_int z = Ok (of_Z z).
Proof. intros Hz. unfold float_of_int. by rewrite round_double_exact. Qed.

(** What [float(z)] returns is not negative for [0 <= z]. *)
Lemma float_of_int_nonneg (z : Z) (f : pyfloat) :
  0 ≤ z → float_of_int z = Ok f → ∃ p, f = Fin p ∧ (0 ≤ p)%Qc.
Proof.
  intros Hz. unfold float_of_int.
  destruct (round_double (Qc_of_Z z)) as [p| | |] eqn:Hr; try done.
  intros [= <-]. exists p. split; [done|].
  apply (round_double_nonneg (Qc_of_Z z)); [by apply Qc_of_Z_nonneg|done].
Qed.

(** ** The hardware accessors *)

(** The clamped overlap is never zero: the field itself when it is not below
    [1e-3] (or is [nan]), and [1e-3] otherwise. *)
Lemma effective_overlap_not_zero (hw : HardwareSpec.t) :
  is_zero (HardwareSpec.effective_overlap hw) = false.
Proof.
  unfold HardwareSpec.effective_overlap.
  destruct (fmax_cases (HardwareSpec.overlap_efficiency hw) f1e_3) as [[_ ->]|[Hgt ->]]; [done|].
  destruct (HardwareSpec.overlap_efficiency hw) as [q| | |]; simpl in *; try done.
  apply Qc_ltb_false in Hgt.
  apply not_true_is_false. rewrite Qc_is0_true. intros ->.
  by apply Qcle_not_lt in Hgt.
Qed.

Lemma effective_overlap_floor (hw : HardwareSpec.t) :
  is_nan (HardwareSpec.overlap_efficiency hw) = false →
  fleb f1e_3 (HardwareSpec.effective_overlap hw) = true.
Proof.
  intros Hnan. unfold HardwareSpec.effective_overlap.
  destruct (fmax_cases (HardwareSpec.overlap_efficiency hw) f1e_3) as [[_ ->]|[Hgt ->]]; [done|].
  by apply fltb_false_fleb.
Qed.

Lemma effective_overlap_clamped (hw : HardwareSpec.t) :
  fleb (HardwareSpec.overlap_efficiency hw) f0 = true →
  HardwareSpec.effective_overlap hw = f1e_3.
Proof.
  intros Hle. unfold HardwareSpec.effective_overlap, fmax, fgtb.
  by rewrite (fleb_fltb_trans _ f0 f1e_3).
Qed.

Lemma dominant_latency_ms_eq (c m : pyfloat) (hw : HardwareSpec.t) :
  dominant_latency_ms c m hw = Ok (fmax c (fquot m (HardwareSpec.effective_overlap hw))).
Proof.
  unfold dominant_latency_ms.
  by rewrite fdiv_not_zero by apply effective_overlap_not_zero.
Qed.

Lemma fleb_fmax_0 (g : pyfloat) : fleb g f0 = true → fleb (fmax g f0) f0 = true.
Proof. intros Hle. by destruct (fmax_cases g f0) as [[_ ->]|[_ ->]]. Qed.

Lemma fleb_fmul_giga (x : pyfloat) : fleb x f0 = true → fleb (fmul x f1e9) f0 = true.
Proof.
  destruct x as [q| | |]; simpl; try done.
  rewrite !Qc_leb_true, Z2Qc_inj_0. intros Hle.
  rewrite <- (Qcmult_0_l (Qc_of_Z 1000000000)).
  apply Qcmult_le_mono_nonneg_r; [|done].
  apply Qclt_le_weak, Qc_giga_pos.
Qed.

(** ** The timing conversions *)

Lemma compute_time_ms_degenerate (flops : pyfloat) (hw : HardwareSpec.t) :
  fleb (HardwareSpec.peak_tflops hw) f0 = true → compute_time_ms flops hw = Ok inf.
Proof.
  intros Hle. unfold compute_time_ms, HardwareSpec.compute_throughput_tflops.
  by rewrite fleb_fmax_0.
Qed.

Lemma memory_time_ms_degenerate (bytes_moved : pyfloat) (hw : HardwareSpec.t) :
  fleb (HardwareSpec.memory_bandwidth_gbps hw) f0 = true →
  memory_time_ms bytes_moved hw = Ok inf.
Proof.
  intros Hle. unfold memory_time_ms, HardwareSpec.memory_bandwidth_bytes.
  by rewrite fleb_fmul_giga by by apply fleb_fmax_0.
Qed.

Lemma interconnect_time_ms_degenerate (bytes_moved : pyfloat) (hw : HardwareSpec.t) :
  fleb (HardwareSpec.interconnect_gbps hw) f0 = true →
  interconnect_time_ms bytes_moved hw = Ok f0.
Proof.
  intros Hle. unfold interconnect_time_ms, HardwareSpec.interconnect_bandwidth_bytes.
  by rewrite fleb_fmul_giga by by apply fleb_fmax_0.
Qed.

(** None of the three conversions raises: the division is reached only with
    a divisor that is not [<= 0]. *)
Lemma compute_time_ms_total (flops : pyfloat) (hw : HardwareSpec.t) :
  ∃ ms, compute_time_ms flops hw = Ok ms.
Proof.
  unfold compute_time_ms.
  destruct (fleb (HardwareSpec.compute_throughput_tflops hw) f0) eqn:Hle; [eauto|].
  assert (is_zero (fmul (HardwareSpec.compute_throughput_tflops hw) f1e12) = false) as Hnz.
  { destruct (HardwareSpec.compute_throughput_tflops hw) as [q| | |]; simpl in *; try done.
    apply Qc_leb_false in Hle. rewrite Z2Qc_inj_0 in Hle.
    apply not_true_is_false. rewrite Qc_is0_true. intros Heq.
    assert (0 < q * Qc_of_Z 1000000000000)%Qc as Hpos by (by apply Qcmult_pos_pos).
    rewrite Heq in Hpos. by apply Qclt_not_eq in Hpos. }
  rewrite fdiv_not_zero by done. simpl. eauto.
Qed.

Lemma memory_time_ms_total (bytes_moved : pyfloat) (hw : HardwareSpec.t) :
  ∃ ms, memory_time_ms bytes_moved hw = Ok ms.
Proof.
  unfold memory_time_ms.
  destruct (fleb (HardwareSpec.memory_bandwidth_bytes hw) f0) eqn:Hle; [eauto|].
  rewrite fdiv_not_zero by by apply fleb_false_not_zero. simpl. eauto.
Qed.

Lemma interconnect_time_ms_cases (bytes_moved : pyfloat) (hw : HardwareSpec.t) :
  let bandwidth := HardwareSpec.interconnect_bandwidth_bytes hw in
  (fleb bandwidth f0 = true ∧ interconnect_time_ms bytes_moved hw = Ok f0) ∨
  (fleb bandwidth f0 = false ∧
   interconnect_time_ms bytes_moved hw = Ok (fmul (fquot bytes_moved bandwidth) f1e3)).
Proof.
  unfold interconnect_time_ms. simpl.
  destruct (fleb (HardwareSpec.interconnect_bandwidth_bytes hw) f0) eqn:Hle; [by left|].
  right. split; [done|].
  by rewrite fdiv_not_zero by by apply fleb_false_not_zero.
Qed.

(** C1: for every non-negative [compute_ms], every [memory_ms] and every
    hardware, [dominant_latency_ms] returns exactly
    [max(compute_ms, memory_ms / effective_overlap)], and that result is
    [>=] this maximum.  The divisor is the overlap field clamped from below
    at [1e-3]: it is never zero, it is [1e-3] itself for a zero or negative
    field, and it is at least [1e-3] for every field that is a number. *)
Theorem C1_dominant_latency_ms_exact (compute_ms memory_ms : pyfloat) (hw : HardwareSpec.t) :
  fleb f0 compute_ms = true →
  fleb f0 memory_ms = true →
  let overlap := HardwareSpec.effective_overlap hw in
  overlap = fmax (HardwareSpec.overlap_efficiency hw) f1e_3 ∧
  is_zero overlap = false ∧
  (fleb (HardwareSpec.overlap_efficiency hw) f0 = true → overlap = f1e_3) ∧
  (is_nan (HardwareSpec.overlap_efficiency hw) = false → fleb f1e_3 overlap = true) ∧
  ∃ adjusted latency,
    fdiv memory_ms overlap = Ok adjusted ∧
    dominant_latency_ms compute_ms memory_ms hw = Ok latency ∧
    latency = fmax compute_ms adjusted ∧
    fgeb latency (fmax compute_ms adjusted) = true.
Proof.
  intros Hc _ overlap.
  split; [done|]. split; [apply effective_overlap_not_zero|].
  split; [apply effective_overlap_clamped|].
  split; [apply effective_overlap_floor|].
  exists (fquot memory_ms overlap), (fmax compute_ms (fquot memory_ms overlap)).
  split; [apply fdiv_not_zero, effective_overlap_not_zero|].
  split; [apply dominant_latency_ms_eq|]. split; [done|].
  unfold fgeb. apply fleb_refl.
  destruct (fmax_cases compute_ms (fquot memory_ms overlap)) as [[Hgt ->]|[_ ->]].
  - by apply fltb_not_nan_r in Hgt.
  - by apply fleb_not_nan_r in Hc.
Qed.

Lemma C1_dominant_latency_ms_exact_witness :
  ∃ latency,
    dominant_latency_ms (of_Z 20) (of_Z 250) hw_test = Ok latency ∧
    fgeb latency (fmax (of_Z 20) (fquot (of_Z 250) (HardwareSpec.effective_overlap hw_test)))
      = true.
Proof.
  destruct (C1_dominant_latency_ms_exact (of_Z 20) (of_Z 250) hw_test eq_refl eq_refl)
    as (_ & Hnz & _ & _ & adjusted & latency & Hdiv & Hlat & _ & Hge).
  exists latency. split; [exact Hlat|].
  rewrite (fdiv_not_zero _ _ Hnz) in Hdiv.
  injection Hdiv as <-. exact Hge.
Defined.

(** C2: hardware whose peak compute throughput is [<= 0] makes
    [compute_time_ms] return [+inf] for every FLOPs value, without raising;
    a memory bandwidth [<= 0] makes [memory_time_ms] return [+inf]; an
    interconnect bandwidth [<= 0] makes [interconnect_time_ms] return [0.0]. *)
Theorem C2_degenerate_hardware (hw : HardwareSpec.t) (amount : pyfloat) :
  (fleb (HardwareSpec.peak_tflops hw) f0 = true → compute_time_ms amount hw = Ok inf) ∧
  (fleb (HardwareSpec.memory_bandwidth_gbps hw) f0 = true →
   memory_time_ms amount hw = Ok inf) ∧
  (fleb (HardwareSpec.interconnect_gbps hw) f0 = true →
   interconnect_time_ms amount hw = Ok f0).
Proof.
  split; [apply compute_time_ms_degenerate|].
  split; [apply memory_time_ms_degenerate|apply interconnect_time_ms_degenerate].
Qed.

Lemma C2_degenerate_hardware_witness :
  compute_time_ms (of_Z 2000000000000) hw_dead = Ok inf ∧
  memory_time_ms (of_Z 2000000000000) hw_dead = Ok inf ∧
  interconnect_time_ms (of_Z 2000000000000) hw_dead = Ok f0.
Proof.
  destruct (C2_degenerate_hardware hw_dead (of_Z 2000000000000)) as (Hc & Hm & Hi).
  split; [apply Hc; reflexivity|].
  split; [apply Hm; reflexivity|apply Hi; reflexivity].
Defined.

(** ** Integers as floats *)

Lemma fadd_of_Z (a b : Z) : fadd (of_Z a) (of_Z b) = of_Z (a + b).
Proof. unfold of_Z. simpl. by rewrite Z2Qc_inj_add. Qed.

Lemma fmul_of_Z (a b : Z) : fmul (of_Z a) (of_Z b) = of_Z (a * b).
Proof. unfold of_Z. simpl. by rewrite Z2Qc_inj_mul. Qed.

Lemma fadd_0_l (a : pyfloat) : fadd f0 a = a.
Proof.
  destruct a as [q| | |]; try done.
  unfold f0, of_Z. simpl. by rewrite Z2Qc_inj_0, Qcplus_0_l.
Qed.

Lemma fadd_0_r (a : pyfloat) : fadd a f0 = a.
Proof.
  destruct a as [q| | |]; try done.
  unfold f0, of_Z. simpl. by rewrite Z2Qc_inj_0, Qcplus_0_r.
Qed.

Lemma tensor_elements_4 (a b c d : Z) :
  0 ≤ a → 0 ≤ b → 0 ≤ c → 0 ≤ d → tensor_elements [a; b; c; d] = a * b * c * d.
Proof. intros. unfold tensor_elements. simpl. lia. Qed.

(** ** The fused-operation catalog *)

(** C6: [attention_scores] returns as FLOPs the per-head [Q.K^T] matmul
    FLOPs [2*seq*seq*head_dim] times batch times heads plus one operation
    per score element, [batch*num_heads*seq*seq], and as bytes the sum of
    [tensor_bytes] of the Q tensor, the K tensor of the same shape and the
    [(batch, num_heads, seq, seq)] weight tensor; for non-negative
    dimensions these tensors hold the product of their dimensions times
    [dtype_bits / 8] bytes.  When the factors, the products and the total
    are numbers a double holds exactly, the FLOPs are the whole number
    [2*seq*seq*head_dim*batch*num_heads + batch*num_heads*seq*seq]. *)
Theorem C6_attention_scores (batch seq num_heads head_dim dtype_bits : Z) :
  0 ≤ batch → 0 ≤ seq → 0 ≤ num_heads → 0 ≤ head_dim →
  let m := attention_scores batch seq num_heads head_dim dtype_bits in
  let qk_bytes := tensor_bytes [batch; num_heads; seq; head_dim] dtype_bits in
  let attn_bytes := tensor_bytes [batch; num_heads; seq; seq] dtype_bits in
  let per_head := 2 * seq * seq * head_dim in
  let softmax := batch * num_heads * seq * seq in
  FusionMetrics.flops m =
    fadd (fmul (fmul (matmul_flops seq seq head_dim) (of_Z batch)) (of_Z num_heads))
         (of_Z softmax) ∧
  matmul_flops seq seq head_dim = of_Z per_head ∧
  (Forall exact_int
     [batch; num_heads; per_head; per_head * batch; per_head * batch * num_heads + softmax] →
   FusionMetrics.flops m =
     of_Z (2 * seq * seq * head_dim * batch * num_heads + batch * num_heads * seq * seq)) ∧
  FusionMetrics.bytes_accessed m = fadd (fadd qk_bytes qk_bytes) attn_bytes ∧
  qk_bytes = fquot (of_Z (batch * num_heads * seq * head_dim * dtype_bits)) f8 ∧
  attn_bytes = fquot (of_Z (batch * num_heads * seq * seq * dtype_bits)) f8.
Proof.
  intros Hb Hs Hn Hd m qk_bytes attn_bytes per_head softmax.
  split; [done|]. split; [done|]. split.
  - intros _. unfold m, attention_scores, matmul_flops. cbn [FusionMetrics.flops].
    by rewrite !fmul_of_Z, fadd_of_Z.
  - split; [done|]. unfold qk_bytes, attn_bytes, tensor_bytes.
    by rewrite !tensor_elements_4.
Qed.

Lemma C6_attention_scores_witness :
  FusionMetrics.flops (attention_scores 4 128 8 16 16) =
    of_Z (2 * 128 * 128 * 16 * 4 * 8 + 4 * 8 * 128 * 128).
Proof.
  destruct (C6_attention_scores 4 128 8 16 16) as (_ & _ & Hflops & _); [lia..|].
  apply Hflops. repeat constructor; vm_compute; discriminate.
Defined.

(** ** The MoE estimator *)

(** [int(x)] of a non-negative float is its floor. *)
Lemma Qc_trunc_floor (q : Qc) : (0 ≤ q)%Qc → Qc_trunc q = Qfloor q.
Proof.
  destruct q as [[n d] Hc]. unfold Qcle, Qle, Qc_trunc. simpl.
  intros Hn. apply Z.quot_div_nonneg; lia.
Qed.

(** What [MoEConfig.from_dict] guarantees: the three counts are floored at
    [1], and the average is [max(avg, 1.0)] of the parsed value. *)
Lemma MoEConfig_from_dict_floors `{PyBuiltins} (data : dict) (cfg : MoEConfig.t) :
  MoEConfig.from_dict data = Ok cfg →
  1 ≤ MoEConfig.num_experts cfg ∧ 1 ≤ MoEConfig.top_k cfg ∧ 1 ≤ MoEConfig.num_groups cfg ∧
  ∃ avg, MoEConfig.avg_experts_per_token cfg = fmax avg f1.
Proof.
  unfold MoEConfig.from_dict. intros Hd.
  do 7 inv_bind Hd. injection Hd as <-. simpl.
  repeat split; try lia. eauto.
Qed.

Lemma of_Z_nonneg_not_zero (z : Z) : 1 ≤ z → is_zero (of_Z z) = false.
Proof.
  intros Hz. simpl. apply not_true_is_false. rewrite Qc_is0_true, <- Z2Qc_inj_0.
  intros Heq%Z2Qc_inj. lia.
Qed.

Lemma MoE_init_config `{PyBuiltins} (moe_config hardware_config : dict) (moe : MoE.t) :
  MoE.init moe_config hardware_config = Ok moe →
  MoEConfig.from_dict moe_config = Ok (MoE.config moe).
Proof. unfold MoE.init. intros Hi. inv_bind Hi. by injection Hi as <-. Qed.

(** An estimator's closing steps never raise, whatever FLOPs and bytes it
    gathered. *)
Lemma timing_total (flops bytes : pyfloat) (hw : HardwareSpec.t) :
  ∃ compute_ms memory_ms latency_ms,
    compute_time_ms flops hw = Ok compute_ms ∧
    memory_time_ms bytes hw = Ok memory_ms ∧
    dominant_latency_ms compute_ms memory_ms hw = Ok latency_ms.
Proof.
  destruct (compute_time_ms_total flops hw) as [c Hc].
  destruct (memory_time_ms_total bytes hw) as [m Hm].
  exists c, m, (fmax c (fquot m (HardwareSpec.effective_overlap hw))).
  by rewrite Hc, Hm, dominant_latency_ms_eq.
Qed.

Lemma moe_expert_forward_flops (active_tokens d_model expert_hidden dtype_bits : Z) :
  FusionMetrics.flops (moe_expert_forward active_tokens d_model expert_hidden dtype_bits)
  = of_Z (2 * active_tokens * expert_hidden * d_model
          + 2 * active_tokens * d_model * expert_hidden
          + active_tokens * expert_hidden).
Proof.
  unfold moe_expert_forward, matmul_flops. cbn [FusionMetrics.flops].
  by rewrite !fadd_of_Z.
Qed.

(** What [MoE._metrics] returns, when it returns: the three catalog calls,
    on the token count that [int()] cut from the double product. *)
Lemma MoE_metrics_Ok (moe : MoE.t) (batch seq : Z) (metrics : list FusionMetrics.t) :
  let cfg := MoE.config moe in
  MoE._metrics moe batch seq = Ok metrics →
  ∃ (tokens_float : pyfloat) (active_tokens : Z) (bytes_per_device : pyfloat),
    float_of_int (batch * seq) = Ok tokens_float ∧
    int_of_float (fmul_double tokens_float (MoEConfig.avg_experts_per_token cfg))
      = Ok active_tokens ∧
    fdiv (tensor_bytes [active_tokens; MoEConfig.d_model cfg] (MoEConfig.dtype_bits cfg))
         (of_Z (MoEConfig.num_groups cfg)) = Ok bytes_per_device ∧
    metrics =
      [moe_routing batch seq (MoEConfig.num_experts cfg) (MoEConfig.top_k cfg)
         (MoEConfig.dtype_bits cfg);
       moe_expert_forward active_tokens (MoEConfig.d_model cfg) (MoEConfig.expert_hidden cfg)
         (MoEConfig.dtype_bits cfg);
       communication_all_to_all bytes_per_device].
Proof.
  intros cfg Hms. unfold MoE._metrics in Hms. fold cfg in Hms.
  apply bind_Ok in Hms as (tokens_float & Htf & Hms).
  apply bind_Ok in Hms as (active_tokens & Hat & Hms).
  apply bind_Ok in Hms as (bytes_per_device & Hbpd & Hms).
  injection Hms as <-. by exists tokens_float, active_tokens, bytes_per_device.
Qed.

(** In the model, the MoE estimate returns whenever [int(tokens * avg)] is
    defined and [num_groups] is not zero. *)
Lemma MoE_estimate_total (moe : MoE.t) (batch seq active_tokens : Z) (tokens_float : pyfloat)
    (hw : HardwareSpec.t) :
  float_of_int (batch * seq) = Ok tokens_float →
  int_of_float (fmul_double tokens_float (MoEConfig.avg_experts_per_token (MoE.config moe)))
    = Ok active_tokens →
  MoEConfig.num_groups (MoE.config moe) ≠ 0 →
  ∃ e, MoE.estimate_execution_time moe batch seq hw = Ok e.
Proof.
  intros Htf Hactive Hgroups.
  unfold MoE.estimate_execution_time, MoE._metrics.
  rewrite Htf. cbn [mbind res_bind]. rewrite Hactive. cbn [mbind res_bind].
  rewrite fdiv_not_zero; cbn [mbind res_bind].
  - match goal with
    | |- context [compute_time_ms ?f hw] =>
        match goal with
        | |- context [memory_time_ms ?b hw] =>
            destruct (timing_total f b hw) as (c & m & l & -> & -> & Hl)
        end
    end.
    cbn [mbind res_bind]. rewrite Hl. cbn [mbind res_bind]. eauto.
  - simpl. apply not_true_is_false. rewrite Qc_is0_true, <- Z2Qc_inj_0.
    by intros Heq%Z2Qc_inj.
Qed.

Lemma fmul_nonfinite_r (a b : pyfloat) : is_finite b = false → is_finite (fmul a b) = false.
Proof.
  destruct a as [x| | |], b as [y| | |]; try done; intros _; simpl;
    unfold inf_signed; by repeat case_match.
Qed.

Lemma fmul_double_finite (a b : pyfloat) (p : Qc) :
  fmul_double a b = Fin p → ∃ x y, a = Fin x ∧ b = Fin y ∧ round_double (x * y) = Fin p.
Proof.
  unfold fmul_double. destruct (fmul a b) as [q| | |] eqn:Hm; try done.
  destruct a as [x| | |], b as [y| | |]; simpl in Hm; unfold inf_signed in Hm;
    try done; try (by repeat case_match).
  injection Hm as <-. eauto.
Qed.

(** When the average number of experts per token is not a finite number,
    [int(...)] raises and no metric is built. *)
Lemma MoE_metrics_nonfinite (moe : MoE.t) (batch seq : Z) :
  is_finite (MoEConfig.avg_experts_per_token (MoE.config moe)) = false →
  ∃ exn, MoE._metrics moe batch seq = Raise exn.
Proof.
  unfold MoE._metrics. intros Hnf.
  destruct (float_of_int (batch * seq)) as [tf|exn]; cbn [mbind res_bind]; [|eauto].
  destruct (fmul_double tf _) as [p| | |] eqn:Hp; cbn [int_of_float mbind res_bind]; eauto.
  apply fmul_double_finite in Hp as (x & y & _ & Hy & _). by rewrite Hy in Hnf.
Qed.

(** Every module [MoE(mapping)] has a normalised configuration. *)
Lemma MoE_init_normalised `{PyBuiltins} (moe_config hardware_config : dict) (moe : MoE.t) :
  MoE.init moe_config hardware_config = Ok moe → moe_normalised (MoE.config moe).
Proof.
  intros Hinit%MoE_init_config.
  destruct (MoEConfig_from_dict_floors _ _ Hinit) as (He & Hk & Hg & x & Hx).
  repeat split; try done. rewrite Hx.
  destruct (fmax_cases x f1) as [[_ ->]|[Hgt ->]]; [apply fltb_irrefl|done].
Qed.

(** C3: for every MoE module with a normalised configuration, as every
    module built from a mapping has, and non-negative [batch] and [seq], the
    metrics the estimator builds are the three catalog calls [moe_routing],
    [moe_expert_forward] on [active_tokens = floor(batch*seq*avg)] and
    [communication_all_to_all] on the bytes of the [(active_tokens, d_model)]
    tensor divided by [num_groups]; the product under the floor is the one
    the program computes, [float(batch*seq) * avg] as a double, and it is
    not negative.  The [flops] of the execution returned is the sum of the
    three FLOPs formulas, added in the order of the calls, and the whole
    number the formulas give when that is one a double holds exactly.
    Metrics and execution are produced whenever the product is a finite
    number and the integers involved are modest. *)
Theorem C3_moe_metrics (moe : MoE.t) (batch seq : Z) (hw : HardwareSpec.t) :
  moe_normalised (MoE.config moe) →
  0 ≤ batch → 0 ≤ seq →
  let cfg := MoE.config moe in
  let tokens := batch * seq in
  let routing :=
    moe_routing batch seq (MoEConfig.num_experts cfg) (MoEConfig.top_k cfg)
      (MoEConfig.dtype_bits cfg) in
  let expert active_tokens :=
    moe_expert_forward active_tokens (MoEConfig.d_model cfg) (MoEConfig.expert_hidden cfg)
      (MoEConfig.dtype_bits cfg) in
  let comm active_tokens :=
    communication_all_to_all
      (fquot (tensor_bytes [active_tokens; MoEConfig.d_model cfg] (MoEConfig.dtype_bits cfg))
             (of_Z (MoEConfig.num_groups cfg))) in
  let routing_flops := tokens * MoEConfig.num_experts cfg + tokens * MoEConfig.top_k cfg in
  let expert_flops active_tokens :=
    2 * active_tokens * MoEConfig.expert_hidden cfg * MoEConfig.d_model cfg
    + 2 * active_tokens * MoEConfig.d_model cfg * MoEConfig.expert_hidden cfg
    + active_tokens * MoEConfig.expert_hidden cfg in
  (∀ metrics,
     MoE._metrics moe batch seq = Ok metrics →
     ∃ (tokens_float : pyfloat) (product : Qc),
       float_of_int tokens = Ok tokens_float ∧
       fmul_double tokens_float (MoEConfig.avg_experts_per_token cfg) = Fin product ∧
       (0 ≤ product)%Qc ∧
       metrics = [routing; expert (Qfloor product); comm (Qfloor product)]) ∧
  (∀ e,
     MoE.estimate_execution_time moe batch seq hw = Ok e →
     ∃ active_tokens,
       0 ≤ active_tokens ∧
       MoE._metrics moe batch seq
         = Ok [routing; expert active_tokens; comm active_tokens] ∧
       LayerExecution.flops e =
         py_sum [FusionMetrics.flops routing;
                 FusionMetrics.flops (expert active_tokens);
                 FusionMetrics.flops (comm active_tokens)] ∧
       FusionMetrics.flops routing = of_Z routing_flops ∧
       FusionMetrics.flops (expert active_tokens) =
         fadd (fadd (of_Z (2 * active_tokens * MoEConfig.expert_hidden cfg
                           * MoEConfig.d_model cfg))
                    (of_Z (2 * active_tokens * MoEConfig.d_model cfg
                           * MoEConfig.expert_hidden cfg)))
              (of_Z (active_tokens * MoEConfig.expert_hidden cfg)) ∧
       FusionMetrics.flops (comm active_tokens) = f0 ∧
       (0 ≤ MoEConfig.d_model cfg → 0 ≤ MoEConfig.expert_hidden cfg →
        exact_int (routing_flops + expert_flops active_tokens) →
        LayerExecution.flops e = of_Z (routing_flops + expert_flops active_tokens))) ∧
  (∀ (tokens_float : pyfloat) (product : Qc),
     float_of_int tokens = Ok tokens_float →
     fmul_double tokens_float (MoEConfig.avg_experts_per_token cfg) = Fin product →
     Forall modest
       [batch; seq; Qfloor product; MoEConfig.d_model cfg; MoEConfig.expert_hidden cfg;
        MoEConfig.num_experts cfg; MoEConfig.top_k cfg; MoEConfig.num_groups cfg;
        MoEConfig.dtype_bits cfg] →
     ∃ metrics e,
       MoE._metrics moe batch seq = Ok metrics ∧
       MoE.estimate_execution_time moe batch seq hw = Ok e).
Proof.
  intros (_ & _ & Hgroups & Havg1) Hb Hs cfg tokens routing expert comm
    routing_flops expert_flops.
  fold cfg in Hgroups, Havg1.
  assert (0 ≤ tokens) as Htokens by (by apply Z.mul_nonneg_nonneg).
  assert (∀ active_tokens,
            fdiv (tensor_bytes [active_tokens; MoEConfig.d_model cfg]
                    (MoEConfig.dtype_bits cfg))
                 (of_Z (MoEConfig.num_groups cfg))
            = Ok (fquot (tensor_bytes [active_tokens; MoEConfig.d_model cfg]
                           (MoEConfig.dtype_bits cfg))
                        (of_Z (MoEConfig.num_groups cfg)))) as Hdiv.
  { intros a. by apply fdiv_not_zero, of_Z_nonneg_not_zero. }
  assert (∀ metrics,
            MoE._metrics moe batch seq = Ok metrics →
            ∃ (tokens_float : pyfloat) (product : Qc),
              float_of_int tokens = Ok tokens_float ∧
              fmul_double tokens_float (MoEConfig.avg_experts_per_token cfg) = Fin product ∧
              (0 ≤ product)%Qc ∧
              metrics = [routing; expert (Qfloor product); comm (Qfloor product)]) as Hbuilt.
  { intros metrics Hms.
    apply MoE_metrics_Ok in Hms as (tf & a & bpd & Htf & Ha & Hbpd & ->).
    fold cfg tokens in Htf, Ha, Hbpd. fold cfg.
    destruct (float_of_int_nonneg _ _ Htokens Htf) as (t & -> & Ht).
    destruct (fmul_double (Fin t) (MoEConfig.avg_experts_per_token cfg))
      as [product| | |] eqn:Hprod; try done.
    destruct (fmul_double_finite _ _ _ Hprod) as (t' & avg & [= <-] & Havg & Hround).
    assert (0 ≤ product)%Qc as Hnonneg.
    { apply (round_double_nonneg (t * avg)); [|done].
      apply Qcmult_nonneg_nonneg; [done|].
      rewrite Havg in Havg1. cbn [fltb] in Havg1. apply Qc_ltb_false in Havg1.
      rewrite Z2Qc_inj_1 in Havg1. by trans 1%Qc. }
    cbn [int_of_float] in Ha. injection Ha as <-.
    rewrite Qc_trunc_floor in Hbpd |- * by done.
    rewrite Hdiv in Hbpd. injection Hbpd as <-.
    by exists (Fin t), product. }
  split; [exact Hbuilt|]. split.
  - intros e He. unfold MoE.estimate_execution_time in He.
    apply bind_Ok in He as (metrics & Hms & He).
    destruct (Hbuilt metrics Hms) as (tf & product & _ & _ & Hnonneg & ->).
    do 3 inv_bind He. injection He as <-.
    exists (Qfloor product).
    split; [change 0 with (Qfloor 0); by apply Qfloor_resp_le|].
    split; [done|]. split; [done|].
    split; [done|]. split; [done|]. split; [done|].
    intros _ _ _. subst routing expert comm routing_flops expert_flops tokens.
    lazy beta. change (LayerExecution.flops _) with
      (fadd (fadd (fadd f0
         (FusionMetrics.flops
            (moe_routing batch seq (MoEConfig.num_experts cfg) (MoEConfig.top_k cfg)
               (MoEConfig.dtype_bits cfg))))
         (FusionMetrics.flops
            (moe_expert_forward (Qfloor product) (MoEConfig.d_model cfg)
               (MoEConfig.expert_hidden cfg) (MoEConfig.dtype_bits cfg))))
         (of_Z 0)).
    rewrite fadd_0_l, moe_expert_forward_flops.
    change (FusionMetrics.flops (moe_routing _ _ _ _ _)) with
      (of_Z (batch * seq * MoEConfig.num_experts cfg + batch * seq * MoEConfig.top_k cfg)).
    rewrite !fadd_of_Z. f_equal. ring.
  - intros tf product Htf Hprod _.
    assert (∃ e, MoE.estimate_execution_time moe batch seq hw = Ok e) as [e He].
    { apply (MoE_estimate_total moe batch seq (Qc_trunc product) tf hw).
      - done.
      - fold cfg. by rewrite Hprod.
      - fold cfg. lia. }
    destruct (MoE._metrics moe batch seq) as [metrics|exn] eqn:Hms.
    + eauto.
    + unfold MoE.estimate_execution_time in He. by rewrite Hms in He.
Qed.

Lemma C3_moe_metrics_witness :
  ∃ e, MoE.estimate_execution_time moe_frac 2 5 hw_test = Ok e ∧
       LayerExecution.flops e = of_Z 2332.
Proof.
  destruct (C3_moe_metrics moe_frac 2 5 hw_test)
    as (_ & _ & Hprod); [by repeat split | lia | lia |].
  destruct (Hprod (of_Z 10) (Qc_of_Z 17)) as (metrics & e & _ & He).
  - apply float_of_int_exact. unfold exact_int. simpl. lia.
  - vm_compute. f_equal; by apply Qc_is_canon.
  - repeat constructor; vm_compute; discriminate.
  - exists e. split; [exact He|]. vm_compute in He. injection He as <-.
    apply (f_equal Fin), Qc_is_canon. reflexivity.
Defined.

(** ** Sums and maxima over lists *)

Lemma fadd_comm (a b : pyfloat) : fadd a b = fadd b a.
Proof. destruct a, b; simpl; try done. by rewrite Qcplus_comm. Qed.

Lemma fadd_assoc (a b c : pyfloat) : fadd a (fadd b c) = fadd (fadd a b) c.
Proof. destruct a, b, c; simpl; try done. by rewrite Qcplus_assoc. Qed.

Lemma fold_left_fadd (xs : list pyfloat) (a : pyfloat) :
  fold_left fadd xs a = fadd a (foldr fadd f0 xs).
Proof.
  revert a. induction xs as [|x xs IH]; intros a; simpl.
  - by rewrite fadd_0_r.
  - by rewrite IH, fadd_assoc.
Qed.

(** Python's [sum] is the sum of the items, in whatever order they are
    added. *)
Lemma py_sum_foldr (xs : list pyfloat) : py_sum xs = foldr fadd f0 xs.
Proof. unfold py_sum. by rewrite fold_left_fadd, fadd_0_l. Qed.

Lemma py_sum_cons (x : pyfloat) (xs : list pyfloat) : py_sum (x :: xs) = fadd x (py_sum xs).
Proof. by rewrite !py_sum_foldr. Qed.

Lemma py_sum_app (xs ys : list pyfloat) : py_sum (xs ++ ys) = fadd (py_sum xs) (py_sum ys).
Proof.
  induction xs as [|x xs IH].
  - change (py_sum ys = fadd f0 (py_sum ys)). by rewrite fadd_0_l.
  - change (py_sum (x :: (xs ++ ys)) = fadd (py_sum (x :: xs)) (py_sum ys)).
    by rewrite !py_sum_cons, IH, fadd_assoc.
Qed.

Lemma py_sum_perm (xs ys : list pyfloat) : xs ≡ₚ ys → py_sum xs = py_sum ys.
Proof.
  induction 1 as [|x xs ys _ IH|x y xs|xs ys zs _ IH1 _ IH2].
  - done.
  - by rewrite !py_sum_cons, IH.
  - by rewrite !py_sum_cons, !fadd_assoc, (fadd_comm x y).
  - by rewrite IH1.
Qed.

Lemma fltb_fleb_trans (a b c : pyfloat) : fltb a b = true → fleb b c = true → fltb a c = true.
Proof.
  destruct a, b, c; simpl; try done.
  rewrite !Qc_ltb_true, Qc_leb_true. apply Qclt_le_trans.
Qed.

Lemma fltb_fleb_weak (a b : pyfloat) : fltb a b = true → fleb a b = true.
Proof.
  destruct a, b; simpl; try done.
  rewrite Qc_ltb_true, Qc_leb_true. apply Qclt_le_weak.
Qed.

Lemma fltb_not_fleb (a b : pyfloat) : fltb a b = true → fleb b a = true → False.
Proof.
  destruct a, b; simpl; try done.
  rewrite Qc_ltb_true, Qc_leb_true. intros Hlt Hle. by apply Qcle_not_lt in Hle.
Qed.

Lemma fltb_nan_l (a b : pyfloat) : is_nan a = true → fltb a b = false.
Proof. by destruct a, b. Qed.

Section py_max_by.
Context {A : Type} (key : A → pyfloat).

Lemma is_py_max_step (l : list A) (i : nat) (m y : A) :
  is_py_max key l i m →
  ∃ i', is_py_max key (l ++ [y]) i' (if fgtb (key y) (key m) then y else m).
Proof.
  intros [Hi Hmax]. destruct l as [|first l]; [done|].
  change ((first :: l) ++ [y]) with (first :: (l ++ [y])).
  unfold is_py_max. destruct (is_nan (key first)) eqn:Hfirst.
  - subst i. injection Hi as <-.
    unfold fgtb. rewrite fltb_nan_l by done. by exists 0%nat.
  - destruct Hmax as (Hm & Hle & Hlt).
    change (first :: (l ++ [y])) with ((first :: l) ++ [y]).
    destruct (fgtb (key y) (key m)) eqn:Hy; unfold fgtb in Hy.
    + exists (length (first :: l)).
      split; [by rewrite lookup_app_r, Nat.sub_diag|].
      split; [by apply fltb_not_nan_r in Hy|]. split.
      * intros z [Hz| ->%list_elem_of_singleton]%elem_of_app Hnan.
        -- apply fltb_fleb_weak. eapply fleb_fltb_trans; [by apply Hle|done].
        -- by apply fleb_refl.
      * intros j z Hj Hz Hnan. rewrite lookup_app_l in Hz by done.
        eapply fleb_fltb_trans; [|done].
        apply Hle; [by eapply list_elem_of_lookup_2|done].
    + exists i. split; [by apply lookup_app_l_Some|].
      split; [done|]. split.
      * intros z [Hz| ->%list_elem_of_singleton]%elem_of_app Hnan; [by apply Hle|].
        by apply fltb_false_fleb.
      * intros j z Hj Hz Hnan. apply (Hlt j z Hj); [|done].
        rewrite lookup_app_l in Hz; [done|].
        apply lookup_lt_Some in Hi. lia.
Qed.

Lemma fold_max_is_py_max (xs pre : list A) (i : nat) (m : A) :
  is_py_max key pre i m →
  ∃ i', is_py_max key (pre ++ xs) i'
          (fold_left (λ m y, if fgtb (key y) (key m) then y else m) xs m).
Proof.
  revert pre i m. induction xs as [|y xs IH]; intros pre i m Hm; simpl.
  - exists i. by rewrite app_nil_r.
  - destruct (is_py_max_step pre i m y Hm) as [i' Hm'].
    destruct (IH _ _ _ Hm') as [i'' Hm'']. exists i''.
    by rewrite <- app_assoc in Hm''.
Qed.

(** [max(xs, key=key)] on a non-empty list returns the item [is_py_max]
    describes. *)
Lemma py_max_by_is_py_max (xs : list A) :
  xs ≠ [] → ∃ i m, py_max_by key xs = Ok m ∧ is_py_max key xs i m.
Proof.
  destruct xs as [|x xs]; [done|]. intros _. simpl.
  destruct (fold_max_is_py_max xs [x] 0%nat x) as [i Hi]; [|eauto].
  split; [done|]. destruct (is_nan (key x)) eqn:Hx; [done|].
  split; [done|]. split.
  - intros y ->%list_elem_of_singleton _. by apply fleb_refl.
  - intros j y Hj. lia.
Qed.

(** [is_py_max] describes one item only. *)
Lemma is_py_max_unique (l : list A) (i j : nat) (m n : A) :
  is_py_max key l i m → is_py_max key l j n → i = j ∧ m = n.
Proof.
  intros [Hi Hm] [Hj Hn].
  assert (i = j) as <-; [|split; [done|congruence]].
  destruct l as [|first l]; [done|].
  destruct (is_nan (key first)); [congruence|].
  destruct Hm as (Hmnan & Hmle & Hmlt), Hn as (Hnnan & Hnle & Hnlt).
  destruct (Nat.lt_trichotomy i j) as [Hlt|[->|Hlt]]; [|done|]; exfalso.
  - apply (fltb_not_fleb (key m) (key n)); [by apply (Hnlt i)|].
    apply Hmle; [by eapply list_elem_of_lookup_2|done].
  - apply (fltb_not_fleb (key n) (key m)); [by apply (Hmlt j)|].
    apply Hnle; [by eapply list_elem_of_lookup_2|done].
Qed.

(** When no key is [nan], the item has the largest key and is the first
    that has it. *)
Lemma is_py_max_largest (l : list A) (i : nat) (m : A) :
  is_py_max key l i m →
  (∀ y, y ∈ l → is_nan (key y) = false) →
  (∀ y, y ∈ l → fleb (key y) (key m) = true) ∧
  (∀ j y, (j < i)%nat → l !! j = Some y → fltb (key y) (key m) = true).
Proof.
  intros [Hi Hm] Hnan. destruct l as [|first l]; [done|].
  rewrite Hnan in Hm by left. destruct Hm as (_ & Hle & Hlt). split.
  - intros y Hy. apply Hle; auto.
  - intros j y Hj Hy. apply (Hlt j y Hj Hy), Hnan. by eapply list_elem_of_lookup_2.
Qed.

(** A [nan] first key wins over every later one. *)
Lemma is_py_max_nan_first (first : A) (l : list A) (i : nat) (m : A) :
  is_py_max key (first :: l) i m → is_nan (key first) = true → i = 0%nat ∧ m = first.
Proof.
  intros [Hi Hm] Hnan. rewrite Hnan in Hm. subst i. split; [done|]. by injection Hi.
Qed.
End py_max_by.

(** ** Aggregation *)

(** The three folds of the aggregation, on a list that is not empty. *)
Lemma aggregate_nonempty (executions : list LayerExecution.t) :
  executions ≠ [] →
  ∃ (r : SimulationResult.t) (ip ib : nat) (p b : LayerExecution.t),
    aggregate executions = Ok r ∧
    SimulationResult.layers r = executions ∧
    SimulationResult.total_flops r = py_sum (LayerExecution.flops <$> executions) ∧
    SimulationResult.total_latency_ms r =
      py_sum (LayerExecution.dominant_latency_ms <$> executions) ∧
    SimulationResult.peak_memory_bytes r = layer_bytes p ∧
    is_py_max layer_bytes executions ip p ∧
    SimulationResult.bottleneck_layer r = Some (LayerExecution.layer_name b) ∧
    is_py_max LayerExecution.dominant_latency_ms executions ib b.
Proof.
  intros Hne.
  destruct (py_max_by_is_py_max LayerExecution.dominant_latency_ms executions Hne)
    as (ib & b & Hb & Hbmax).
  destruct (py_max_by_is_py_max layer_bytes executions Hne) as (ip & p & Hp & Hpmax).
  assert (peak_memory_of executions = Ok (layer_bytes p)) as Hpeak.
  { unfold peak_memory_of, py_max. fold layer_bytes.
    destruct executions as [|x xs]; [done|]. simpl in *.
    injection Hp as <-. f_equal. clear.
    revert x. induction xs as [|y xs IH]; intros x; simpl; [done|].
    rewrite <- IH. unfold id. by destruct (fgtb (layer_bytes y) (layer_bytes x)). }
  assert (bottleneck_layer_of executions = Ok (Some (LayerExecution.layer_name b))) as Hbot.
  { unfold bottleneck_layer_of. destruct executions; [done|]. by rewrite Hb. }
  eexists _, ip, ib, p, b.
  split; [unfold aggregate; rewrite Hpeak, Hbot; reflexivity|].
  done.
Qed.

(** C4, as amended: for a non-empty list of executions the aggregation
    returns a result whose [total_flops] is the sum of the layers' [flops]
    and whose [total_latency_ms] is the sum of their [dominant_latency_ms],
    both added in the order of the list.  [peak_memory_bytes] and
    [bottleneck_layer] are what [max] selects ([is_py_max]): when no
    [bytes_read + bytes_written] is [nan] the peak is the largest of them,
    and when no dominant latency is [nan] the bottleneck is the name of the
    first layer with the largest one; a [nan] in the first layer is what
    [max] returns. *)
Theorem C4_aggregate (executions : list LayerExecution.t) :
  executions ≠ [] →
  ∃ (r : SimulationResult.t) (ip ib : nat) (p b : LayerExecution.t),
    aggregate executions = Ok r ∧
    SimulationResult.layers r = executions ∧
    SimulationResult.total_flops r = py_sum (LayerExecution.flops <$> executions) ∧
    SimulationResult.total_latency_ms r =
      py_sum (LayerExecution.dominant_latency_ms <$> executions) ∧
    SimulationResult.peak_memory_bytes r = layer_bytes p ∧
    is_py_max layer_bytes executions ip p ∧
    SimulationResult.bottleneck_layer r = Some (LayerExecution.layer_name b) ∧
    is_py_max LayerExecution.dominant_latency_ms executions ib b ∧
    ((∀ e, e ∈ executions → is_nan (layer_bytes e) = false) →
     ∀ e, e ∈ executions → fleb (layer_bytes e) (SimulationResult.peak_memory_bytes r) = true) ∧
    ((∀ e, e ∈ executions → is_nan (LayerExecution.dominant_latency_ms e) = false) →
     (∀ e, e ∈ executions →
        fleb (LayerExecution.dominant_latency_ms e) (LayerExecution.dominant_latency_ms b)
          = true) ∧
     (∀ j e, (j < ib)%nat → executions !! j = Some e →
        fltb (LayerExecution.dominant_latency_ms e) (LayerExecution.dominant_latency_ms b)
          = true)) ∧
    (∀ first rest,
       executions = first :: rest →
       (is_nan (LayerExecution.dominant_latency_ms first) = true → b = first) ∧
       (is_nan (layer_bytes first) = true → p = first)).
Proof.
  intros Hne.
  destruct (aggregate_nonempty executions Hne)
    as (r & ip & ib & p & b & Hr & Hlayers & Hflops & Hlat & Hpeak & Hpmax & Hbot & Hbmax).
  exists r, ip, ib, p, b.
  split; [done|]. split; [done|]. split; [done|]. split; [done|].
  split; [done|]. split; [done|]. split; [done|]. split; [done|].
  split; [intros Hnan; rewrite Hpeak; by apply (is_py_max_largest _ _ _ _ Hpmax)|].
  split; [intros Hnan; by apply (is_py_max_largest _ _ _ _ Hbmax)|].
  intros first rest ->. split; intros Hnan.
  - by apply (is_py_max_nan_first _ _ _ _ _ Hbmax).
  - by apply (is_py_max_nan_first _ _ _ _ _ Hpmax).
Qed.

Lemma C4_aggregate_witness :
  ∃ r, aggregate executions_test = Ok r ∧
       SimulationResult.bottleneck_layer r = Some "b" ∧
       SimulationResult.peak_memory_bytes r = of_Z 8.
Proof.
  destruct (C4_aggregate executions_test)
    as (r & ip & ib & p & b & Hr & _); [done|].
  exists r. split; [exact Hr|].
  vm_compute in Hr. injection Hr as <-. split; [reflexivity|].
  apply (f_equal Fin), Qc_is_canon. reflexivity.
Defined.

(** C4, as stated, fails where a latency is [nan]: of the three layers
    [executions_nan] the first has a [nan] latency and is returned as the
    bottleneck, although it is not a layer with the largest latency: the
    latency [9] of layer ["c"] is not below or equal to it. *)
Lemma C4_bottleneck_is_not_the_largest :
  ∃ r, aggregate executions_nan = Ok r ∧
       SimulationResult.bottleneck_layer r = Some "a" ∧
       ¬ ∃ b, b ∈ executions_nan ∧
              SimulationResult.bottleneck_layer r = Some (LayerExecution.layer_name b) ∧
              ∀ e, e ∈ executions_nan →
                   fleb (LayerExecution.dominant_latency_ms e)
                        (LayerExecution.dominant_latency_ms b) = true.
Proof.
  eexists. split; [reflexivity|]. split; [reflexivity|].
  intros (b & Hb & Hname & Hmax).
  assert (exec_test "c" 9 4 ∈ executions_nan) as Hc by (right; right; left).
  apply Hmax in Hc.
  unfold executions_nan in Hb.
  repeat (apply elem_of_cons in Hb as [->|Hb]); [| discriminate Hname..|by apply elem_of_nil in Hb].
  discriminate Hc.
Qed.

(** C5: over zero layers the peak-memory maximum raises ([max] of an empty
    sequence), and so do the aggregation and [run_simulation] as a whole;
    the bottleneck selection on its own yields [None]. *)
Theorem C5_empty_aggregation :
  peak_memory_of [] = Raise ValueError ∧
  bottleneck_layer_of [] = Ok None ∧
  aggregate [] = Raise ValueError ∧
  ∀ (builtins : PyBuiltins) (scenario : Scenario.t) (runtime : RuntimeSpec.t)
    (estimator : option AnalyticEstimator.t),
    Scenario.layers scenario = [] →
    run_simulation scenario runtime estimator = Raise ValueError.
Proof.
  split; [done|]. split; [done|]. split; [done|].
  intros builtins scenario runtime estimator Hl.
  unfold run_simulation, AnalyticEstimator.estimate_layers. by rewrite Hl.
Qed.

Lemma C5_empty_aggregation_witness :
  run_simulation (H := plain_builtins) scenario_empty runtime_test None = Raise ValueError.
Proof.
  destruct C5_empty_aggregation as (_ & _ & _ & Hrun).
  apply Hrun. reflexivity.
Defined.

(** ** The estimator modules *)

(** C10: with [head_dim] unset, [resolved_head_dim] is
    [d_model // max(num_heads, 1)]: [d_model] for [num_heads = 0], without a
    division by zero, and [d_model // num_heads] for [num_heads >= 1]; so
    [qkv_dim = num_heads * resolved_head_dim] is always defined. *)
Theorem C10_resolved_head_dim `{PyBuiltins} (cfg : AttentionConfig.t) :
  AttentionConfig.head_dim cfg = VNone →
  let d_model := AttentionConfig.d_model cfg in
  let num_heads := AttentionConfig.num_heads cfg in
  AttentionConfig.resolved_head_dim cfg = Ok (d_model `div` Z.max num_heads 1) ∧
  (num_heads = 0 → AttentionConfig.resolved_head_dim cfg = Ok d_model) ∧
  (1 ≤ num_heads → AttentionConfig.resolved_head_dim cfg = Ok (d_model `div` num_heads)) ∧
  AttentionConfig.qkv_dim cfg = Ok (num_heads * (d_model `div` Z.max num_heads 1)).
Proof.
  intros Hnone d_model num_heads.
  assert (AttentionConfig.resolved_head_dim cfg = Ok (d_model `div` Z.max num_heads 1)) as Hr.
  { unfold AttentionConfig.resolved_head_dim. by rewrite Hnone. }
  split; [done|]. split; [|split].
  - intros H0. rewrite Hr, H0. simpl. by rewrite Z.div_1_r.
  - intros H1. rewrite Hr. by rewrite Z.max_l by lia.
  - unfold AttentionConfig.qkv_dim. by rewrite Hr.
Qed.

Lemma C10_resolved_head_dim_witness :
  AttentionConfig.resolved_head_dim (H := plain_builtins) attention_no_heads = Ok 768 ∧
  AttentionConfig.qkv_dim (H := plain_builtins) attention_no_heads = Ok 0.
Proof.
  destruct (@C10_resolved_head_dim plain_builtins attention_no_heads eq_refl)
    as (_ & H0 & _ & Hqkv).
  split; [apply H0; reflexivity | exact Hqkv].
Defined.

(** ** The dispatcher *)

Lemma lookup_setdefault {V : Type} (d : gmap string V) (key : string) (v : V) (k : string) :
  setdefault d key v !! k =
    if decide (k = key) then Some (default v (d !! key)) else d !! k.
Proof.
  unfold setdefault. destruct (d !! key) as [w|] eqn:Hd; case_decide; subst; simpl.
  - done.
  - done.
  - by rewrite lookup_insert_eq.
  - by rewrite lookup_insert_ne.
Qed.

(** What [back_fill] returns, when [float(layer_id)] does not raise. *)
Lemma back_fill_fields (layer_config : LayerConfig.t) (execution e' : LayerExecution.t) :
  AnalyticEstimator.back_fill layer_config execution = Ok e' →
  let h := LayerConfig.base layer_config in
  (∃ layer_id,
     float_of_int (LayerConfig.layer_id h) = Ok layer_id ∧
     LayerExecution.features e' =
       setdefault (setdefault (LayerExecution.features execution) "layer_id" layer_id)
                  "layer_type" f0) ∧
  LayerExecution.layer_name e' = LayerConfig.name h ∧
  LayerExecution.layer_type e' = LayerConfig.layer_type h ∧
  LayerExecution.flops e' = LayerExecution.flops execution ∧
  LayerExecution.bytes_read e' = LayerExecution.bytes_read execution ∧
  LayerExecution.bytes_written e' = LayerExecution.bytes_written execution ∧
  LayerExecution.compute_time_ms e' = LayerExecution.compute_time_ms execution ∧
  LayerExecution.memory_time_ms e' = LayerExecution.memory_time_ms execution ∧
  LayerExecution.breakdown e' = LayerExecution.breakdown execution ∧
  LayerExecution.estimated_execution_time_ms e' =
    LayerExecution.estimated_execution_time_ms execution ∧
  LayerExecution.dominant_latency_ms e' = LayerExecution.dominant_latency_ms execution ∧
  True.
Proof.
  unfold AnalyticEstimator.back_fill. intros He.
  apply bind_Ok in He as (layer_id & Hid & He). injection He as <-.
  split; [by exists layer_id|]. done.
Qed.

(** In the model's arithmetic the estimates of the FFN and Communication
    modules return for every input, and that of the Attention module
    whenever its head size resolves, that is, unless [int(head_dim)] raises.
    (The program's [float(int)] raises for an integer beyond the range of a
    double; the properties of the modules exclude that with [modest].) *)
Lemma FFN_estimate_total (ffn : FFN.t) (batch seq : Z) (hw : HardwareSpec.t) :
  ∃ e, FFN.estimate_execution_time ffn batch seq hw = Ok e.
Proof.
  unfold FFN.estimate_execution_time.
  destruct (timing_total
              (FusionMetrics.flops (FFN._metrics ffn batch seq))
              (fadd (FusionMetrics.bytes_accessed (FFN._metrics ffn batch seq))
                    (tensor_bytes [batch; seq; FFNConfig.d_model (FFN.config ffn)]
                       (FFNConfig.dtype_bits (FFN.config ffn))))
              hw) as (c & m & l & -> & -> & Hl).
  cbn [mbind res_bind]. rewrite Hl. cbn [mbind res_bind]. eauto.
Qed.

Lemma Attention_estimate_total `{PyBuiltins} (attn : Attention.t) (batch seq hd : Z)
    (hw : HardwareSpec.t) :
  AttentionConfig.resolved_head_dim (Attention.config attn) = Ok hd →
  ∃ e, Attention.estimate_execution_time attn batch seq hw = Ok e.
Proof.
  intros Hhd. unfold Attention.estimate_execution_time, Attention._metrics,
    AttentionConfig.qkv_dim.
  rewrite Hhd. cbn [mbind res_bind].
  match goal with
  | |- context [compute_time_ms ?f hw] =>
      match goal with
      | |- context [memory_time_ms ?b hw] =>
          destruct (timing_total f b hw) as (c & m & l & -> & -> & Hl)
      end
  end.
  cbn [mbind res_bind]. rewrite Hl. cbn [mbind res_bind]. eauto.
Qed.

Lemma Communication_estimate_total (comm : Communication.t) (batch seq : Z)
    (hw : HardwareSpec.t) :
  ∃ e, Communication.estimate_execution_time comm batch seq hw = Ok e.
Proof.
  unfold Communication.estimate_execution_time.
  match goal with
  | |- context [interconnect_time_ms ?b hw] =>
      destruct (interconnect_time_ms_cases b hw) as [[_ ->]|[_ ->]];
      destruct (memory_time_ms_total b hw) as [m ->]
  end; cbn [mbind res_bind]; rewrite dominant_latency_ms_eq; cbn [mbind res_bind]; eauto.
Qed.

(** C9: the three times of a Communication layer are those of its payload:
    the interconnect time ([0.0] when the interconnect bandwidth is [<= 0],
    else [payload_mb*1e6 / bandwidth * 1e3]), the memory time, and
    [dominant_latency_ms] of the two.  Every execution the Communication
    estimate returns holds the interconnect time in [compute_time_ms], has
    [flops = 0.0], the payload bytes in both [bytes_read] and
    [bytes_written], and that memory time and latency; and the estimate
    returns one for every modest [batch] and [seq]. *)
Theorem C9_communication_execution (comm : Communication.t) (batch seq : Z)
    (hw : HardwareSpec.t) :
  let payload_bytes := fmul (CommunicationConfig.payload_mb (Communication.config comm)) f1e6 in
  let bandwidth := HardwareSpec.interconnect_bandwidth_bytes hw in
  ∃ (interconnect_ms memory_ms latency_ms : pyfloat),
    interconnect_time_ms payload_bytes hw = Ok interconnect_ms ∧
    interconnect_ms =
      (if fleb bandwidth f0 then f0 else fmul (fquot payload_bytes bandwidth) f1e3) ∧
    memory_time_ms payload_bytes hw = Ok memory_ms ∧
    dominant_latency_ms interconnect_ms memory_ms hw = Ok latency_ms ∧
    (∀ e,
       Communication.estimate_execution_time comm batch seq hw = Ok e →
       LayerExecution.compute_time_ms e = interconnect_ms ∧
       LayerExecution.flops e = f0 ∧
       LayerExecution.bytes_read e = payload_bytes ∧
       LayerExecution.bytes_written e = payload_bytes ∧
       LayerExecution.memory_time_ms e = memory_ms ∧
       LayerExecution.dominant_latency_ms e = latency_ms) ∧
    (modest batch → modest seq →
     ∃ e, Communication.estimate_execution_time comm batch seq hw = Ok e).
Proof.
  intros payload_bytes bandwidth.
  assert (∃ i, interconnect_time_ms payload_bytes hw = Ok i ∧
               i = if fleb bandwidth f0 then f0
                   else fmul (fquot payload_bytes bandwidth) f1e3) as (i & Hi & Hcases).
  { destruct (interconnect_time_ms_cases payload_bytes hw) as [[Hle ->]|[Hle ->]];
      fold bandwidth in Hle; rewrite Hle; eauto. }
  destruct (memory_time_ms_total payload_bytes hw) as [m Hm].
  eexists i, m, _.
  split; [done|]. split; [done|]. split; [done|].
  split; [apply dominant_latency_ms_eq|].
  split; [|intros _ _; apply Communication_estimate_total].
  intros e He. unfold Communication.estimate_execution_time in He.
  assert (FusionMetrics.bytes_accessed
            (if String.eqb (CommunicationConfig.pattern (Communication.config comm))
                  "all_reduce"
             then communication_all_reduce payload_bytes
             else communication_all_to_all payload_bytes) = payload_bytes) as Hbytes
    by (by destruct (String.eqb _ _)).
  fold payload_bytes in He. rewrite Hbytes, Hi in He. cbn [mbind res_bind] in He.
  rewrite Hm in He. cbn [mbind res_bind] in He.
  rewrite dominant_latency_ms_eq in He. cbn [mbind res_bind] in He.
  by injection He as <-.
Qed.

(** C8: every execution an estimator module returns, and every execution
    the dispatcher returns, carries its dominant latency in
    [estimated_execution_time_ms].  There are such executions: for modest
    integers the FFN and Communication modules return one, the Attention
    module whenever its head size resolves, and the MoE module whenever its
    active-token count is defined and [num_groups] is not zero. *)
Theorem C8_estimated_time_is_dominant `{PyBuiltins} :
  (∀ attn batch seq hw e,
     Attention.estimate_execution_time attn batch seq hw = Ok e →
     LayerExecution.estimated_execution_time_ms e = LayerExecution.dominant_latency_ms e) ∧
  (∀ ffn batch seq hw e,
     FFN.estimate_execution_time ffn batch seq hw = Ok e →
     LayerExecution.estimated_execution_time_ms e = LayerExecution.dominant_latency_ms e) ∧
  (∀ moe batch seq hw e,
     MoE.estimate_execution_time moe batch seq hw = Ok e →
     LayerExecution.estimated_execution_time_ms e = LayerExecution.dominant_latency_ms e) ∧
  (∀ comm batch seq hw e,
     Communication.estimate_execution_time comm batch seq hw = Ok e →
     LayerExecution.estimated_execution_time_ms e = LayerExecution.dominant_latency_ms e) ∧
  (∀ estimator layer_config e,
     AnalyticEstimator.estimate_layer estimator layer_config = Ok e →
     LayerExecution.estimated_execution_time_ms e = LayerExecution.dominant_latency_ms e) ∧
  (∀ attn batch seq hw hd,
     AttentionConfig.resolved_head_dim (Attention.config attn) = Ok hd →
     Forall modest
       [batch; seq; hd; AttentionConfig.d_model (Attention.config attn);
        AttentionConfig.num_heads (Attention.config attn);
        AttentionConfig.dtype_bits (Attention.config attn)] →
     ∃ e, Attention.estimate_execution_time attn batch seq hw = Ok e) ∧
  (∀ ffn batch seq hw,
     Forall modest
       [batch; seq; FFNConfig.d_model (FFN.config ffn); FFNConfig.d_ff (FFN.config ffn);
        FFNConfig.dtype_bits (FFN.config ffn)] →
     ∃ e, FFN.estimate_execution_time ffn batch seq hw = Ok e) ∧
  (∀ moe batch seq hw tokens_float active_tokens,
     float_of_int (batch * seq) = Ok tokens_float →
     int_of_float (fmul_double tokens_float
                     (MoEConfig.avg_experts_per_token (MoE.config moe)))
       = Ok active_tokens →
     MoEConfig.num_groups (MoE.config moe) ≠ 0 →
     Forall modest
       [batch; seq; active_tokens; MoEConfig.d_model (MoE.config moe);
        MoEConfig.expert_hidden (MoE.config moe); MoEConfig.num_experts (MoE.config moe);
        MoEConfig.top_k (MoE.config moe); MoEConfig.num_groups (MoE.config moe);
        MoEConfig.dtype_bits (MoE.config moe)] →
     ∃ e, MoE.estimate_execution_time moe batch seq hw = Ok e) ∧
  (∀ comm batch seq hw,
     modest batch → modest seq →
     ∃ e, Communication.estimate_execution_time comm batch seq hw = Ok e).
Proof.
  assert (∀ attn batch seq hw e,
            Attention.estimate_execution_time attn batch seq hw = Ok e →
            LayerExecution.estimated_execution_time_ms e =
              LayerExecution.dominant_latency_ms e) as Hattn.
  { intros attn batch seq hw e He. unfold Attention.estimate_execution_time in He.
    do 4 inv_bind He. by injection He as <-. }
  assert (∀ ffn batch seq hw e,
            FFN.estimate_execution_time ffn batch seq hw = Ok e →
            LayerExecution.estimated_execution_time_ms e =
              LayerExecution.dominant_latency_ms e) as Hffn.
  { intros ffn batch seq hw e He. unfold FFN.estimate_execution_time in He.
    do 3 inv_bind He. by injection He as <-. }
  assert (∀ moe batch seq hw e,
            MoE.estimate_execution_time moe batch seq hw = Ok e →
            LayerExecution.estimated_execution_time_ms e =
              LayerExecution.dominant_latency_ms e) as Hmoe.
  { intros moe batch seq hw e He. unfold MoE.estimate_execution_time in He.
    do 4 inv_bind He. by injection He as <-. }
  assert (∀ comm batch seq hw e,
            Communication.estimate_execution_time comm batch seq hw = Ok e →
            LayerExecution.estimated_execution_time_ms e =
              LayerExecution.dominant_latency_ms e) as Hcomm.
  { intros comm batch seq hw e He. unfold Communication.estimate_execution_time in He.
    do 3 inv_bind He. by injection He as <-. }
  split; [exact Hattn|]. split; [exact Hffn|]. split; [exact Hmoe|].
  split; [exact Hcomm|]. split.
  { intros estimator layer_config e He. unfold AnalyticEstimator.estimate_layer in He.
    apply bind_Ok in He as (e0 & He0 & He).
    apply back_fill_fields in He as (_ & _ & _ & _ & _ & _ & _ & _ & _ & -> & -> & _).
    unfold AnalyticEstimator.module_estimate in He0.
    destruct layer_config; inv_bind He0; eauto. }
  split; [intros attn batch seq hw hd Hhd _; by eapply Attention_estimate_total|].
  split; [intros ffn batch seq hw _; apply FFN_estimate_total|].
  split; [intros moe batch seq hw tf a Htf Ha Hg _; by eapply MoE_estimate_total|].
  intros comm batch seq hw _ _. apply Communication_estimate_total.
Qed.

Lemma C8_estimated_time_is_dominant_witness :
  ∃ e, FFN.estimate_execution_time ffn_test 2 32 hw_test = Ok e ∧
       LayerExecution.estimated_execution_time_ms e = LayerExecution.dominant_latency_ms e.
Proof.
  destruct (@C8_estimated_time_is_dominant plain_builtins)
    as (_ & Hinv & _ & _ & _ & _ & Hffn & _).
  destruct (Hffn ffn_test 2 32 hw_test) as [e He].
  - repeat constructor; vm_compute; discriminate.
  - exists e. split; [exact He|]. by apply (Hinv ffn_test 2 32 hw_test).
Defined.

(** C7: [estimate_layer] builds the FFN module for an [FFNLayerConfig], the
    MoE module for a [MoELayerConfig], the Communication module for a
    [CommunicationLayerConfig] and the Attention module for the base variant,
    each from the configuration's own mapping, and passes on what the module
    raises.  What it does next to the module's execution, it does to any
    execution: [float(layer_id)] is evaluated and may raise; otherwise
    [layer_name] and [layer_type] are overwritten by the configuration's, the
    feature keys [layer_id] and [layer_type] are set only where absent (a
    value already there is kept), and every other field and feature entry is
    unchanged.  For a [layer_id] a double holds exactly, [float(layer_id)]
    is that number. *)
Theorem C7_estimate_layer_frame `{PyBuiltins} (self : AnalyticEstimator.t)
    (layer_config : LayerConfig.t) (execution : LayerExecution.t) :
  let batch := RuntimeSpec.batch_size (AnalyticEstimator.runtime self) in
  let seq := RuntimeSpec.seq_len (AnalyticEstimator.runtime self) in
  let hardware := AnalyticEstimator.hardware self in
  let h := LayerConfig.base layer_config in
  AnalyticEstimator.module_estimate self layer_config =
    match layer_config with
    | LayerConfig.FFNLayerConfig _ ffn_config =>
        FFN.init ffn_config ∅ ≫= λ module, FFN.estimate_execution_time module batch seq hardware
    | LayerConfig.MoELayerConfig _ moe_config =>
        MoE.init moe_config ∅ ≫= λ module, MoE.estimate_execution_time module batch seq hardware
    | LayerConfig.CommunicationLayerConfig _ comm_config =>
        Communication.init comm_config ∅ ≫=
          λ module, Communication.estimate_execution_time module batch seq hardware
    | LayerConfig.BaseLayerConfig base =>
        Attention.init (LayerConfig.attn_config base) ∅ ≫=
          λ module, Attention.estimate_execution_time module batch seq hardware
    end ∧
  AnalyticEstimator.estimate_layer self layer_config =
    AnalyticEstimator.module_estimate self layer_config
      ≫= AnalyticEstimator.back_fill layer_config ∧
  match float_of_int (LayerConfig.layer_id h) with
  | Raise exn => AnalyticEstimator.back_fill layer_config execution = Raise exn
  | Ok layer_id =>
      ∃ e', AnalyticEstimator.back_fill layer_config execution = Ok e' ∧
        LayerExecution.layer_name e' = LayerConfig.name h ∧
        LayerExecution.layer_type e' = LayerConfig.layer_type h ∧
        LayerExecution.features e' !! "layer_id" =
          Some (default layer_id (LayerExecution.features execution !! "layer_id")) ∧
        LayerExecution.features e' !! "layer_type" =
          Some (default f0 (LayerExecution.features execution !! "layer_type")) ∧
        (∀ k, k ≠ "layer_id" → k ≠ "layer_type" →
              LayerExecution.features e' !! k = LayerExecution.features execution !! k) ∧
        LayerExecution.flops e' = LayerExecution.flops execution ∧
        LayerExecution.bytes_read e' = LayerExecution.bytes_read execution ∧
        LayerExecution.bytes_written e' = LayerExecution.bytes_written execution ∧
        LayerExecution.compute_time_ms e' = LayerExecution.compute_time_ms execution ∧
        LayerExecution.memory_time_ms e' = LayerExecution.memory_time_ms execution ∧
        LayerExecution.dominant_latency_ms e' = LayerExecution.dominant_latency_ms execution ∧
        LayerExecution.estimated_execution_time_ms e' =
          LayerExecution.estimated_execution_time_ms execution ∧
        LayerExecution.breakdown e' = LayerExecution.breakdown execution
  end ∧
  (exact_int (LayerConfig.layer_id h) →
   float_of_int (LayerConfig.layer_id h) = Ok (of_Z (LayerConfig.layer_id h))).
Proof.
  intros batch seq hardware h.
  split; [by destruct layer_config|]. split; [done|].
  split; [|apply float_of_int_exact].
  unfold AnalyticEstimator.back_fill. fold h.
  destruct (float_of_int (LayerConfig.layer_id h)) as [layer_id|exn];
    cbn [mbind res_bind]; [|done].
  eexists. split; [reflexivity|].
  cbn [LayerExecution.set_layer_name LayerExecution.set_layer_type
       LayerExecution.set_features LayerExecution.layer_name LayerExecution.layer_type
       LayerExecution.features LayerExecution.flops LayerExecution.bytes_read
       LayerExecution.bytes_written LayerExecution.compute_time_ms
       LayerExecution.memory_time_ms LayerExecution.dominant_latency_ms
       LayerExecution.estimated_execution_time_ms LayerExecution.breakdown].
  split; [done|]. split; [done|].
  split; [|split; [|split]]; [ | | | done].
  - rewrite !lookup_setdefault. by repeat case_decide.
  - rewrite !lookup_setdefault. by repeat case_decide.
  - intros k Hid Hty. rewrite !lookup_setdefault. by repeat case_decide.
Qed.

(** ** The test suite, replayed *)

Example matmul_flops_test : matmul_flops 2 3 4 = of_Z 48.
Proof. reflexivity. Qed.

Example tensor_bytes_test : tensor_bytes [2; 2] 32 = of_Z 16.
Proof. apply (f_equal Fin), Qc_is_canon. reflexivity. Qed.

Example compute_time_ms_test : compute_time_ms (of_Z 2000000000000) hw_test = Ok (of_Z 20).
Proof.
  unfold compute_time_ms. simpl. apply (f_equal Ok), (f_equal Fin), Qc_is_canon. reflexivity.
Qed.

Example MoE_init_test : MoE.init (H := plain_builtins) moe_test_config ∅ = Ok moe_test.
Proof. reflexivity. Qed.

Example FFN_init_test : FFN.init (H := plain_builtins) ffn_test_config ∅ = Ok ffn_test.
Proof. reflexivity. Qed.

Example MoE_frac_init_test : MoE.init (H := plain_builtins) moe_frac_config ∅ = Ok moe_frac.
Proof. reflexivity. Qed.

(** The dispatcher's naming wins over the module's own. *)
Example estimate_layer_test :
  ∃ e, AnalyticEstimator.estimate_layer (H := plain_builtins) estimator_test
         (LayerConfig.FFNLayerConfig (header_test "ffn" "ffn_0" 0) ffn_test_config) = Ok e ∧
       LayerExecution.layer_name e = "ffn_0" ∧
       LayerExecution.features e !! "layer_id" = Some (of_Z 0).
Proof.
  destruct (AnalyticEstimator.estimate_layer _ _) as [e|exn] eqn:He;
    [|vm_compute in He; discriminate].
  exists e. split; [done|]. vm_compute in He. injection He as <-.
  split; [reflexivity|]. vm_compute. do 2 f_equal. by apply Qc_is_canon.
Qed.

(** A feature the module has set is kept: the back-fill leaves a
    [layer_id] of [7] and a [layer_type] of [1] as they are, and overwrites
    the two names. *)
Example back_fill_test :
  let execution :=
    LayerExecution.set_features (exec_test "module" 3 7)
      (py_dict [("layer_id", of_Z 7); ("layer_type", f1)]) in
  ∃ e, AnalyticEstimator.back_fill
         (LayerConfig.BaseLayerConfig (header_test "attention" "attn_3" 3)) execution = Ok e ∧
       LayerExecution.layer_name e = "attn_3" ∧
       LayerExecution.layer_type e = "attention" ∧
       LayerExecution.features e = LayerExecution.features execution.
Proof.
  intros execution.
  destruct (AnalyticEstimator.back_fill _ _) as [e|exn] eqn:He;
    [|vm_compute in He; discriminate].
  exists e. split; [done|].
  apply back_fill_fields in He as ((layer_id & _ & ->) & -> & -> & _).
  split; [done|]. split; [done|]. reflexivity.
Qed.

(** [int()] cuts the double product: [10 * 1.7] is [17.0] as a double,
    although the double nearest [1.7] is below [1.7] and ten times it is
    below [17]. *)
Example MoE_rounds_before_truncating :
  int_of_float (fmul_double (of_Z 10) double_1_7) = Ok 17 ∧
  int_of_float (fmul (of_Z 10) double_1_7) = Ok 16 ∧
  MoE.analytic_flops moe_frac 2 5 = Ok (of_Z 2332).
Proof.
  split; [reflexivity|]. split; [reflexivity|].
  vm_compute. do 2 f_equal. by apply Qc_is_canon.
Qed.

(** [float()] of an integer beyond the range of a double raises, in the
    product of the MoE estimator and in the back-fill of the dispatcher. *)
Example float_of_int_overflow :
  float_of_int (10 ^ 400) = Raise OverflowError ∧
  MoE._metrics moe_frac (10 ^ 400) 1 = Raise OverflowError ∧
  AnalyticEstimator.back_fill
    (LayerConfig.BaseLayerConfig (header_test "attention" "attn" (10 ^ 400)))
    (exec_test "module" 3 7) = Raise OverflowError.
Proof. split; [|split]; by vm_compute. Qed.

(** With an infinite average the module is built, and [int(tokens * avg)]
    raises [OverflowError] when the metrics are asked for. *)
Example MoE_infinite_average :
  ∃ moe, MoE.init (H := plain_builtins) moe_inf_config ∅ = Ok moe ∧
         MoE._metrics moe 2 64 = Raise OverflowError ∧
         MoE.estimate_execution_time moe 2 64 hw_test = Raise OverflowError.
Proof. eexists. split; [reflexivity|]. split; reflexivity. Qed.

(** * Further properties of the engine *)

(** ** Tensor sizing *)

Lemma tensor_elements_acc (shape : list Z) (a : Z) :
  fold_left (λ total dim, total * Z.max dim 0) shape a
  = a * foldr (λ dim total, Z.max dim 0 * total) 1 shape.
Proof.
  revert a. induction shape as [|d shape IH]; intros a; simpl; [lia|].
  rewrite IH. lia.
Qed.

Lemma tensor_elements_foldr (shape : list Z) :
  tensor_elements shape = foldr (λ dim total, Z.max dim 0 * total) 1 shape.
Proof. unfold tensor_elements. rewrite tensor_elements_acc. lia. Qed.

Lemma tensor_elements_cons (d : Z) (shape : list Z) :
  tensor_elements (d :: shape) = Z.max d 0 * tensor_elements shape.
Proof. by rewrite !tensor_elements_foldr. Qed.

Lemma tensor_elements_nonneg (shape : list Z) : 0 ≤ tensor_elements shape.
Proof.
  induction shape as [|d shape IH]; [done|].
  rewrite tensor_elements_cons. apply Z.mul_nonneg_nonneg; lia.
Qed.

Lemma tensor_elements_zero_iff (shape : list Z) :
  tensor_elements shape = 0 ↔ ∃ d, d ∈ shape ∧ d ≤ 0.
Proof.
  induction shape as [|d shape IH].
  - split; [done|]. by intros (d & ?%elem_of_nil & _).
  - rewrite tensor_elements_cons, Z.mul_eq_0, IH. split.
    + intros [Hd|(d' & Hin & Hle)].
      * exists d. split; [left|lia].
      * exists d'. split; [by right|done].
    + intros (d' & [->|Hin]%elem_of_cons & Hle); [left; lia|right; eauto].
Qed.

(** X1: the element count of a shape is never negative, is zero exactly
    when some dimension is zero or negative, and is the plain product of the
    dimensions when none is negative. *)
Theorem X1_tensor_elements_floor (shape : list Z) :
  0 ≤ tensor_elements shape ∧
  (tensor_elements shape = 0 ↔ ∃ d, d ∈ shape ∧ d ≤ 0) ∧
  ((∀ d, d ∈ shape → 0 ≤ d) → tensor_elements shape = foldr Z.mul 1 shape).
Proof.
  split; [apply tensor_elements_nonneg|]. split; [apply tensor_elements_zero_iff|].
  induction shape as [|d shape IH]; intros Hpos; [done|].
  rewrite tensor_elements_cons, IH.
  - simpl. rewrite Z.max_l; [done|]. apply Hpos. by left.
  - intros d' Hd'. apply Hpos. by right.
Qed.

Lemma X1_tensor_elements_floor_witness :
  tensor_elements [2; 3; 4] = 24 ∧ tensor_elements [2; -3; 4] = 0.
Proof.
  destruct (X1_tensor_elements_floor [2; 3; 4]) as (_ & _ & Hprod).
  destruct (X1_tensor_elements_floor [2; -3; 4]) as (_ & Hzero & _).
  split.
  - rewrite Hprod; [reflexivity|].
    intros d Hd. repeat (apply elem_of_cons in Hd as [->|Hd]; [lia|]).
    by apply elem_of_nil in Hd.
  - apply Hzero. exists (-3). split; [|lia]. right. left.
Defined.

(** X2: the element count of a concatenated shape is the product of the
    counts of its parts, and the count does not depend on the order of the
    dimensions. *)
Theorem X2_tensor_elements_compose (xs ys : list Z) :
  tensor_elements (xs ++ ys) = tensor_elements xs * tensor_elements ys ∧
  (xs ≡ₚ ys → tensor_elements xs = tensor_elements ys).
Proof.
  split.
  - induction xs as [|x xs IH]; simpl.
    + change (tensor_elements []) with 1. lia.
    + change (tensor_elements (x :: (xs ++ ys)) = tensor_elements (x :: xs) * tensor_elements ys).
      rewrite !tensor_elements_cons, IH. lia.
  - induction 1 as [|x xs' ys' _ IH|x y zs|xs' ys' zs' _ IH1 _ IH2].
    + done.
    + by rewrite !tensor_elements_cons, IH.
    + rewrite !tensor_elements_cons. lia.
    + by rewrite IH1.
Qed.

Lemma Qc_of_Z_div8_zero : (Qc_of_Z 0 / Qc_of_Z 8 = Qc_of_Z 0)%Qc.
Proof. apply Qc_is_canon. reflexivity. Qed.

Lemma Qc_eighth_nonneg : (0 ≤ / Qc_of_Z 8)%Qc.
Proof. apply Qclt_le_weak, Qcinv_pos. reflexivity. Qed.

Lemma Qc_of_Z_mul8_div8 (z : Z) : (Qc_of_Z (z * 8) / Qc_of_Z 8 = Qc_of_Z z)%Qc.
Proof.
  rewrite Z2Qc_inj_mul. unfold Qcdiv. rewrite <- Qcmult_assoc, Qcmult_inv_r, Qcmult_1_r; [done|].
  intros Heq. rewrite <- Z2Qc_inj_0 in Heq. by apply Z2Qc_inj in Heq.
Qed.

(** X3: [tensor_bytes] is [0.0] when some dimension is zero or negative, it
    is never negative for a non-negative [dtype_bits], and for a width of
    [8*k] bits and a bit count a double holds exactly it is the whole number
    [elements * k]. *)
Theorem X3_tensor_bytes_sizing (shape : list Z) (dtype_bits : Z) :
  ((∃ d, d ∈ shape ∧ d ≤ 0) → tensor_bytes shape dtype_bits = f0) ∧
  (0 ≤ dtype_bits → fleb f0 (tensor_bytes shape dtype_bits) = true) ∧
  (∀ k, dtype_bits = 8 * k →
        exact_int (tensor_elements shape * dtype_bits) →
        tensor_bytes shape dtype_bits = of_Z (tensor_elements shape * k)).
Proof.
  split; [|split].
  - intros Hz%tensor_elements_zero_iff. unfold tensor_bytes. rewrite Hz, Z.mul_0_l.
    unfold f0, f8, of_Z. cbn [fquot]. by rewrite Qc_of_Z_div8_zero.
  - intros Hbits. unfold tensor_bytes, f0, f8, of_Z. cbn [fquot fleb].
    apply Qc_leb_true. rewrite Z2Qc_inj_0. unfold Qcdiv.
    apply Qcmult_nonneg_nonneg; [|apply Qc_eighth_nonneg].
    rewrite <- Z2Qc_inj_0. apply (proj1 (Z2Qc_inj_le _ _)).
    apply Z.mul_nonneg_nonneg; [apply tensor_elements_nonneg|done].
  - intros k -> _. unfold tensor_bytes, f8, of_Z. cbn [fquot]. f_equal.
    replace (tensor_elements shape * (8 * k)) with (tensor_elements shape * k * 8) by lia.
    apply Qc_of_Z_mul8_div8.
Qed.

Lemma X3_tensor_bytes_sizing_witness :
  tensor_bytes [2; 2] 32 = of_Z 16 ∧ tensor_bytes [4; 0; 7] 16 = f0.
Proof.
  destruct (X3_tensor_bytes_sizing [2; 2] 32) as (_ & _ & Hk).
  destruct (X3_tensor_bytes_sizing [4; 0; 7] 16) as (Hz & _).
  split; [apply (Hk 4 eq_refl); vm_compute; discriminate|].
  apply Hz. exists 0. split; [|lia]. right. left.
Defined.

Lemma fadd_eighths (a b : Z) :
  fadd (fquot (of_Z a) f8) (fquot (of_Z b) f8) = fquot (of_Z (a + b)) f8.
Proof.
  unfold f8, of_Z. cbn [fquot fadd]. f_equal. rewrite Z2Qc_inj_add.
  unfold Qcdiv. ring.
Qed.

(** In the model's arithmetic the bytes of several shapes are the bits of
    all their elements, divided by eight. *)
Lemma sum_tensor_bytes_total (xs : list (list Z)) (dtype_bits : Z) :
  sum_tensor_bytes xs dtype_bits
  = fquot (of_Z (foldr Z.add 0 (tensor_elements <$> xs) * dtype_bits)) f8.
Proof.
  unfold sum_tensor_bytes. induction xs as [|x xs IH].
  - unfold f0, f8, of_Z. cbn [fmap list_fmap foldr py_sum fold_left fquot].
    by rewrite Z.mul_0_l, Qc_of_Z_div8_zero.
  - cbn [fmap list_fmap foldr]. rewrite py_sum_cons, IH. unfold tensor_bytes.
    rewrite fadd_eighths. do 2 f_equal. lia.
Qed.

(** X4: [sum_tensor_bytes] of no shape is [0], of one shape is its
    [tensor_bytes], and one more shape adds its [tensor_bytes] to the sum of
    those before it.  When the bits of all the elements together are a
    number a double holds exactly, the sum is that number divided by eight,
    and so does not depend on the order of the shapes. *)
Theorem X4_sum_tensor_bytes (xs ys : list (list Z)) (shape : list Z) (dtype_bits : Z) :
  let elements := foldr Z.add 0 (tensor_elements <$> xs) in
  sum_tensor_bytes [] dtype_bits = f0 ∧
  sum_tensor_bytes [shape] dtype_bits = tensor_bytes shape dtype_bits ∧
  sum_tensor_bytes (xs ++ [shape]) dtype_bits
    = fadd (sum_tensor_bytes xs dtype_bits) (tensor_bytes shape dtype_bits) ∧
  (0 ≤ dtype_bits → exact_int (elements * dtype_bits) →
   sum_tensor_bytes xs dtype_bits = fquot (of_Z (elements * dtype_bits)) f8 ∧
   (xs ≡ₚ ys → sum_tensor_bytes ys dtype_bits = sum_tensor_bytes xs dtype_bits)).
Proof.
  intros elements. split; [done|]. split; [|split].
  - unfold sum_tensor_bytes. cbn [fmap list_fmap]. by rewrite py_sum_cons, fadd_0_r.
  - unfold sum_tensor_bytes. rewrite fmap_app, py_sum_app. cbn [fmap list_fmap].
    by rewrite (py_sum_cons _ []), fadd_0_r.
  - intros _ _. split; [apply sum_tensor_bytes_total|].
    intros Hp. unfold sum_tensor_bytes. apply py_sum_perm. by rewrite Hp.
Qed.

(** ** Rates and the roofline *)

Lemma inf_signed_pos (pos : bool) (q : Qc) :
  (0 < q)%Qc → inf_signed pos q = if pos then PInf else NInf.
Proof.
  intros Hq. unfold inf_signed.
  assert (Qc_is0 q = false) as ->.
  { apply not_true_is_false. rewrite Qc_is0_true. intros ->. by apply Qclt_not_eq in Hq. }
  by rewrite (proj2 (Qc_ltb_true 0 q) Hq).
Qed.

Lemma fmax_0_not_neg (x : pyfloat) : fltb (fmax x f0) f0 = false.
Proof.
  destruct (fmax_cases x f0) as [[_ ->]|[Hgt ->]]; [apply fltb_irrefl|done].
Qed.

Lemma fmul_pos_not_neg (x : pyfloat) (k : Z) :
  0 < k → fltb x f0 = false → fltb (fmul x (of_Z k)) f0 = false.
Proof.
  intros Hk. destruct x as [q| | |]; try done.
  - unfold f0, of_Z. cbn [fmul fltb]. rewrite !Qc_ltb_false, Z2Qc_inj_0. intros Hq.
    apply Qcmult_nonneg_nonneg; [done|]. by apply Qclt_le_weak, Qc_of_Z_pos.
  - intros _. unfold of_Z. cbn [fmul]. by rewrite inf_signed_pos by by apply Qc_of_Z_pos.
Qed.

Lemma fmul_0_l (k : Z) : fmul f0 (of_Z k) = f0.
Proof. unfold f0, of_Z. cbn [fmul]. by rewrite Z2Qc_inj_0, Qcmult_0_l. Qed.

(** X5: the rate accessors never return a negative rate: a negative
    [peak_tflops], [memory_bandwidth_gbps] or [interconnect_gbps] reads as
    [0.0], and the effective overlap is never below [1e-3]. *)
Theorem X5_rates_clamped (hw : HardwareSpec.t) :
  fltb (HardwareSpec.compute_throughput_tflops hw) f0 = false ∧
  fltb (HardwareSpec.memory_bandwidth_bytes hw) f0 = false ∧
  fltb (HardwareSpec.interconnect_bandwidth_bytes hw) f0 = false ∧
  fltb (HardwareSpec.effective_overlap hw) f1e_3 = false ∧
  (fltb (HardwareSpec.peak_tflops hw) f0 = true →
   HardwareSpec.compute_throughput_tflops hw = f0) ∧
  (fltb (HardwareSpec.memory_bandwidth_gbps hw) f0 = true →
   HardwareSpec.memory_bandwidth_bytes hw = f0) ∧
  (fltb (HardwareSpec.interconnect_gbps hw) f0 = true →
   HardwareSpec.interconnect_bandwidth_bytes hw = f0).
Proof.
  unfold HardwareSpec.compute_throughput_tflops, HardwareSpec.memory_bandwidth_bytes,
    HardwareSpec.interconnect_bandwidth_bytes, HardwareSpec.effective_overlap.
  split; [apply fmax_0_not_neg|].
  split; [apply (fmul_pos_not_neg _ 1000000000); [done|apply fmax_0_not_neg]|].
  split; [apply (fmul_pos_not_neg _ 1000000000); [done|apply fmax_0_not_neg]|].
  split.
  { destruct (fmax_cases (HardwareSpec.overlap_efficiency hw) f1e_3) as [[_ ->]|[Hgt ->]];
      [apply fltb_irrefl|done]. }
  unfold fmax, fgtb.
  split; [by intros ->|]. split; intros ->; apply (fmul_0_l 1000000000).
Qed.

Lemma X5_rates_clamped_witness :
  HardwareSpec.memory_bandwidth_bytes
    {| HardwareSpec.name := "broken"; HardwareSpec.peak_tflops := of_Z (-5);
       HardwareSpec.memory_bandwidth_gbps := of_Z (-1); HardwareSpec.hbm_gb := f0;
       HardwareSpec.interconnect_gbps := NInf; HardwareSpec.max_concurrency := 1;
       HardwareSpec.overlap_efficiency := f0 |} = f0.
Proof.
  match goal with
  | |- HardwareSpec.memory_bandwidth_bytes ?hw = _ =>
      destruct (X5_rates_clamped hw) as (_ & _ & _ & _ & _ & Hm & _)
  end.
  apply Hm. reflexivity.
Defined.

Lemma fquot_1 (m : pyfloat) : fquot m f1 = m.
Proof.
  destruct m as [x| | |]; try done.
  unfold f1, of_Z. cbn [fquot]. rewrite Z2Qc_inj_1. f_equal.
  unfold Qcdiv. rewrite <- (Qcmult_1_l (/ 1)), Qcmult_inv_r; [apply Qcmult_1_r|done].
Qed.

Lemma Qc_div_antitone (x a b : Qc) :
  (0 ≤ x)%Qc → (0 < a)%Qc → (a ≤ b)%Qc → (x / b ≤ x / a)%Qc.
Proof.
  intros Hx Ha Hab.
  assert (0 < b)%Qc as Hb by (by eapply Qclt_le_trans).
  assert (a ≠ 0%Qc) as Ha0 by (intros ->; by apply Qclt_not_eq in Ha).
  assert (b ≠ 0%Qc) as Hb0 by (intros ->; by apply Qclt_not_eq in Hb).
  unfold Qcdiv. apply Qcmult_le_mono_nonneg_l; [done|].
  apply (Qcmult_le_mono_pos_r _ _ (a * b)%Qc); [by apply Qcmult_pos_pos|].
  replace (/ b * (a * b))%Qc with a by (field; done).
  replace (/ a * (a * b))%Qc with b by (field; done).
  done.
Qed.

Lemma fmax_mono_r (c : pyfloat) (a b : Qc) :
  is_nan c = false → (a ≤ b)%Qc → fleb (fmax c (Fin a)) (fmax c (Fin b)) = true.
Proof.
  intros Hc Hab. unfold fmax, fgtb.
  destruct c as [q| | |]; cbn [fltb fleb]; [|done|by apply Qc_leb_true|done].
  destruct (Qc_ltb q a) eqn:Ha, (Qc_ltb q b) eqn:Hb; cbn [fleb]; apply Qc_leb_true.
  - done.
  - apply Qc_ltb_true in Ha. apply Qc_ltb_false in Hb.
    exfalso. apply (Qcle_not_lt _ _ (Qcle_trans _ _ _ Hab Hb)), Ha.
  - apply Qc_ltb_true in Hb. by apply Qclt_le_weak.
  - reflexivity.
Qed.

(** X6: with the default overlap efficiency [1.0] the dominant latency is
    the plain maximum of compute and memory time; and for non-negative
    finite times, a larger overlap efficiency never gives a larger
    latency. *)
Theorem X6_overlap_efficiency (compute_ms memory_ms : pyfloat) (hw hw' : HardwareSpec.t) :
  (HardwareSpec.overlap_efficiency hw = f1 →
   dominant_latency_ms compute_ms memory_ms hw = Ok (fmax compute_ms memory_ms)) ∧
  (∀ (c m o o' : Qc),
     compute_ms = Fin c → memory_ms = Fin m → (0 ≤ m)%Qc →
     HardwareSpec.overlap_efficiency hw = Fin o →
     HardwareSpec.overlap_efficiency hw' = Fin o' →
     (o ≤ o')%Qc →
     ∃ latency latency',
       dominant_latency_ms compute_ms memory_ms hw = Ok latency ∧
       dominant_latency_ms compute_ms memory_ms hw' = Ok latency' ∧
       fleb latency' latency = true).
Proof.
  split.
  - intros Ho. rewrite dominant_latency_ms_eq.
    unfold HardwareSpec.effective_overlap. rewrite Ho.
    change (fmax f1 f1e_3) with f1. by rewrite fquot_1.
  - intros c m o o' -> -> Hm Ho Ho' Hle.
    rewrite !dominant_latency_ms_eq. eexists _, _. split; [done|]. split; [done|].
    unfold HardwareSpec.effective_overlap. rewrite Ho, Ho'.
    assert (∀ x : Qc, ∃ y : Qc, fmax (Fin x) f1e_3 = Fin y ∧ (0 < y)%Qc ∧
              (y = x ∨ y = Q2Qc (1 # 1000)) ∧ (x ≤ y)%Qc ∧ (Q2Qc (1 # 1000) ≤ y)%Qc) as Hclamp.
    { intros x. unfold fmax, fgtb, f1e_3. cbn [fltb].
      destruct (Qc_ltb x (Q2Qc (1 # 1000))) eqn:Hx.
      - apply Qc_ltb_true in Hx. eexists. split; [done|].
        split; [reflexivity|]. split; [by right|]. split; [by apply Qclt_le_weak|reflexivity].
      - apply Qc_ltb_false in Hx. exists x. split; [done|].
        split; [by apply Qclt_le_trans with (Q2Qc (1 # 1000))|]. split; [by left|]. split; [reflexivity|done]. }
    destruct (Hclamp o) as (y & -> & Hy & Hycase & Hoy & Hmy).
    destruct (Hclamp o') as (y' & -> & Hy' & Hycase' & Hoy' & Hmy').
    cbn [fquot]. apply fmax_mono_r; [done|].
    apply Qc_div_antitone; [done|done|].
    destruct Hycase as [->| ->]; [by trans o'|done].
Qed.

Lemma X6_overlap_efficiency_witness :
  dominant_latency_ms (of_Z 20) (of_Z 250) hw_test = Ok (fmax (of_Z 20) (of_Z 250)).
Proof.
  destruct (X6_overlap_efficiency (of_Z 20) (of_Z 250) hw_test hw_test) as [Hdefault _].
  apply Hdefault. reflexivity.
Defined.

(** A rate that is a number and not [<= 0] is a positive number or [+inf];
    dividing by it and scaling to milliseconds is monotone in the work. *)
Lemma rate_time_mono (d : pyfloat) (x x' : Qc) :
  is_nan d = false → fleb d f0 = false → (x ≤ x')%Qc →
  fleb (fmul (fquot (Fin x) d) f1e3) (fmul (fquot (Fin x') d) f1e3) = true.
Proof.
  intros Hnan Hpos Hx. destruct d as [q| | |]; [|by cbn [fquot]; change f1e3 with (of_Z 1000); rewrite (fmul_0_l 1000)|done..].
  unfold f0, of_Z in Hpos. cbn [fleb] in Hpos.
  apply Qc_leb_false in Hpos. rewrite Z2Qc_inj_0 in Hpos.
  unfold f1e3, of_Z. cbn [fquot fmul fleb]. apply Qc_leb_true.
  apply Qcmult_le_mono_nonneg_r; [by apply Qclt_le_weak, Qc_of_Z_pos|].
  unfold Qcdiv. apply Qcmult_le_mono_nonneg_r; [|done].
  by apply Qclt_le_weak, Qcinv_pos.
Qed.

Lemma fmax_0_nan (x : pyfloat) : is_nan x = false → is_nan (fmax x f0) = false.
Proof. intros Hx. by destruct (fmax_cases x f0) as [[_ ->]|[_ ->]]. Qed.

Lemma fmul_pos_rate (t : pyfloat) (k : Z) :
  0 < k → is_nan t = false → fleb t f0 = false →
  is_nan (fmul t (of_Z k)) = false ∧ fleb (fmul t (of_Z k)) f0 = false.
Proof.
  intros Hk Hnan Hpos. destruct t as [q| | |]; try done.
  - split; [done|]. unfold f0, of_Z in *. cbn [fmul fleb] in *.
    apply Qc_leb_false in Hpos. apply Qc_leb_false.
    rewrite Z2Qc_inj_0 in *. apply Qcmult_pos_pos; [done|by apply Qc_of_Z_pos].
  - unfold of_Z. cbn [fmul]. by rewrite inf_signed_pos by by apply Qc_of_Z_pos.
Qed.

(** X7: on hardware whose rate is a number, each timing conversion is
    monotone in the finite amount of work: more FLOPs or more bytes never
    take less time. *)
Theorem X7_timing_monotone (hw : HardwareSpec.t) (x x' : Qc) :
  (x ≤ x')%Qc →
  (is_nan (HardwareSpec.peak_tflops hw) = false →
   ∃ t t', compute_time_ms (Fin x) hw = Ok t ∧ compute_time_ms (Fin x') hw = Ok t' ∧
           fleb t t' = true) ∧
  (is_nan (HardwareSpec.memory_bandwidth_gbps hw) = false →
   ∃ t t', memory_time_ms (Fin x) hw = Ok t ∧ memory_time_ms (Fin x') hw = Ok t' ∧
           fleb t t' = true) ∧
  (is_nan (HardwareSpec.interconnect_gbps hw) = false →
   ∃ t t', interconnect_time_ms (Fin x) hw = Ok t ∧ interconnect_time_ms (Fin x') hw = Ok t' ∧
           fleb t t' = true).
Proof.
  intros Hx. split; [|split]; intros Hnan.
  - unfold compute_time_ms.
    pose proof (fmax_0_nan _ Hnan) as Hn. fold (HardwareSpec.compute_throughput_tflops hw) in Hn.
    destruct (fleb (HardwareSpec.compute_throughput_tflops hw) f0) eqn:Hle; [by eexists _, _|].
    destruct (fmul_pos_rate _ 1000000000000 eq_refl Hn Hle) as [Hn' Hle'].
    rewrite !fdiv_not_zero by by apply fleb_false_not_zero.
    eexists _, _. split; [done|]. split; [done|]. by apply rate_time_mono.
  - unfold memory_time_ms.
    pose proof (fmax_0_nan _ Hnan) as Hn.
    destruct (fleb (HardwareSpec.memory_bandwidth_bytes hw) f0) eqn:Hle; [by eexists _, _|].
    assert (is_nan (HardwareSpec.memory_bandwidth_bytes hw) = false) as Hn'.
    { unfold HardwareSpec.memory_bandwidth_bytes in *.
      by destruct (fmax (HardwareSpec.memory_bandwidth_gbps hw) f0) as [q| | |]. }
    rewrite !fdiv_not_zero by by apply fleb_false_not_zero.
    eexists _, _. split; [done|]. split; [done|]. by apply rate_time_mono.
  - unfold interconnect_time_ms.
    pose proof (fmax_0_nan _ Hnan) as Hn.
    destruct (fleb (HardwareSpec.interconnect_bandwidth_bytes hw) f0) eqn:Hle;
      [eexists _, _; split; [done|]; split; [done|]; by apply fleb_refl|].
    assert (is_nan (HardwareSpec.interconnect_bandwidth_bytes hw) = false) as Hn'.
    { unfold HardwareSpec.interconnect_bandwidth_bytes in *.
      by destruct (fmax (HardwareSpec.interconnect_gbps hw) f0) as [q| | |]. }
    rewrite !fdiv_not_zero by by apply fleb_false_not_zero.
    eexists _, _. split; [done|]. split; [done|]. by apply rate_time_mono.
Qed.

Lemma X7_timing_monotone_witness :
  ∃ t t', compute_time_ms (of_Z 1000) hw_test = Ok t ∧
          compute_time_ms (of_Z 2000) hw_test = Ok t' ∧ fleb t t' = true.
Proof.
  destruct (X7_timing_monotone hw_test (Qc_of_Z 1000) (Qc_of_Z 2000)) as [Hc _].
  - by apply (proj1 (Z2Qc_inj_le 1000 2000)).
  - exact (Hc eq_refl).
Defined.

(** ** What an execution's fields say about each other *)

Lemma FFN_estimate_timed (ffn : FFN.t) (batch seq : Z) (hw : HardwareSpec.t)
    (e : LayerExecution.t) :
  FFN.estimate_execution_time ffn batch seq hw = Ok e → timed_by hw e.
Proof.
  unfold FFN.estimate_execution_time. intros He.
  apply bind_Ok in He as (c & Hc & He). apply bind_Ok in He as (m & Hm & He).
  apply bind_Ok in He as (l & Hl & He). injection He as <-. by repeat split.
Qed.

Lemma Attention_estimate_timed `{PyBuiltins} (attn : Attention.t) (batch seq : Z)
    (hw : HardwareSpec.t) (e : LayerExecution.t) :
  Attention.estimate_execution_time attn batch seq hw = Ok e → timed_by hw e.
Proof.
  unfold Attention.estimate_execution_time. intros He.
  apply bind_Ok in He as (ms & Hms & He).
  apply bind_Ok in He as (c & Hc & He). apply bind_Ok in He as (m & Hm & He).
  apply bind_Ok in He as (l & Hl & He). injection He as <-. by repeat split.
Qed.

Lemma MoE_estimate_timed (moe : MoE.t) (batch seq : Z) (hw : HardwareSpec.t)
    (e : LayerExecution.t) :
  MoE.estimate_execution_time moe batch seq hw = Ok e → timed_by hw e.
Proof.
  unfold MoE.estimate_execution_time. intros He.
  apply bind_Ok in He as (ms & Hms & He).
  apply bind_Ok in He as (c & Hc & He). apply bind_Ok in He as (m & Hm & He).
  apply bind_Ok in He as (l & Hl & He). injection He as <-. by repeat split.
Qed.

(** X8: the fields of an execution returned by the Attention, FFN or MoE
    module are consistent: its compute time is [compute_time_ms] of its
    [flops], its memory time is [memory_time_ms] of
    [bytes_read + bytes_written], and its dominant latency is
    [dominant_latency_ms] of the two.  A Communication execution instead
    times its payload once, while reporting it as read and as written. *)
Theorem X8_execution_fields_consistent `{PyBuiltins} (hw : HardwareSpec.t) (batch seq : Z) :
  (∀ attn e, Attention.estimate_execution_time attn batch seq hw = Ok e → timed_by hw e) ∧
  (∀ ffn e, FFN.estimate_execution_time ffn batch seq hw = Ok e → timed_by hw e) ∧
  (∀ moe e, MoE.estimate_execution_time moe batch seq hw = Ok e → timed_by hw e) ∧
  (∀ comm e,
     Communication.estimate_execution_time comm batch seq hw = Ok e →
     LayerExecution.bytes_written e = LayerExecution.bytes_read e ∧
     interconnect_time_ms (LayerExecution.bytes_read e) hw
       = Ok (LayerExecution.compute_time_ms e) ∧
     memory_time_ms (LayerExecution.bytes_read e) hw = Ok (LayerExecution.memory_time_ms e) ∧
     dominant_latency_ms (LayerExecution.compute_time_ms e) (LayerExecution.memory_time_ms e) hw
       = Ok (LayerExecution.dominant_latency_ms e)).
Proof.
  split; [intros attn e; apply Attention_estimate_timed|].
  split; [intros ffn e; apply FFN_estimate_timed|].
  split; [intros moe e; apply MoE_estimate_timed|].
  intros comm e. unfold Communication.estimate_execution_time. intros He.
  apply bind_Ok in He as (c & Hc & He). apply bind_Ok in He as (m & Hm & He).
  apply bind_Ok in He as (l & Hl & He). injection He as <-. by repeat split.
Qed.

Lemma X8_execution_fields_consistent_witness :
  ∃ e, FFN.estimate_execution_time ffn_test 2 32 hw_test = Ok e ∧ timed_by hw_test e.
Proof.
  destruct (FFN_estimate_total ffn_test 2 32 hw_test) as [e He].
  exists e. split; [exact He|].
  destruct (@X8_execution_fields_consistent plain_builtins hw_test 2 32) as (_ & Hffn & _).
  exact (Hffn ffn_test e He).
Defined.

(** ** Latency against its inputs *)

Lemma fmax_ge_l (c a : pyfloat) : is_nan c = false → fgeb (fmax c a) c = true.
Proof.
  intros Hc. unfold fgeb.
  destruct (fmax_cases c a) as [[Hgt ->]|[_ ->]]; [|by apply fleb_refl].
  unfold fgtb in Hgt. destruct c, a; try done. cbn [fltb fleb] in *.
  apply Qc_leb_true. apply Qc_ltb_true in Hgt. by apply Qclt_le_weak.
Qed.

Lemma fmax_ge_r (c a : pyfloat) :
  is_nan c = false → is_nan a = false → fgeb (fmax c a) a = true.
Proof.
  intros Hc Ha. unfold fgeb.
  destruct (fmax_cases c a) as [[_ ->]|[Hgt ->]]; [by apply fleb_refl|].
  by apply fltb_false_fleb.
Qed.

Lemma module_estimate_latency `{PyBuiltins} (self : AnalyticEstimator.t)
    (layer_config : LayerConfig.t) (e : LayerExecution.t) :
  AnalyticEstimator.module_estimate self layer_config = Ok e →
  dominant_latency_ms (LayerExecution.compute_time_ms e) (LayerExecution.memory_time_ms e)
    (AnalyticEstimator.hardware self) = Ok (LayerExecution.dominant_latency_ms e).
Proof.
  unfold AnalyticEstimator.module_estimate.
  destruct layer_config as [h|h d|h d|h d]; intros He;
    apply bind_Ok in He as (module & _ & He).
  - by apply Attention_estimate_timed in He as (_ & _ & ?).
  - by apply FFN_estimate_timed in He as (_ & _ & ?).
  - by apply MoE_estimate_timed in He as (_ & _ & ?).
  - unfold Communication.estimate_execution_time in He.
    apply bind_Ok in He as (c & Hc & He). apply bind_Ok in He as (m & Hm & He).
    apply bind_Ok in He as (l & Hl & He). by injection He as <-.
Qed.

Lemma estimate_layer_fields `{PyBuiltins} (self : AnalyticEstimator.t)
    (layer_config : LayerConfig.t) (e : LayerExecution.t) :
  AnalyticEstimator.estimate_layer self layer_config = Ok e →
  ∃ e0, AnalyticEstimator.module_estimate self layer_config = Ok e0 ∧
        LayerExecution.layer_name e = LayerConfig.name (LayerConfig.base layer_config) ∧
        LayerExecution.layer_type e = LayerConfig.layer_type (LayerConfig.base layer_config) ∧
        LayerExecution.flops e = LayerExecution.flops e0 ∧
        LayerExecution.bytes_read e = LayerExecution.bytes_read e0 ∧
        LayerExecution.bytes_written e = LayerExecution.bytes_written e0 ∧
        LayerExecution.compute_time_ms e = LayerExecution.compute_time_ms e0 ∧
        LayerExecution.memory_time_ms e = LayerExecution.memory_time_ms e0 ∧
        LayerExecution.dominant_latency_ms e = LayerExecution.dominant_latency_ms e0 ∧
        LayerExecution.breakdown e = LayerExecution.breakdown e0.
Proof.
  unfold AnalyticEstimator.estimate_layer. intros He.
  apply bind_Ok in He as (e0 & He0 & He).
  apply back_fill_fields in He
    as (_ & Hname & Htype & Hflops & Hread & Hwritten & Hc & Hm & Hbreak & _ & Hdom & _).
  exists e0. by repeat split.
Qed.

(** X9: in every execution the dispatcher returns whose compute time is a
    number, the dominant latency is at least the compute time, and at least
    the overlap-adjusted memory time when that is a number too. *)
Theorem X9_latency_dominates `{PyBuiltins} (self : AnalyticEstimator.t)
    (layer_config : LayerConfig.t) (e : LayerExecution.t) :
  AnalyticEstimator.estimate_layer self layer_config = Ok e →
  is_nan (LayerExecution.compute_time_ms e) = false →
  let adjusted :=
    fquot (LayerExecution.memory_time_ms e)
          (HardwareSpec.effective_overlap (AnalyticEstimator.hardware self)) in
  fgeb (LayerExecution.dominant_latency_ms e) (LayerExecution.compute_time_ms e) = true ∧
  (is_nan adjusted = false → fgeb (LayerExecution.dominant_latency_ms e) adjusted = true).
Proof.
  intros He Hc adjusted.
  apply estimate_layer_fields in He
    as (e0 & He0 & _ & _ & _ & _ & _ & Hcomp & Hmem & Hdom & _).
  apply module_estimate_latency in He0. rewrite dominant_latency_ms_eq in He0.
  injection He0 as He0. unfold adjusted. rewrite Hcomp, Hmem, Hdom, <- He0 in *.
  split; [by apply fmax_ge_l|]. intros Ha. by apply fmax_ge_r.
Qed.

Lemma X9_latency_dominates_witness :
  ∃ e, AnalyticEstimator.estimate_layer (H := plain_builtins) estimator_test
         (LayerConfig.FFNLayerConfig (header_test "ffn" "ffn_0" 0) ffn_test_config) = Ok e ∧
       fgeb (LayerExecution.dominant_latency_ms e) (LayerExecution.compute_time_ms e) = true.
Proof.
  destruct (AnalyticEstimator.estimate_layer (H := plain_builtins) estimator_test
              (LayerConfig.FFNLayerConfig (header_test "ffn" "ffn_0" 0) ffn_test_config))
    as [e|exn] eqn:He; [|vm_compute in He; discriminate].
  exists e. split; [reflexivity|].
  apply (@X9_latency_dominates plain_builtins _ _ e He).
  vm_compute in He. injection He as <-. reflexivity.
Defined.

(** X10: [analytic_flops] agrees with the full estimate: whenever a module
    returns an execution, its [flops] is what [analytic_flops] returns for
    the same batch and sequence length. *)
Theorem X10_analytic_flops_agree `{PyBuiltins} (hw : HardwareSpec.t) (batch seq : Z) :
  (∀ attn e,
     Attention.estimate_execution_time attn batch seq hw = Ok e →
     Attention.analytic_flops attn batch seq = Ok (LayerExecution.flops e)) ∧
  (∀ ffn e,
     FFN.estimate_execution_time ffn batch seq hw = Ok e →
     FFN.analytic_flops ffn batch seq = LayerExecution.flops e) ∧
  (∀ moe e,
     MoE.estimate_execution_time moe batch seq hw = Ok e →
     MoE.analytic_flops moe batch seq = Ok (LayerExecution.flops e)) ∧
  (∀ comm e,
     Communication.estimate_execution_time comm batch seq hw = Ok e →
     of_Z (Communication.analytic_flops comm batch seq) = LayerExecution.flops e).
Proof.
  split; [|split; [|split]].
  - intros attn e. unfold Attention.estimate_execution_time, Attention.analytic_flops.
    intros He. apply bind_Ok in He as (ms & -> & He).
    apply bind_Ok in He as (c & Hc & He). apply bind_Ok in He as (m & Hm & He).
    apply bind_Ok in He as (l & Hl & He). by injection He as <-.
  - intros ffn e. unfold FFN.estimate_execution_time, FFN.analytic_flops.
    intros He. apply bind_Ok in He as (c & Hc & He). apply bind_Ok in He as (m & Hm & He).
    apply bind_Ok in He as (l & Hl & He). by injection He as <-.
  - intros moe e. unfold MoE.estimate_execution_time, MoE.analytic_flops.
    intros He. apply bind_Ok in He as (ms & -> & He).
    apply bind_Ok in He as (c & Hc & He). apply bind_Ok in He as (m & Hm & He).
    apply bind_Ok in He as (l & Hl & He). by injection He as <-.
  - intros comm e. unfold Communication.estimate_execution_time.
    intros He. apply bind_Ok in He as (c & Hc & He). apply bind_Ok in He as (m & Hm & He).
    apply bind_Ok in He as (l & Hl & He). by injection He as <-.
Qed.

Lemma X10_analytic_flops_agree_witness :
  ∃ e, FFN.estimate_execution_time ffn_test 2 32 hw_test = Ok e ∧
       FFN.analytic_flops ffn_test 2 32 = LayerExecution.flops e.
Proof.
  destruct (FFN_estimate_total ffn_test 2 32 hw_test) as [e He].
  exists e. split; [exact He|].
  destruct (@X10_analytic_flops_agree plain_builtins hw_test 2 32) as (_ & Hffn & _).
  exact (Hffn ffn_test e He).
Defined.

(** ** Breakdown against totals *)

Lemma breakdown_total_insert (key name : string) (entry : gmap string pyfloat)
    (b : gmap string (gmap string pyfloat)) :
  b !! name = None →
  breakdown_total key (<[name := entry]> b)
  = fadd (breakdown_total key b) (default f0 (entry !! key)).
Proof.
  intros Hnone. unfold breakdown_total.
  rewrite map_fold_insert_L; [done| |done].
  intros j1 j2 z1 z2 y _ _ _.
  by rewrite <- !fadd_assoc, (fadd_comm (default f0 (z2 !! key))).
Qed.

Lemma breakdown_total_empty (key : string) : breakdown_total key ∅ = f0.
Proof. unfold breakdown_total. by rewrite map_fold_empty. Qed.

Lemma metric_entry_flops (m : FusionMetrics.t) :
  (py_dict [("flops", FusionMetrics.flops m); ("bytes", FusionMetrics.bytes_accessed m)]
     : gmap string pyfloat) !! "flops" = Some (FusionMetrics.flops m).
Proof. unfold py_dict. cbn [fold_left fst snd]. by rewrite lookup_insert_ne, lookup_insert_eq. Qed.

Lemma metric_entry_bytes (m : FusionMetrics.t) :
  (py_dict [("flops", FusionMetrics.flops m); ("bytes", FusionMetrics.bytes_accessed m)]
     : gmap string pyfloat) !! "bytes" = Some (FusionMetrics.bytes_accessed m).
Proof. unfold py_dict. cbn [fold_left fst snd]. by rewrite lookup_insert_eq. Qed.

(** The totals of the breakdown of metrics with pairwise distinct names are
    the sums of the metrics' FLOPs and bytes. *)
Lemma breakdown_of_totals (metrics : list FusionMetrics.t) :
  NoDup (FusionMetrics.name <$> metrics) →
  breakdown_total "flops" (breakdown_of metrics) = py_sum (FusionMetrics.flops <$> metrics) ∧
  breakdown_total "bytes" (breakdown_of metrics)
    = py_sum (FusionMetrics.bytes_accessed <$> metrics).
Proof.
  induction metrics as [|m metrics IH] using rev_ind; intros Hnd.
  - unfold breakdown_of, py_dict. cbn [fmap list_fmap fold_left].
    by rewrite !breakdown_total_empty.
  - rewrite fmap_app in Hnd. apply NoDup_app in Hnd as (Hnd & Hfresh & _).
    destruct (IH Hnd) as [IHf IHb].
    assert (breakdown_of (metrics ++ [m])
            = <[FusionMetrics.name m :=
                  py_dict [("flops", FusionMetrics.flops m);
                           ("bytes", FusionMetrics.bytes_accessed m)]]>
                (breakdown_of metrics)) as ->.
    { unfold breakdown_of, py_dict. by rewrite fmap_app, fold_left_app. }
    assert (breakdown_of metrics !! FusionMetrics.name m = None) as Hnone.
    { clear -Hfresh.
      assert (∀ (l : list FusionMetrics.t) (b : gmap string (gmap string pyfloat)),
                b !! FusionMetrics.name m = None →
                FusionMetrics.name m ∉ FusionMetrics.name <$> l →
                fold_left (λ acc kv, <[kv.1 := kv.2]> acc)
                  ((λ m0, (FusionMetrics.name m0,
                           (py_dict [("flops", FusionMetrics.flops m0);
                                     ("bytes", FusionMetrics.bytes_accessed m0)]
                              : gmap string pyfloat))) <$> l) b
                  !! FusionMetrics.name m = None) as Hgen.
      { induction l as [|x l IHl]; intros b Hb Hnotin; [done|].
        cbn [fmap list_fmap fold_left fst snd]. apply IHl.
        - rewrite lookup_insert_ne; [done|]. intros Heq. apply Hnotin. rewrite <- Heq. by left.
        - intros Hin. apply Hnotin. by right. }
      apply Hgen; [done|]. intros Hin. apply (Hfresh _ Hin). by left. }
    rewrite !breakdown_total_insert by done.
    rewrite metric_entry_flops, metric_entry_bytes, IHf, IHb, !fmap_app, !py_sum_app.
    cbn [fmap list_fmap default from_option id]. by rewrite !py_sum_cons, !fadd_0_r.
Qed.

Ltac solve_distinct_names :=
  repeat (apply NoDup_cons; split;
          [rewrite ?not_elem_of_cons; repeat split; try done; apply not_elem_of_nil|]);
  apply NoDup_nil_2.

Lemma py_sum_singleton (x : pyfloat) : py_sum [x] = x.
Proof. by rewrite py_sum_cons, fadd_0_r. Qed.

Lemma module_estimate_breakdown `{PyBuiltins} (self : AnalyticEstimator.t)
    (layer_config : LayerConfig.t) (e : LayerExecution.t) :
  AnalyticEstimator.module_estimate self layer_config = Ok e →
  breakdown_total "flops" (LayerExecution.breakdown e) = LayerExecution.flops e ∧
  breakdown_total "bytes" (LayerExecution.breakdown e) = LayerExecution.bytes_read e.
Proof.
  unfold AnalyticEstimator.module_estimate.
  destruct layer_config as [h|h d|h d|h d]; intros He;
    apply bind_Ok in He as (module & _ & He).
  - unfold Attention.estimate_execution_time in He.
    apply bind_Ok in He as (ms & Hms & He).
    apply bind_Ok in He as (c & Hc & He). apply bind_Ok in He as (m & Hm & He).
    apply bind_Ok in He as (l & Hl & He). injection He as <-.
    cbn [LayerExecution.breakdown LayerExecution.flops LayerExecution.bytes_read].
    apply breakdown_of_totals.
    unfold Attention._metrics in Hms.
    apply bind_Ok in Hms as (q1 & _ & Hms). apply bind_Ok in Hms as (h1 & _ & Hms).
    apply bind_Ok in Hms as (h2 & _ & Hms). apply bind_Ok in Hms as (q2 & _ & Hms).
    injection Hms as <-. cbn [fmap list_fmap].
    solve_distinct_names.
  - unfold FFN.estimate_execution_time in He.
    apply bind_Ok in He as (c & Hc & He). apply bind_Ok in He as (m & Hm & He).
    apply bind_Ok in He as (l & Hl & He). injection He as <-.
    cbn [LayerExecution.breakdown LayerExecution.flops LayerExecution.bytes_read].
    destruct (breakdown_of_totals [FFN._metrics module (RuntimeSpec.batch_size
                (AnalyticEstimator.runtime self)) (RuntimeSpec.seq_len
                (AnalyticEstimator.runtime self))]) as [-> ->].
    + cbn [fmap list_fmap]. apply NoDup_singleton.
    + cbn [fmap list_fmap]. by rewrite !py_sum_singleton.
  - unfold MoE.estimate_execution_time in He.
    apply bind_Ok in He as (ms & Hms & He).
    apply bind_Ok in He as (c & Hc & He). apply bind_Ok in He as (m & Hm & He).
    apply bind_Ok in He as (l & Hl & He). injection He as <-.
    cbn [LayerExecution.breakdown LayerExecution.flops LayerExecution.bytes_read].
    apply breakdown_of_totals.
    apply MoE_metrics_Ok in Hms as (tf & a & bpd & _ & _ & _ & ->).
    cbn [fmap list_fmap].
    solve_distinct_names.
  - unfold Communication.estimate_execution_time in He.
    apply bind_Ok in He as (c & Hc & He). apply bind_Ok in He as (m & Hm & He).
    apply bind_Ok in He as (l & Hl & He). injection He as <-.
    cbn [LayerExecution.breakdown LayerExecution.flops LayerExecution.bytes_read].
    match goal with
    | |- context [breakdown_of [?metric]] =>
        destruct (breakdown_of_totals [metric]) as [-> ->];
        [cbn [fmap list_fmap]; apply NoDup_singleton|]
    end.
    cbn [fmap list_fmap]. rewrite !py_sum_singleton.
    by destruct (String.eqb _ _).
Qed.

(** X11: in every execution the dispatcher returns, the breakdown adds up
    to the totals: the [flops] entries of the breakdown sum to the
    execution's [flops], and its [bytes] entries sum to [bytes_read]. *)
Theorem X11_breakdown_adds_up `{PyBuiltins} (self : AnalyticEstimator.t)
    (layer_config : LayerConfig.t) (e : LayerExecution.t) :
  AnalyticEstimator.estimate_layer self layer_config = Ok e →
  breakdown_total "flops" (LayerExecution.breakdown e) = LayerExecution.flops e ∧
  breakdown_total "bytes" (LayerExecution.breakdown e) = LayerExecution.bytes_read e.
Proof.
  intros He.
  apply estimate_layer_fields in He
    as (e0 & He0 & _ & _ & -> & -> & _ & _ & _ & _ & ->).
  by apply module_estimate_breakdown in He0.
Qed.

Lemma X11_breakdown_adds_up_witness :
  ∃ e, AnalyticEstimator.estimate_layer (H := plain_builtins) estimator_test
         (LayerConfig.MoELayerConfig (header_test "moe" "moe_0" 0) moe_test_config) = Ok e ∧
       breakdown_total "flops" (LayerExecution.breakdown e) = LayerExecution.flops e.
Proof.
  destruct (AnalyticEstimator.estimate_layer (H := plain_builtins) estimator_test
              (LayerConfig.MoELayerConfig (header_test "moe" "moe_0" 0) moe_test_config))
    as [e|exn] eqn:He; [|vm_compute in He; discriminate].
  exists e. split; [reflexivity|].
  exact (proj1 (@X11_breakdown_adds_up plain_builtins _ _ e He)).
Defined.

(** ** Degenerate hardware, end to end *)

Lemma fmax_inf_l (a : pyfloat) : fmax PInf a = PInf.
Proof. unfold fmax, fgtb. by destruct a. Qed.

Lemma module_estimate_timed `{PyBuiltins} (self : AnalyticEstimator.t)
    (layer_config : LayerConfig.t) (e : LayerExecution.t) :
  (∀ h d, layer_config ≠ LayerConfig.CommunicationLayerConfig h d) →
  AnalyticEstimator.module_estimate self layer_config = Ok e →
  timed_by (AnalyticEstimator.hardware self) e.
Proof.
  unfold AnalyticEstimator.module_estimate.
  destruct layer_config as [h|h d|h d|h d]; intros Hnc He;
    apply bind_Ok in He as (module & _ & He).
  - by apply Attention_estimate_timed in He.
  - by apply FFN_estimate_timed in He.
  - by apply MoE_estimate_timed in He.
  - by destruct (Hnc h d).
Qed.

(** X12: the [+inf] sentinel reaches the layer's result.  On hardware with
    [peak_tflops <= 0], every execution the dispatcher returns for an
    attention, FFN or MoE layer has compute time and dominant latency
    [+inf]. *)
Theorem X12_no_compute_is_infinite_latency `{PyBuiltins} (self : AnalyticEstimator.t)
    (layer_config : LayerConfig.t) (e : LayerExecution.t) :
  fleb (HardwareSpec.peak_tflops (AnalyticEstimator.hardware self)) f0 = true →
  (∀ h d, layer_config ≠ LayerConfig.CommunicationLayerConfig h d) →
  AnalyticEstimator.estimate_layer self layer_config = Ok e →
  LayerExecution.compute_time_ms e = inf ∧ LayerExecution.dominant_latency_ms e = inf.
Proof.
  intros Hpeak Hnc He.
  apply estimate_layer_fields in He
    as (e0 & He0 & _ & _ & _ & _ & _ & -> & _ & -> & _).
  apply module_estimate_timed in He0 as (Hc & _ & Hl); [|done].
  rewrite compute_time_ms_degenerate in Hc by done. injection Hc as Hc.
  rewrite dominant_latency_ms_eq, <- Hc in Hl. injection Hl as <-.
  split; [done|]. apply fmax_inf_l.
Qed.

Lemma X12_no_compute_is_infinite_latency_witness :
  ∃ e, AnalyticEstimator.estimate_layer (H := plain_builtins)
         (AnalyticEstimator.Build_t hw_dead runtime_test)
         (LayerConfig.FFNLayerConfig (header_test "ffn" "ffn_0" 0) ffn_test_config) = Ok e ∧
       LayerExecution.dominant_latency_ms e = inf.
Proof.
  destruct (AnalyticEstimator.estimate_layer (H := plain_builtins)
              (AnalyticEstimator.Build_t hw_dead runtime_test)
              (LayerConfig.FFNLayerConfig (header_test "ffn" "ffn_0" 0) ffn_test_config))
    as [e|exn] eqn:He; [|vm_compute in He; discriminate].
  exists e. split; [reflexivity|].
  refine (proj2 (@X12_no_compute_is_infinite_latency plain_builtins
                   (AnalyticEstimator.Build_t hw_dead runtime_test) _ e eq_refl _ He)).
  intros h d Heq. discriminate Heq.
Defined.

(** ** Communication patterns *)

(** X13: the communication pattern changes no number of the estimate: for a
    modest batch size and sequence length, two Communication modules with
    the same payload return executions with the same FLOPs, bytes and times,
    whatever their patterns. *)
Theorem X13_pattern_does_not_change_timing (comm comm' : Communication.t) (batch seq : Z)
    (hw : HardwareSpec.t) :
  CommunicationConfig.payload_mb (Communication.config comm)
    = CommunicationConfig.payload_mb (Communication.config comm') →
  modest batch → modest seq →
  ∃ e e',
    Communication.estimate_execution_time comm batch seq hw = Ok e ∧
    Communication.estimate_execution_time comm' batch seq hw = Ok e' ∧
    LayerExecution.flops e = LayerExecution.flops e' ∧
    LayerExecution.bytes_read e = LayerExecution.bytes_read e' ∧
    LayerExecution.bytes_written e = LayerExecution.bytes_written e' ∧
    LayerExecution.compute_time_ms e = LayerExecution.compute_time_ms e' ∧
    LayerExecution.memory_time_ms e = LayerExecution.memory_time_ms e' ∧
    LayerExecution.dominant_latency_ms e = LayerExecution.dominant_latency_ms e'.
Proof.
  intros Hpayload _ _.
  destruct (Communication_estimate_total comm batch seq hw) as [e He].
  destruct (Communication_estimate_total comm' batch seq hw) as [e' He'].
  exists e, e'. split; [done|]. split; [done|].
  unfold Communication.estimate_execution_time in He, He'. rewrite <- Hpayload in He'.
  assert (∀ p (b : bool),
            FusionMetrics.bytes_accessed
              (if b then communication_all_reduce p else communication_all_to_all p) = p)
    as Hbytes by (by intros p []).
  rewrite !Hbytes in He, He'.
  apply bind_Ok in He as (c & Hc & He). apply bind_Ok in He as (m & Hm & He).
  apply bind_Ok in He as (l & Hl & He). injection He as <-.
  apply bind_Ok in He' as (c' & Hc' & He'). apply bind_Ok in He' as (m' & Hm' & He').
  apply bind_Ok in He' as (l' & Hl' & He'). injection He' as <-.
  cbn [LayerExecution.flops LayerExecution.bytes_read LayerExecution.bytes_written
       LayerExecution.compute_time_ms LayerExecution.memory_time_ms
       LayerExecution.dominant_latency_ms].
  rewrite Hc in Hc'. injection Hc' as <-. rewrite Hm in Hm'. injection Hm' as <-.
  rewrite Hl in Hl'. by injection Hl' as <-.
Qed.

Lemma X13_pattern_does_not_change_timing_witness :
  ∃ e e',
    Communication.estimate_execution_time
      (Communication.Build_t (CommunicationConfig.Build_t "all_reduce" f1) ∅) 2 32 hw_test = Ok e ∧
    Communication.estimate_execution_time
      (Communication.Build_t (CommunicationConfig.Build_t "all_to_all" f1) ∅) 2 32 hw_test = Ok e' ∧
    LayerExecution.dominant_latency_ms e = LayerExecution.dominant_latency_ms e'.
Proof.
  destruct (X13_pattern_does_not_change_timing
              (Communication.Build_t (CommunicationConfig.Build_t "all_reduce" f1) ∅)
              (Communication.Build_t (CommunicationConfig.Build_t "all_to_all" f1) ∅)
              2 32 hw_test eq_refl)
    as (e & e' & He & He' & _ & _ & _ & _ & _ & Hl);
    [vm_compute; discriminate..|].
  exists e, e'. split; [exact He|]. split; [exact He'|exact Hl].
Defined.

(** ** Many layers *)

Lemma mapM_Ok {A B : Type} (f : A → res B) (l : list A) (k : list B) :
  mapM f l = Ok k ↔ Forall2 (λ a b, f a = Ok b) l k.
Proof.
  revert k. induction l as [|a l IH]; intros k.
  - split; [intros [= <-]; constructor|by inversion 1].
  - change (mapM f (a :: l)) with (f a ≫= λ y, mapM f l ≫= λ k0, Ok (y :: k0)). split.
    + intros Hm. apply bind_Ok in Hm as (b & Hb & Hm).
      apply bind_Ok in Hm as (k' & Hk' & Hm). injection Hm as <-.
      constructor; [done|]. by apply IH.
    + inversion 1 as [|? b ? k' Hb Hk']; subst.
      apply IH in Hk'. rewrite Hb. cbn [mbind res_bind]. by rewrite Hk'.
Qed.

Lemma mapM_cons {A B : Type} (f : A → res B) (a : A) (l : list A) :
  mapM f (a :: l) = f a ≫= λ y, mapM f l ≫= λ k, Ok (y :: k).
Proof. done. Qed.

Lemma mapM_Raise_1 {A B : Type} (f : A → res B) (l : list A) (exn : pyexn) :
  mapM f l = Raise exn →
  ∃ i a, l !! i = Some a ∧ f a = Raise exn ∧
         ∀ j a', (j < i)%nat → l !! j = Some a' → ∃ b, f a' = Ok b.
Proof.
  induction l as [|a l IH]; [done|].
  rewrite mapM_cons. destruct (f a) as [b|e] eqn:Hfa; cbn [mbind res_bind].
  - intros Hm. destruct IH as (i & a' & Hi & Hraise & Hbefore).
    { destruct (mapM f l); [done|by injection Hm as ->]. }
    exists (S i), a'. split; [done|]. split; [done|].
    intros [|j] a'' Hj Hj'; simplify_eq/=; [eauto|].
    apply (Hbefore j a''); [lia|done].
  - intros [= ->]. exists 0%nat, a. split; [done|]. split; [done|]. intros j a' Hj. lia.
Qed.

Lemma mapM_Raise_2 {A B : Type} (f : A → res B) (l : list A) (exn : pyexn) (i : nat) (a : A) :
  l !! i = Some a → f a = Raise exn →
  (∀ j a', (j < i)%nat → l !! j = Some a' → ∃ b, f a' = Ok b) →
  mapM f l = Raise exn.
Proof.
  revert i. induction l as [|x l IH]; intros i Hi Hraise Hbefore; [done|].
  rewrite mapM_cons. destruct i as [|i]; simplify_eq/=.
  - by rewrite Hraise.
  - destruct (Hbefore 0%nat x) as [b ->]; [lia|done|]. cbn [mbind res_bind].
    rewrite (IH i); [done|done|done|].
    intros j a' Hj Hj'. apply (Hbefore (S j) a'); [lia|done].
Qed.

Lemma mapM_Raise {A B : Type} (f : A → res B) (l : list A) (exn : pyexn) :
  mapM f l = Raise exn ↔
  ∃ i a, l !! i = Some a ∧ f a = Raise exn ∧
         ∀ j a', (j < i)%nat → l !! j = Some a' → ∃ b, f a' = Ok b.
Proof.
  split; [apply mapM_Raise_1|].
  intros (i & a & Hi & Hraise & Hbefore). by eapply mapM_Raise_2.
Qed.

Lemma estimate_layers_Ok `{PyBuiltins} (self : AnalyticEstimator.t)
    (layer_configs : list LayerConfig.t) (executions : list LayerExecution.t) :
  AnalyticEstimator.estimate_layers self layer_configs = Ok executions →
  length executions = length layer_configs ∧
  ∀ i layer_config,
    layer_configs !! i = Some layer_config →
    ∃ e, executions !! i = Some e ∧
         AnalyticEstimator.estimate_layer self layer_config = Ok e ∧
         LayerExecution.layer_name e = LayerConfig.name (LayerConfig.base layer_config) ∧
         LayerExecution.layer_type e = LayerConfig.layer_type (LayerConfig.base layer_config).
Proof.
  unfold AnalyticEstimator.estimate_layers.
  intros Hm%mapM_Ok. split; [symmetry; by eapply Forall2_length|].
  intros i layer_config Hi.
  destruct (Forall2_lookup_l _ _ _ _ _ Hm Hi) as (e & He & Hest).
  exists e. split; [done|]. split; [done|].
  by apply estimate_layer_fields in Hest as (_ & _ & ? & ? & _).
Qed.

(** X14: [estimate_layers] returns one execution per configuration, in the
    order of the configurations, each the dispatcher's result for its
    configuration and carrying that configuration's name and type; it
    raises exactly the exception of the first layer that fails. *)
Theorem X14_estimate_layers_order `{PyBuiltins} (self : AnalyticEstimator.t)
    (layer_configs : list LayerConfig.t) :
  (∀ executions,
     AnalyticEstimator.estimate_layers self layer_configs = Ok executions →
     length executions = length layer_configs ∧
     ∀ i layer_config,
       layer_configs !! i = Some layer_config →
       ∃ e, executions !! i = Some e ∧
            AnalyticEstimator.estimate_layer self layer_config = Ok e ∧
            LayerExecution.layer_name e = LayerConfig.name (LayerConfig.base layer_config) ∧
            LayerExecution.layer_type e
              = LayerConfig.layer_type (LayerConfig.base layer_config)) ∧
  (∀ exn,
     AnalyticEstimator.estimate_layers self layer_configs = Raise exn ↔
     ∃ i layer_config,
       layer_configs !! i = Some layer_config ∧
       AnalyticEstimator.estimate_layer self layer_config = Raise exn ∧
       ∀ j earlier, (j < i)%nat → layer_configs !! j = Some earlier →
                    ∃ e, AnalyticEstimator.estimate_layer self earlier = Ok e).
Proof.
  split; [intros executions; apply estimate_layers_Ok|].
  intros exn. apply mapM_Raise.
Qed.

Lemma X14_estimate_layers_order_witness :
  ∃ executions,
    AnalyticEstimator.estimate_layers (H := plain_builtins) estimator_test
      (Scenario.layers scenario_test) = Ok executions ∧
    length executions = 1%nat.
Proof.
  destruct (AnalyticEstimator.estimate_layers (H := plain_builtins) estimator_test
              (Scenario.layers scenario_test)) as [executions|exn] eqn:He;
    [|vm_compute in He; discriminate].
  exists executions. split; [reflexivity|].
  destruct (@X14_estimate_layers_order plain_builtins estimator_test
              (Scenario.layers scenario_test)) as [Hok _].
  exact (proj1 (Hok executions He)).
Defined.

(** ** The whole run *)

Lemma aggregate_Ok (executions : list LayerExecution.t) (r : SimulationResult.t) :
  aggregate executions = Ok r →
  executions ≠ [] ∧
  SimulationResult.layers r = executions ∧
  SimulationResult.total_flops r = py_sum (LayerExecution.flops <$> executions) ∧
  SimulationResult.total_latency_ms r
    = py_sum (LayerExecution.dominant_latency_ms <$> executions) ∧
  (∃ ip p, is_py_max layer_bytes executions ip p ∧
           SimulationResult.peak_memory_bytes r = layer_bytes p) ∧
  (∃ ib b, is_py_max LayerExecution.dominant_latency_ms executions ib b ∧
           SimulationResult.bottleneck_layer r = Some (LayerExecution.layer_name b)).
Proof.
  intros Ha.
  assert (executions ≠ []) as Hne by (by intros ->).
  destruct (aggregate_nonempty executions Hne)
    as (r' & ip & ib & p & b & Hr & Hlayers & Hflops & Hlat & Hpeak & Hpmax & Hbot & Hbmax).
  rewrite Ha in Hr. injection Hr as <-.
  split; [done|]. split; [done|]. split; [done|]. split; [done|].
  split; [by exists ip, p|by exists ib, b].
Qed.

(** X15: when [run_simulation] returns, the scenario had at least one layer,
    the result holds one execution per layer, and the bottleneck is the name
    of one of the scenario's layers, the one layer [max] selects by dominant
    latency: the first layer when its latency is [nan], and otherwise the
    first of the layers with the largest latency among those whose latency
    is a number.  For a scenario of a single layer the bottleneck is that
    layer's name and the totals are that layer's own numbers. *)
Theorem X15_run_simulation_result `{PyBuiltins} (scenario : Scenario.t)
    (runtime : RuntimeSpec.t) (estimator : option AnalyticEstimator.t)
    (r : SimulationResult.t) :
  run_simulation scenario runtime estimator = Ok r →
  Scenario.layers scenario ≠ [] ∧
  length (SimulationResult.layers r) = length (Scenario.layers scenario) ∧
  (∃ i layer_config e,
     Scenario.layers scenario !! i = Some layer_config ∧
     SimulationResult.layers r !! i = Some e ∧
     is_py_max LayerExecution.dominant_latency_ms (SimulationResult.layers r) i e ∧
     (∀ j e', is_py_max LayerExecution.dominant_latency_ms (SimulationResult.layers r) j e' →
              j = i ∧ e' = e) ∧
     SimulationResult.bottleneck_layer r
       = Some (LayerConfig.name (LayerConfig.base layer_config))) ∧
  (∀ layer_config,
     Scenario.layers scenario = [layer_config] →
     ∃ e, SimulationResult.layers r = [e] ∧
          SimulationResult.bottleneck_layer r
            = Some (LayerConfig.name (LayerConfig.base layer_config)) ∧
          SimulationResult.total_flops r = LayerExecution.flops e ∧
          SimulationResult.total_latency_ms r = LayerExecution.dominant_latency_ms e ∧
          SimulationResult.peak_memory_bytes r = layer_bytes e).
Proof.
  unfold run_simulation. intros Hrun.
  apply bind_Ok in Hrun as (executions & Hest & Hagg).
  set (self := match estimator with
               | Some e => e
               | None => AnalyticEstimator.Build_t (Scenario.hardware scenario) runtime
               end) in Hest.
  destruct (estimate_layers_Ok self (Scenario.layers scenario) executions Hest)
    as [Hlen Hnames].
  apply aggregate_Ok in Hagg
    as (Hne & Hlayers & Hflops & Hlat & (ip & p & Hpmax & Hpeak) & (ib & b & Hbmax & Hbot)).
  rewrite Hlayers.
  split; [intros Hnil; rewrite Hnil in Hlen; by destruct executions|].
  split; [done|]. split.
  - pose proof Hbmax as [Hib _].
    destruct (lookup_lt_is_Some_2 (Scenario.layers scenario) ib) as [cfg Hcfg].
    { rewrite <- Hlen. by eapply lookup_lt_Some. }
    destruct (Hnames ib cfg Hcfg) as (e & He & _ & Hname & _).
    assert (e = b) as -> by congruence.
    exists ib, cfg, b. split; [done|]. split; [done|]. split; [done|].
    split; [intros j e' Hj; by apply (is_py_max_unique _ _ _ _ _ _ Hj Hbmax)|].
    by rewrite Hbot, Hname.
  - intros layer_config Hone. rewrite Hone in Hlen, Hnames.
    destruct executions as [|e [|e' executions]]; try done.
    destruct (Hnames 0%nat layer_config eq_refl) as (e0 & [= <-] & _ & Hname & _).
    exists e. split; [done|].
    destruct Hbmax as (Hib & _). destruct Hpmax as (Hip & _).
    destruct ib as [|ib]; [|done]. destruct ip as [|ip]; [|done].
    injection Hib as <-. injection Hip as <-.
    split; [by rewrite Hbot, Hname|].
    rewrite Hflops, Hlat, Hpeak. cbn [fmap list_fmap]. by rewrite !py_sum_singleton.
Qed.

Lemma X15_run_simulation_result_witness :
  ∃ r, run_simulation (H := plain_builtins) scenario_test runtime_test None = Ok r ∧
       SimulationResult.bottleneck_layer r = Some "ffn_0".
Proof.
  destruct (run_simulation (H := plain_builtins) scenario_test runtime_test None)
    as [r|exn] eqn:Hr; [|vm_compute in Hr; discriminate].
  exists r. split; [reflexivity|].
  destruct (@X15_run_simulation_result plain_builtins _ _ _ r Hr) as (_ & _ & _ & Hone).
  destruct (Hone _ eq_refl) as (e & _ & Hbot & _). exact Hbot.
Defined.

(** ** Loading the hardware profile *)

Lemma hardware_from_dict_Ok `{PyBuiltins} (data : dict) (hw : HardwareSpec.t) :
  hardware_from_dict data = Ok hw →
  ∃ name peak memory hbm interconnect,
    data !! "name" = Some name ∧
    data !! "peak_tflops" = Some peak ∧
    data !! "memory_bandwidth_gbps" = Some memory ∧
    data !! "hbm_gb" = Some hbm ∧
    data !! "interconnect_gbps" = Some interconnect ∧
    HardwareSpec.name hw = py_str name ∧
    py_float peak = Ok (HardwareSpec.peak_tflops hw) ∧
    py_float memory = Ok (HardwareSpec.memory_bandwidth_gbps hw) ∧
    py_float hbm = Ok (HardwareSpec.hbm_gb hw) ∧
    py_float interconnect = Ok (HardwareSpec.interconnect_gbps hw) ∧
    py_int (dict_get data "max_concurrency" (VInt 1)) = Ok (HardwareSpec.max_concurrency hw) ∧
    py_float (dict_get data "overlap_efficiency" (VFloat f1))
      = Ok (HardwareSpec.overlap_efficiency hw).
Proof.
  unfold hardware_from_dict. intros Hd.
  destruct (data !! "name") as [name|]; [|done].
  destruct (data !! "peak_tflops") as [peak|]; [|done].
  destruct (data !! "memory_bandwidth_gbps") as [memory|]; [|done].
  destruct (data !! "hbm_gb") as [hbm|]; [|done].
  destruct (data !! "interconnect_gbps") as [interconnect|]; [|done].
  apply bind_Ok in Hd as (p & Hp & Hd). apply bind_Ok in Hd as (m & Hm & Hd).
  apply bind_Ok in Hd as (g & Hg & Hd). apply bind_Ok in Hd as (i & Hi & Hd).
  apply bind_Ok in Hd as (c & Hc & Hd). apply bind_Ok in Hd as (o & Ho & Hd).
  injection Hd as <-. by exists name, peak, memory, hbm, interconnect.
Qed.

(** X16: [hardware_from_dict] raises [ValueError] when any of the five
    required keys is missing, whatever else the mapping holds; when it
    returns, every required key was present and each rate is [float] of the
    value stored under its key. *)
Theorem X16_hardware_required_keys `{PyBuiltins} (data : dict) :
  (∀ key, key ∈ hardware_required → data !! key = None →
          hardware_from_dict data = Raise ValueError) ∧
  (∀ hw, hardware_from_dict data = Ok hw →
         (∀ key, key ∈ hardware_required → is_Some (data !! key)) ∧
         (py_float <$> data !! "peak_tflops") = Some (Ok (HardwareSpec.peak_tflops hw)) ∧
         (py_float <$> data !! "memory_bandwidth_gbps")
           = Some (Ok (HardwareSpec.memory_bandwidth_gbps hw)) ∧
         (py_float <$> data !! "hbm_gb") = Some (Ok (HardwareSpec.hbm_gb hw)) ∧
         (py_float <$> data !! "interconnect_gbps")
           = Some (Ok (HardwareSpec.interconnect_gbps hw))).
Proof.
  split.
  - intros key Hkey Hnone. unfold hardware_from_dict, hardware_required in *.
    repeat (apply elem_of_cons in Hkey as [->|Hkey];
            [rewrite Hnone; by repeat case_match|]).
    by apply elem_of_nil in Hkey.
  - intros hw Hd. apply hardware_from_dict_Ok in Hd
      as (name & peak & memory & hbm & interconnect & Hn & Hp & Hm & Hh & Hi
          & _ & Hpeak & Hmem & Hhbm & Hic & _).
    split.
    + intros key Hkey. unfold hardware_required in Hkey.
      repeat (apply elem_of_cons in Hkey as [->|Hkey]; [eauto|]).
      by apply elem_of_nil in Hkey.
    + rewrite Hp, Hm, Hh, Hi. cbn [fmap option_fmap option_map].
      by rewrite Hpeak, Hmem, Hhbm, Hic.
Qed.

Lemma X16_hardware_required_keys_witness :
  hardware_from_dict (H := plain_builtins) (delete "hbm_gb" hardware_test_config)
    = Raise ValueError.
Proof.
  destruct (@X16_hardware_required_keys plain_builtins
              (delete "hbm_gb" hardware_test_config)) as [Hmissing _].
  apply (Hmissing "hbm_gb"); [|reflexivity].
  unfold hardware_required. do 3 right. left.
Defined.

Lemma dominant_latency_ms_default_overlap (c m : pyfloat) (hw : HardwareSpec.t) :
  HardwareSpec.overlap_efficiency hw = f1 →
  dominant_latency_ms c m hw = Ok (fmax c m).
Proof.
  intros Ho. rewrite dominant_latency_ms_eq.
  unfold HardwareSpec.effective_overlap. rewrite Ho.
  change (fmax f1 f1e_3) with f1. by rewrite fquot_1.
Qed.

(** X17: a hardware mapping without the optional keys loads with
    [max_concurrency = 1] and [overlap_efficiency = 1.0], and on such
    hardware the dominant latency of any compute and memory time is their
    plain maximum. *)
Theorem X17_hardware_defaults `{PyBuiltins} (data : dict) (hw : HardwareSpec.t) :
  hardware_from_dict data = Ok hw →
  (data !! "max_concurrency" = None → HardwareSpec.max_concurrency hw = 1) ∧
  (data !! "overlap_efficiency" = None →
   HardwareSpec.overlap_efficiency hw = f1 ∧
   HardwareSpec.effective_overlap hw = f1 ∧
   ∀ compute_ms memory_ms,
     dominant_latency_ms compute_ms memory_ms hw = Ok (fmax compute_ms memory_ms)).
Proof.
  intros Hd. apply hardware_from_dict_Ok in Hd
    as (name & peak & memory & hbm & interconnect & _ & _ & _ & _ & _ & _ & _ & _ & _ & _
        & Hc & Ho).
  unfold dict_get in Hc, Ho. split.
  - intros Hnone. rewrite Hnone in Hc. by injection Hc as <-.
  - intros Hnone. rewrite Hnone in Ho. injection Ho as Ho. symmetry in Ho.
    split; [done|]. split.
    + unfold HardwareSpec.effective_overlap. by rewrite Ho.
    + intros c m. by apply dominant_latency_ms_default_overlap.
Qed.

Lemma X17_hardware_defaults_witness :
  ∃ hw, hardware_from_dict (H := plain_builtins) hardware_test_config = Ok hw ∧
        HardwareSpec.overlap_efficiency hw = f1 ∧ HardwareSpec.max_concurrency hw = 1.
Proof.
  destruct (hardware_from_dict (H := plain_builtins) hardware_test_config)
    as [hw|exn] eqn:Hd; [|vm_compute in Hd; discriminate].
  exists hw. split; [reflexivity|].
  destruct (@X17_hardware_defaults plain_builtins _ hw Hd) as [Hc Ho].
  split; [exact (proj1 (Ho eq_refl))|exact (Hc eq_refl)].
Defined.

(** ** Configuration normalisation *)

Lemma fmax_of_Z_1 (t : Z) : fmax (of_Z t) f1 = of_Z (Z.max t 1).
Proof.
  unfold fmax, fgtb, f1, of_Z. cbn [fltb].
  destruct (Qc_ltb (Qc_of_Z t) (Qc_of_Z 1)) eqn:Hlt.
  - apply Qc_ltb_true in Hlt. apply (proj2 (Z2Qc_inj_lt t 1)) in Hlt.
    by rewrite Z.max_r by lia.
  - apply Qc_ltb_false in Hlt. apply (proj2 (Z2Qc_inj_le 1 t)) in Hlt.
    by rewrite Z.max_l by lia.
Qed.

Lemma fmax_1_floor (x : pyfloat) : fltb (fmax x f1) f1 = false.
Proof.
  destruct (fmax_cases x f1) as [[_ ->]|[Hgt ->]]; [apply fltb_irrefl|done].
Qed.

(** X18: [MoEConfig.from_dict] never returns a configuration with fewer
    than one expert, a [top_k] or [num_groups] below one, or an average
    number of experts per token below [1.0]; and when the mapping has no
    [num_experts_per_tok], the average is the normalised [top_k]. *)
Theorem X18_moe_config_floors `{PyBuiltins} (data : dict) (cfg : MoEConfig.t) :
  MoEConfig.from_dict data = Ok cfg →
  1 ≤ MoEConfig.num_experts cfg ∧
  1 ≤ MoEConfig.top_k cfg ∧
  1 ≤ MoEConfig.num_groups cfg ∧
  fltb (MoEConfig.avg_experts_per_token cfg) f1 = false ∧
  (data !! "num_experts_per_tok" = None →
   MoEConfig.avg_experts_per_token cfg = of_Z (MoEConfig.top_k cfg)).
Proof.
  unfold MoEConfig.from_dict. intros Hd.
  apply bind_Ok in Hd as (d_model & _ & Hd). apply bind_Ok in Hd as (hidden & _ & Hd).
  apply bind_Ok in Hd as (num_experts & _ & Hd). apply bind_Ok in Hd as (top_k & _ & Hd).
  apply bind_Ok in Hd as (avg & Havg & Hd). apply bind_Ok in Hd as (num_groups & _ & Hd).
  apply bind_Ok in Hd as (dtype_bits & _ & Hd). injection Hd as <-.
  cbn [MoEConfig.num_experts MoEConfig.top_k MoEConfig.num_groups
       MoEConfig.avg_experts_per_token].
  split; [lia|]. split; [lia|]. split; [lia|]. split; [apply fmax_1_floor|].
  intros Hnone. unfold dict_get in Havg. rewrite Hnone in Havg.
  cbn [py_float] in Havg. injection Havg as <-. apply fmax_of_Z_1.
Qed.

Lemma X18_moe_config_floors_witness :
  ∃ cfg, MoEConfig.from_dict (H := plain_builtins)
           (py_dict [("top_k", VInt (-3)); ("n_group", VInt 0)]) = Ok cfg ∧
         1 ≤ MoEConfig.num_groups cfg ∧
         MoEConfig.avg_experts_per_token cfg = of_Z (MoEConfig.top_k cfg).
Proof.
  destruct (MoEConfig.from_dict (H := plain_builtins)
              (py_dict [("top_k", VInt (-3)); ("n_group", VInt 0)]))
    as [cfg|exn] eqn:Hd; [|vm_compute in Hd; discriminate].
  exists cfg. split; [reflexivity|].
  destruct (@X18_moe_config_floors plain_builtins _ cfg Hd) as (_ & _ & Hg & _ & Havg).
  split; [exact Hg|exact (Havg eq_refl)].
Defined.

(** A mapping all of whose values are whole numbers. *)
Lemma dict_get_int (data : dict) (key : string) (dflt : pyvalue) :
  (∀ k v, data !! k = Some v → ∃ z, v = VInt z) →
  (∃ z, dflt = VInt z) →
  ∃ z, dict_get data key dflt = VInt z.
Proof.
  intros Hints Hdflt. unfold dict_get.
  destruct (data !! key) as [v|] eqn:Hv; [by eapply Hints|done].
Qed.

Ltac get_int Hints key dflt :=
  let z := fresh "z" in
  let Hz := fresh "Hz" in
  destruct (dict_get_int _ key dflt Hints) as [z Hz]; [eauto|]; rewrite Hz;
  cbn [py_int py_float mbind res_bind].

(** X19: on a mapping whose values are all modest whole numbers, none of
    the four [from_dict] normalisations raises; and for a modest batch size
    and sequence length and a [layer_id] a double holds exactly, an FFN or
    Communication layer configured by such a mapping is estimated. *)
Theorem X19_whole_number_mappings_load `{PyBuiltins} (data : dict) :
  (∀ k v, data !! k = Some v → ∃ z, v = VInt z ∧ modest z) →
  (∃ cfg, AttentionConfig.from_dict data = Ok cfg) ∧
  (∃ cfg, FFNConfig.from_dict data = Ok cfg) ∧
  (∃ cfg, MoEConfig.from_dict data = Ok cfg) ∧
  (∃ cfg, CommunicationConfig.from_dict data = Ok cfg) ∧
  (∀ self h,
     modest (RuntimeSpec.batch_size (AnalyticEstimator.runtime self)) →
     modest (RuntimeSpec.seq_len (AnalyticEstimator.runtime self)) →
     exact_int (LayerConfig.layer_id h) →
     ∃ e, AnalyticEstimator.estimate_layer self (LayerConfig.FFNLayerConfig h data) = Ok e) ∧
  (∀ self h,
     modest (RuntimeSpec.batch_size (AnalyticEstimator.runtime self)) →
     modest (RuntimeSpec.seq_len (AnalyticEstimator.runtime self)) →
     exact_int (LayerConfig.layer_id h) →
     ∃ e, AnalyticEstimator.estimate_layer self (LayerConfig.CommunicationLayerConfig h data)
          = Ok e).
Proof.
  intros Hmodest.
  assert (∀ k v, data !! k = Some v → ∃ z, v = VInt z) as Hints.
  { intros k v Hk. destruct (Hmodest k v Hk) as (z & -> & _). eauto. }
  assert (∃ cfg, FFNConfig.from_dict data = Ok cfg) as [ffn Hffn].
  { unfold FFNConfig.from_dict.
    get_int Hints "d_model" (VInt 768).
    destruct (dict_get_int data "intermediate_size" (VInt 3072) Hints) as [w ->]; [eauto|].
    get_int Hints "d_ff" (VInt w).
    get_int Hints "dtype_bits" (VInt DEFAULT_DTYPE_BITS). eauto. }
  assert (∃ cfg, CommunicationConfig.from_dict data = Ok cfg) as [comm Hcomm].
  { unfold CommunicationConfig.from_dict.
    destruct (data !! "payload_mb") as [v|] eqn:Hv; unfold dict_get; rewrite Hv.
    - destruct (Hints _ _ Hv) as [z ->]. cbn [py_float mbind res_bind]. eauto.
    - cbn [py_float mbind res_bind]. eauto. }
  split.
  { unfold AttentionConfig.from_dict.
    get_int Hints "d_model" (VInt 768).
    destruct (dict_get_int data "num_heads" (VInt 8) Hints) as [w ->]; [eauto|].
    get_int Hints "num_attention_heads" (VInt w).
    get_int Hints "dtype_bits" (VInt DEFAULT_DTYPE_BITS). eauto. }
  split; [eauto|]. split.
  { unfold MoEConfig.from_dict.
    destruct (dict_get_int data "model_dim" (VInt 768) Hints) as [w1 ->]; [eauto|].
    get_int Hints "d_model" (VInt w1).
    destruct (dict_get_int data "d_ff" (VInt 3072) Hints) as [w2 ->]; [eauto|].
    get_int Hints "moe_intermediate_size" (VInt w2).
    destruct (dict_get_int data "num_experts" (VInt 1) Hints) as [w3 ->]; [eauto|].
    get_int Hints "n_routed_experts" (VInt w3).
    destruct (dict_get_int data "num_experts_per_tok" (VInt 1) Hints) as [w4 ->]; [eauto|].
    destruct (dict_get_int data "top_k" (VInt w4) Hints) as [w5 ->]; [eauto|].
    get_int Hints "topk_group" (VInt w5).
    match goal with
    | |- context [dict_get data "num_experts_per_tok" (VInt ?t)] =>
        destruct (dict_get_int data "num_experts_per_tok" (VInt t) Hints) as [w6 ->]; [eauto|]
    end.
    cbn [py_float mbind res_bind].
    destruct (dict_get_int data "num_groups" (VInt 1) Hints) as [w7 ->]; [eauto|].
    get_int Hints "n_group" (VInt w7).
    get_int Hints "dtype_bits" (VInt DEFAULT_DTYPE_BITS). eauto. }
  split; [eauto|]. split.
  - intros self h _ _ Hid.
    unfold AnalyticEstimator.estimate_layer, AnalyticEstimator.module_estimate,
      FFN.init. rewrite Hffn. cbn [mbind res_bind].
    match goal with
    | |- context [FFN.estimate_execution_time ?m ?b ?s ?hw] =>
        destruct (FFN_estimate_total m b s hw) as [e ->]
    end.
    cbn [mbind res_bind]. unfold AnalyticEstimator.back_fill.
    cbn [LayerConfig.base]. rewrite float_of_int_exact by done.
    cbn [mbind res_bind]. eauto.
  - intros self h _ _ Hid.
    unfold AnalyticEstimator.estimate_layer, AnalyticEstimator.module_estimate,
      Communication.init. rewrite Hcomm. cbn [mbind res_bind].
    match goal with
    | |- context [Communication.estimate_execution_time ?m ?b ?s ?hw] =>
        destruct (Communication_estimate_total m b s hw) as [e ->]
    end.
    cbn [mbind res_bind]. unfold AnalyticEstimator.back_fill.
    cbn [LayerConfig.base]. rewrite float_of_int_exact by done.
    cbn [mbind res_bind]. eauto.
Qed.

Lemma X19_whole_number_mappings_load_witness :
  ∃ e, AnalyticEstimator.estimate_layer (H := plain_builtins) estimator_test
         (LayerConfig.FFNLayerConfig (header_test "ffn" "ffn_0" 0) ffn_test_config) = Ok e.
Proof.
  destruct (@X19_whole_number_mappings_load plain_builtins ffn_test_config)
    as (_ & _ & _ & _ & Hffn & _).
  - intros k v Hk. unfold ffn_test_config, py_dict in Hk. cbn [fold_left fst snd] in Hk.
    apply lookup_insert_Some in Hk as [[_ <-]|[_ Hk]];
      [eexists; split; [reflexivity|]; vm_compute; discriminate|].
    apply lookup_insert_Some in Hk as [[_ <-]|[_ Hk]];
      [eexists; split; [reflexivity|]; vm_compute; discriminate|].
    by rewrite lookup_empty in Hk.
  - apply (Hffn estimator_test (header_test "ffn" "ffn_0" 0));
      vm_compute; discriminate.
Defined.

(** X20: an explicit [null] is not a missing key: a mapping that stores
    [None] under [d_model] makes the Attention, FFN and MoE normalisations
    raise [TypeError], while the empty mapping loads with the defaults
    [d_model = 768], eight heads, [d_ff = 3072] and sixteen bits. *)
Theorem X20_null_is_not_missing `{PyBuiltins} (data : dict) :
  (data !! "d_model" = Some VNone →
   AttentionConfig.from_dict data = Raise TypeError ∧
   FFNConfig.from_dict data = Raise TypeError ∧
   MoEConfig.from_dict data = Raise TypeError) ∧
  AttentionConfig.from_dict ∅ = Ok (AttentionConfig.Build_t 768 8 VNone 16) ∧
  FFNConfig.from_dict ∅ = Ok (FFNConfig.Build_t 768 3072 16) ∧
  MoEConfig.from_dict ∅ = Ok (MoEConfig.Build_t 768 3072 1 1 f1 1 16) ∧
  CommunicationConfig.from_dict ∅ = Ok (CommunicationConfig.Build_t "all_to_all" f1).
Proof.
  split; [|by repeat split].
  intros Hnull.
  assert (∀ dflt, dict_get data "d_model" dflt = VNone) as Hget.
  { intros dflt. unfold dict_get. by rewrite Hnull. }
  unfold AttentionConfig.from_dict, FFNConfig.from_dict, MoEConfig.from_dict.
  by rewrite !Hget.
Qed.

Lemma X20_null_is_not_missing_witness :
  FFNConfig.from_dict (H := plain_builtins) (py_dict [("d_model", VNone)]) = Raise TypeError.
Proof.
  destruct (@X20_null_is_not_missing plain_builtins (py_dict [("d_model", VNone)]))
    as [Hnull _].
  exact (proj1 (proj2 (Hnull eq_refl))).
Defined.

(** X21: with no explicit head size and at least one head, [qkv_dim] is
    [d_model] rounded down to a multiple of [num_heads]: it never exceeds
    [d_model], falls short of it by less than [num_heads], and equals it
    when [num_heads] divides [d_model]. *)
Theorem X21_qkv_dim_rounds_down `{PyBuiltins} (cfg : AttentionConfig.t) :
  AttentionConfig.head_dim cfg = VNone →
  1 ≤ AttentionConfig.num_heads cfg →
  ∃ qkv_dim,
    AttentionConfig.qkv_dim cfg = Ok qkv_dim ∧
    AttentionConfig.d_model cfg - AttentionConfig.num_heads cfg < qkv_dim
      ≤ AttentionConfig.d_model cfg ∧
    (AttentionConfig.num_heads cfg | qkv_dim) ∧
    ((AttentionConfig.num_heads cfg | AttentionConfig.d_model cfg) →
     qkv_dim = AttentionConfig.d_model cfg).
Proof.
  intros Hnone Hheads.
  unfold AttentionConfig.qkv_dim, AttentionConfig.resolved_head_dim. rewrite Hnone.
  cbn [mbind res_bind]. rewrite Z.max_l by lia.
  eexists. split; [done|].
  pose proof (Z.div_mod (AttentionConfig.d_model cfg) (AttentionConfig.num_heads cfg)) as Hdm.
  pose proof (Z.mod_pos_bound (AttentionConfig.d_model cfg) (AttentionConfig.num_heads cfg))
    as Hmod.
  split; [lia|]. split; [by apply Z.divide_factor_l|].
  intros Hdiv. apply Z.mod_divide in Hdiv; [|lia]. lia.
Qed.

Lemma X21_qkv_dim_rounds_down_witness :
  ∃ qkv_dim,
    AttentionConfig.qkv_dim (H := plain_builtins) (AttentionConfig.Build_t 100 8 VNone 16)
      = Ok qkv_dim ∧ 92 < qkv_dim ≤ 100.
Proof.
  destruct (@X21_qkv_dim_rounds_down plain_builtins (AttentionConfig.Build_t 100 8 VNone 16))
    as (q & Hq & Hbound & _); [reflexivity|simpl; lia|].
  exists q. split; [exact Hq|exact Hbound].
Defined.

(** ** Closed forms *)

(** X22: the FLOPs of an attention layer in closed form.  With
    [tokens = batch*seq] and [qkv_dim = num_heads*head_dim], the four fused
    operations add up to
    [8*tokens*qkv_dim*d_model + 4*batch*num_heads*seq*seq*head_dim
     + batch*num_heads*seq*seq], for sizes of at least one, a modest
    [dtype_bits] and a total a double holds exactly: every product and
    partial sum on the way is then a whole number no larger than the
    total. *)
Theorem X22_attention_flops_closed_form `{PyBuiltins} (attn : Attention.t)
    (batch seq head_dim : Z) :
  AttentionConfig.resolved_head_dim (Attention.config attn) = Ok head_dim →
  let d_model := AttentionConfig.d_model (Attention.config attn) in
  let num_heads := AttentionConfig.num_heads (Attention.config attn) in
  let tokens := batch * seq in
  let qkv_dim := num_heads * head_dim in
  let total :=
    8 * tokens * qkv_dim * d_model
    + 4 * batch * num_heads * seq * seq * head_dim
    + batch * num_heads * seq * seq in
  1 ≤ batch → 1 ≤ seq → 1 ≤ num_heads → 1 ≤ head_dim → 1 ≤ d_model →
  modest (AttentionConfig.dtype_bits (Attention.config attn)) →
  exact_int total →
  Attention.analytic_flops attn batch seq = Ok (of_Z total).
Proof.
  intros Hhd d_model num_heads tokens qkv_dim total _ _ _ _ _ _ _.
  unfold Attention.analytic_flops, Attention._metrics, AttentionConfig.qkv_dim.
  rewrite Hhd. cbn [mbind res_bind fmap list_fmap].
  unfold attention_qkv_projections, attention_scores, attention_weighted_sum,
    attention_output_projection, matmul_flops, py_sum, f3.
  cbn [FusionMetrics.flops fold_left].
  rewrite fadd_0_l, !fmul_of_Z, !fadd_of_Z. do 2 f_equal.
  fold d_model num_heads. unfold total, tokens, qkv_dim. ring.
Qed.

Lemma X22_attention_flops_closed_form_witness :
  Attention.analytic_flops (H := plain_builtins)
    (Attention.Build_t (AttentionConfig.Build_t 128 8 (VInt 16) 16) ∅) 4 128
  = Ok (of_Z (8 * (4 * 128) * (8 * 16) * 128 + 4 * 4 * 8 * 128 * 128 * 16
              + 4 * 8 * 128 * 128)).
Proof.
  apply (@X22_attention_flops_closed_form plain_builtins
           (Attention.Build_t (AttentionConfig.Build_t 128 8 (VInt 16) 16) ∅) 4 128 16
           eq_refl); vm_compute; discriminate.
Defined.

Lemma tensor_elements_3 (a b c : Z) :
  0 ≤ a → 0 ≤ b → tensor_elements [a; b; c] = tensor_elements [a * b; c].
Proof.
  intros Ha Hb. unfold tensor_elements. simpl.
  assert (0 ≤ a * b) as Hab by (by apply Z.mul_nonneg_nonneg).
  rewrite (Z.max_l a), (Z.max_l b), (Z.max_l (a * b)) by done. ring.
Qed.

(** X23: an expert's forward pass costs the FLOPs of an FFN layer over the
    same number of tokens: the two add the same three terms in the same
    order.  For non-negative sizes and a total a double holds exactly these
    FLOPs are [4*tokens*d_ff*d_model + tokens*d_ff].  For non-negative batch,
    sequence length and [dtype_bits], and a bit count of the FFN's tensors a
    double holds exactly, the FFN moves exactly one hidden activation more
    than the expert. *)
Theorem X23_ffn_and_expert (batch seq d_model hidden dtype_bits : Z) :
  let ffn := ffn_activation batch seq d_model hidden dtype_bits in
  let expert := moe_expert_forward (batch * seq) d_model hidden dtype_bits in
  let tokens := batch * seq in
  let ffn_elements :=
    tensor_elements [batch; seq; d_model] + 2 * tensor_elements [batch; seq; hidden]
    + 2 * tensor_elements [d_model; hidden] in
  FusionMetrics.flops expert = FusionMetrics.flops ffn ∧
  (0 ≤ tokens → 0 ≤ d_model → 0 ≤ hidden →
   exact_int (4 * tokens * hidden * d_model + tokens * hidden) →
   FusionMetrics.flops ffn = of_Z (4 * tokens * hidden * d_model + tokens * hidden)) ∧
  (0 ≤ batch → 0 ≤ seq → 0 ≤ dtype_bits →
   exact_int (ffn_elements * dtype_bits) →
   FusionMetrics.bytes_accessed ffn
     = fadd (FusionMetrics.bytes_accessed expert)
            (tensor_bytes [batch; seq; hidden] dtype_bits)).
Proof.
  intros ffn expert tokens ffn_elements.
  unfold ffn, expert, ffn_activation, moe_expert_forward, matmul_flops.
  cbn [FusionMetrics.flops FusionMetrics.bytes_accessed].
  split; [done|]. split; [intros _ _ _ _; rewrite !fadd_of_Z; f_equal; unfold tokens; ring|].
  intros Hb Hs _ _. unfold tensor_bytes.
  rewrite !(tensor_elements_3 batch seq) by done.
  unfold f8, of_Z. cbn [fquot fmul fadd]. f_equal.
  rewrite Z2Qc_inj_2. ring.
Qed.

Lemma X23_ffn_and_expert_witness :
  FusionMetrics.bytes_accessed (ffn_activation 2 32 256 1024 16)
  = fadd (FusionMetrics.bytes_accessed (moe_expert_forward (2 * 32) 256 1024 16))
         (tensor_bytes [2; 32; 1024] 16).
Proof.
  destruct (X23_ffn_and_expert 2 32 256 1024 16) as (_ & _ & Hbytes).
  apply Hbytes; [lia..|]. vm_compute. discriminate.
Defined.

(** ** Reporting *)

Lemma layer_row_lookup (layer : LayerExecution.t) (result : SimulationResult.t) (i : nat) :
  SimulationResult.layers result !! i = Some layer →
  ∃ row, layer_table result !! i = Some row ∧
         row !! "layer" = Some (VStr (LayerExecution.layer_name layer)) ∧
         row !! "gflops" = Some (VFloat (fquot (LayerExecution.flops layer) f1e9)) ∧
         row !! "latency_ms" = Some (VFloat (LayerExecution.dominant_latency_ms layer)).
Proof.
  intros Hi. unfold layer_table. rewrite list_lookup_fmap, Hi. cbn [fmap option_fmap option_map].
  eexists. split; [done|]. unfold py_dict. cbn [fold_left fst snd].
  repeat split; by rewrite ?lookup_insert_ne by done; rewrite lookup_insert_eq.
Qed.

Lemma summary_row_lookup (result : SimulationResult.t) :
  summary_row result !! "total_latency_ms"
    = Some (VFloat (SimulationResult.total_latency_ms result)) ∧
  summary_row result !! "total_flops_g"
    = Some (VFloat (fquot (SimulationResult.total_flops result) f1e9)) ∧
  summary_row result !! "bottleneck_layer"
    = Some (match SimulationResult.bottleneck_layer result with
            | Some name => VStr name
            | None => VNone
            end).
Proof.
  unfold summary_row, py_dict. cbn [fold_left fst snd].
  repeat split; by rewrite ?lookup_insert_ne by done; rewrite lookup_insert_eq.
Qed.

Lemma layer_table_columns (result : SimulationResult.t) :
  table_column "latency_ms" (layer_table result)
    = VFloat <$> (LayerExecution.dominant_latency_ms <$> SimulationResult.layers result) ∧
  table_column "gflops" (layer_table result)
    = VFloat <$> ((λ e, fquot (LayerExecution.flops e) f1e9)
                    <$> SimulationResult.layers result).
Proof.
  unfold table_column, layer_table. rewrite <- !list_fmap_compose.
  split; apply list_fmap_ext; intros i e _; unfold compose, py_dict;
    cbn [fold_left fst snd];
    by rewrite ?lookup_insert_ne by done; rewrite lookup_insert_eq.
Qed.

(** X24: the reports agree with each other.  For the result of an
    aggregation, [layer_table] has one row per layer in order, the
    [total_latency_ms] of [summary_row] is the sum of the table's
    [latency_ms] column, taken in row order, its [total_flops_g] is the sum
    of the FLOPs behind the [gflops] column, divided by [1e9] once, and its
    [bottleneck_layer] is the [layer] of one of the rows. *)
Theorem X24_reports_agree (executions : list LayerExecution.t) (r : SimulationResult.t) :
  aggregate executions = Ok r →
  length (layer_table r) = length executions ∧
  (∀ i e, executions !! i = Some e →
          ∃ row, layer_table r !! i = Some row ∧
                 row !! "layer" = Some (VStr (LayerExecution.layer_name e))) ∧
  (∃ latencies flops : list pyfloat,
     table_column "latency_ms" (layer_table r) = VFloat <$> latencies ∧
     table_column "gflops" (layer_table r) = (λ x, VFloat (fquot x f1e9)) <$> flops ∧
     summary_row r !! "total_latency_ms" = Some (VFloat (py_sum latencies)) ∧
     summary_row r !! "total_flops_g" = Some (VFloat (fquot (py_sum flops) f1e9))) ∧
  (∃ i row, layer_table r !! i = Some row ∧
            summary_row r !! "bottleneck_layer" = row !! "layer").
Proof.
  intros Hagg. apply aggregate_Ok in Hagg
    as (Hne & Hlayers & Hflops & Hlat & _ & (ib & b & (Hib & _) & Hbot)).
  split; [unfold layer_table; by rewrite length_fmap, Hlayers|]. split.
  { intros i e Hi. rewrite <- Hlayers in Hi.
    destruct (layer_row_lookup e r i Hi) as (row & Hrow & Hname & _). eauto. }
  split.
  - exists (LayerExecution.dominant_latency_ms <$> executions),
           (LayerExecution.flops <$> executions).
    destruct (layer_table_columns r) as [Hcl Hcg].
    destruct (summary_row_lookup r) as (Hsl & Hsf & _).
    rewrite Hlayers in Hcl, Hcg.
    rewrite Hcl, Hcg, Hsl, Hsf, Hlat, Hflops.
    split; [done|]. split; [|done].
    by rewrite <- !list_fmap_compose.
  - rewrite <- Hlayers in Hib.
    destruct (layer_row_lookup b r ib Hib) as (row & Hrow & Hname & _).
    exists ib, row. split; [done|]. rewrite Hname.
    destruct (summary_row_lookup r) as (_ & _ & ->). by rewrite Hbot.
Qed.

Lemma X24_reports_agree_witness :
  ∃ r latencies,
    aggregate executions_test = Ok r ∧
    table_column "latency_ms" (layer_table r) = VFloat <$> latencies ∧
    summary_row r !! "total_latency_ms" = Some (VFloat (py_sum latencies)).
Proof.
  destruct (aggregate executions_test) as [r|exn] eqn:Hr; [|vm_compute in Hr; discriminate].
  destruct (X24_reports_agree executions_test r Hr)
    as (_ & _ & (latencies & flops & Hcol & _ & Hsum & _) & _).
  exists r, latencies. split; [reflexivity|]. split; [exact Hcol|exact Hsum].
Defined.

(** ** The raw dictionaries *)

Lemma OFloat_inj : Inj (=) (=) OFloat.
Proof. by intros ?? [=]. Qed.

Lemma ODict_inj : Inj (=) (=) ODict.
Proof. by intros ?? [=]. Qed.

Lemma OFloat_map_inj (m1 m2 : gmap string pyfloat) :
  ODict (OFloat <$> m1) = ODict (OFloat <$> m2) → m1 = m2.
Proof.
  intros Heq. apply ODict_inj in Heq.
  by apply (map_fmap_inj OFloat OFloat_inj) in Heq.
Qed.

Lemma LayerExecution_to_dict_lookup (e : LayerExecution.t) :
  let d := LayerExecution_to_dict e in
  d !! "layer_name" = Some (OStr (LayerExecution.layer_name e)) ∧
  d !! "layer_type" = Some (OStr (LayerExecution.layer_type e)) ∧
  d !! "flops" = Some (OFloat (LayerExecution.flops e)) ∧
  d !! "bytes_read" = Some (OFloat (LayerExecution.bytes_read e)) ∧
  d !! "bytes_written" = Some (OFloat (LayerExecution.bytes_written e)) ∧
  d !! "compute_time_ms" = Some (OFloat (LayerExecution.compute_time_ms e)) ∧
  d !! "memory_time_ms" = Some (OFloat (LayerExecution.memory_time_ms e)) ∧
  d !! "dominant_latency_ms" = Some (OFloat (LayerExecution.dominant_latency_ms e)) ∧
  d !! "estimated_execution_time_ms"
    = Some (OFloat (LayerExecution.estimated_execution_time_ms e)) ∧
  d !! "features" = Some (ODict (OFloat <$> LayerExecution.features e)) ∧
  d !! "breakdown"
    = Some (ODict ((λ m : gmap string pyfloat, ODict (OFloat <$> m))
                     <$> LayerExecution.breakdown e)).
Proof.
  unfold LayerExecution_to_dict, py_dict. cbn [fold_left fst snd].
  repeat split; by rewrite ?lookup_insert_ne by done; rewrite lookup_insert_eq.
Qed.

Lemma LayerExecution_to_dict_inj (e1 e2 : LayerExecution.t) :
  LayerExecution_to_dict e1 = LayerExecution_to_dict e2 → e1 = e2.
Proof.
  intros Heq.
  pose proof (LayerExecution_to_dict_lookup e1) as H1.
  pose proof (LayerExecution_to_dict_lookup e2) as H2.
  cbn zeta in H1, H2. rewrite Heq in H1.
  destruct H1 as (A1 & A2 & A3 & A4 & A5 & A6 & A7 & A8 & A9 & A10 & A11).
  destruct H2 as (B1 & B2 & B3 & B4 & B5 & B6 & B7 & B8 & B9 & B10 & B11).
  rewrite B1 in A1. rewrite B2 in A2. rewrite B3 in A3. rewrite B4 in A4.
  rewrite B5 in A5. rewrite B6 in A6. rewrite B7 in A7. rewrite B8 in A8.
  rewrite B9 in A9. rewrite B10 in A10. rewrite B11 in A11.
  injection A1 as A1. injection A2 as A2. injection A3 as A3. injection A4 as A4.
  injection A5 as A5. injection A6 as A6. injection A7 as A7. injection A8 as A8.
  injection A9 as A9.
  apply (inj Some) in A10. apply OFloat_map_inj in A10.
  apply (inj Some), ODict_inj in A11.
  apply (map_fmap_inj (λ m : gmap string pyfloat, ODict (OFloat <$> m))) in A11;
    [|intros ?? Hm; by apply OFloat_map_inj].
  destruct e1, e2. cbn in *. congruence.
Qed.

Lemma SimulationResult_to_dict_lookup (r : SimulationResult.t) :
  let d := SimulationResult_to_dict r in
  d !! "layers"
    = Some (OList ((λ layer, ODict (LayerExecution_to_dict layer))
                     <$> SimulationResult.layers r)) ∧
  d !! "total_flops" = Some (OFloat (SimulationResult.total_flops r)) ∧
  d !! "total_latency_ms" = Some (OFloat (SimulationResult.total_latency_ms r)) ∧
  d !! "peak_memory_bytes" = Some (OFloat (SimulationResult.peak_memory_bytes r)) ∧
  d !! "bottleneck_layer"
    = Some (match SimulationResult.bottleneck_layer r with
            | Some name => OStr name
            | None => ONone
            end).
Proof.
  unfold SimulationResult_to_dict, py_dict. cbn [fold_left fst snd].
  repeat split; by rewrite ?lookup_insert_ne by done; rewrite lookup_insert_eq.
Qed.

(** X25: [LayerExecution.to_dict] and [SimulationResult.to_dict] lose
    nothing: two executions with the same dictionary are the same execution,
    field by field, and two results with the same dictionary are the same
    result, layers in the same order; and the dictionary's bottleneck entry is
    [None] exactly when the result has no bottleneck. *)
Theorem X25_to_dict_keeps_everything :
  (∀ e1 e2, LayerExecution_to_dict e1 = LayerExecution_to_dict e2 → e1 = e2) ∧
  (∀ r1 r2, SimulationResult_to_dict r1 = SimulationResult_to_dict r2 → r1 = r2) ∧
  (∀ r, SimulationResult_to_dict r !! "bottleneck_layer" = Some ONone
        ↔ SimulationResult.bottleneck_layer r = None).
Proof.
  split; [exact LayerExecution_to_dict_inj|]. split.
  - intros r1 r2 Heq.
    pose proof (SimulationResult_to_dict_lookup r1) as H1.
    pose proof (SimulationResult_to_dict_lookup r2) as H2.
    cbn zeta in H1, H2. rewrite Heq in H1.
    destruct H1 as (A1 & A2 & A3 & A4 & A5), H2 as (B1 & B2 & B3 & B4 & B5).
    rewrite B1 in A1. rewrite B2 in A2. rewrite B3 in A3. rewrite B4 in A4.
    rewrite B5 in A5.
    injection A1 as A1. injection A2 as A2. injection A3 as A3. injection A4 as A4.
    apply (list_fmap_eq_inj (λ layer, ODict (LayerExecution_to_dict layer))) in A1;
      [|intros ?? Hm; by apply LayerExecution_to_dict_inj, ODict_inj].
    destruct r1 as [? ? ? ? b1], r2 as [? ? ? ? b2]. cbn in *.
    destruct b1, b2; try discriminate; congruence.
  - intros r. destruct (SimulationResult_to_dict_lookup r) as (_ & _ & _ & _ & ->).
    destruct (SimulationResult.bottleneck_layer r); split; congruence.
Qed.
